(** * Teacher availability and time accounting (backend/server.js)

    A shallow embedding of the status-transition handler
    [PUT /api/teachers/status], the read handler
    [GET /api/teachers/my-time], the roster query [GET /api/teachers],
    registration and the socket.io connection handler, over an explicit
    world: the two MongoDB collections, the server clock and the
    socket.io registry.

    Conventions.
    - A JavaScript [Date] is its time value, an integer number of
      milliseconds ([Z]).
    - A JavaScript [Number] holding seconds is an exact rational ([Q]);
      the rounding of IEEE doubles is not modelled.  Every concrete
      value used below (1.5, -1, 125, ...) is exactly representable.
    - Every [new Date()] consumes one reading of the server clock: the
      world counts the readings taken so far ([ticks]) and [clock n] is
      the n-th reading.
    - Every awaited store operation may reject; which ones do during a
      request is an input of the handler ([fails]).  A rejected
      operation has no effect on the store.
    - [put_teachers_status] is the status handler on a body whose
      [isAvailable] is a JSON boolean, the only values the teacher app
      sends; [put_teachers_status_body] is the same handler on any
      value a JSON body can carry.

    The second part of the file embeds the remaining routes of
    server.js (login, [authMiddleware], the query routes, the time
    column of the daily report) over a [Backend] that extends the world
    with the Query collection, and the list handlers and [formatTime]
    of the teacher and student apps. *)

From Stdlib Require Import ZArith QArith List String Bool Lia.
From Stdlib Require Import Qround DecimalString Permutation Sorted.
Import ListNotations.
Close Scope Q_scope.

Definition ObjectId := nat.
Definition SocketId := nat.
Definition Date := Z.

(** ** Section 5 of server.js: schemas *)

Module Teacher.
(** [teacherSchema].  [password] is [None] on a document projected
    with [select('-password')]; [lastAvailableTimestamp] is [None]
    when the field is undefined or null. *)
Record t := mk {
  _id : ObjectId;
  name : string;
  email : string;
  password : option string;
  phone : string;
  roomno : string;
  isAvailable : bool;
  lastAvailableTimestamp : option Date
}.

(** [Teacher.findById(id)] on the collection. *)
Definition findById (id : ObjectId) (coll : list t) : option t :=
  List.find (fun d => Nat.eqb (_id d) id) coll.

(** [Teacher.findOne({ email })]. *)
Definition findOne_email (e : string) (coll : list t) : option t :=
  List.find (fun d => String.eqb (email d) e) coll.

(** [.select('-password')] on one document. *)
Definition select_no_password (d : t) : t :=
  mk (_id d) (name d) (email d) None (phone d) (roomno d)
     (isAvailable d) (lastAvailableTimestamp d).

(** [Teacher.find().select('-password')]. *)
Definition find_select_no_password (coll : list t) : list t :=
  List.map select_no_password coll.

(** [doc.save()] of a document loaded from the collection: the stored
    document with the same [_id] is replaced. *)
Definition save (doc : t) (coll : list t) : list t :=
  List.map (fun d => if Nat.eqb (_id d) (_id doc) then doc else d) coll.

(** [doc.save()] of a freshly constructed document. *)
Definition insert (doc : t) (coll : list t) : list t := coll ++ [doc].
End Teacher.

Module TimeRecord.
(** [timeRecordSchema]: [totalAvailableTime] is in seconds. *)
Record t := mk {
  teacher : ObjectId;
  date : Date;
  totalAvailableTime : Q
}.

Definition matches (teacherId : ObjectId) (day : Date) (r : t) : bool :=
  Nat.eqb (teacher r) teacherId && Z.eqb (date r) day.

(** [TimeRecord.findOne({ teacher, date })]. *)
Definition findOne (teacherId : ObjectId) (day : Date) (coll : list t)
  : option t :=
  List.find (matches teacherId day) coll.

(** [TimeRecord.findOneAndUpdate({ teacher, date },
      { $inc: { totalAvailableTime: amount } }, { upsert: true })]:
    the first matching document is incremented; when none matches a
    document is created from the filter, its counter starting at the
    schema default 0, and incremented. *)
Fixpoint findOneAndUpdate_inc (teacherId : ObjectId) (day : Date)
    (amount : Q) (coll : list t) : list t :=
  match coll with
  | [] => [mk teacherId day (0 + amount)%Q]
  | r :: rest =>
      if matches teacherId day r
      then mk (teacher r) (date r) (totalAvailableTime r + amount)%Q :: rest
      else r :: findOneAndUpdate_inc teacherId day amount rest
  end.
End TimeRecord.

(** ** The world the handlers run in *)

(** Events the server emits on the socket.io channel. *)
Inductive Event :=
| statusUpdate (allTeachers : list Teacher.t).

Record World := mkWorld {
  Teachers : list Teacher.t;          (* the Teacher collection *)
  TimeRecords : list TimeRecord.t;    (* the TimeRecord collection *)
  nextObjectId : ObjectId;            (* ObjectId generator *)
  ticks : nat;                        (* clock readings taken so far *)
  sockets : list SocketId;            (* connected sockets *)
  rooms : list (SocketId * ObjectId); (* socket.join memberships *)
  outbox : list (SocketId * Event)    (* deliveries, oldest first *)
}.

Definition initialWorld : World := mkWorld [] [] 0 0 [] [] [].

Definition set_Teachers (c : list Teacher.t) (w : World) : World :=
  mkWorld c (TimeRecords w) (nextObjectId w) (ticks w)
          (sockets w) (rooms w) (outbox w).

Definition set_TimeRecords (c : list TimeRecord.t) (w : World) : World :=
  mkWorld (Teachers w) c (nextObjectId w) (ticks w)
          (sockets w) (rooms w) (outbox w).

(** ** Handlers as state-and-exception computations *)

(** The awaited store operations of the handlers. *)
Inductive DbOp :=
| Op_Teacher_findById
| Op_Teacher_findOne
| Op_Teacher_find
| Op_Teacher_save
| Op_TimeRecord_findOneAndUpdate
| Op_TimeRecord_findOne.

Inductive Result (A : Type) :=
| Return (a : A)
| Throw (op : DbOp).
Arguments Return {A} a.
Arguments Throw {A} op.

Definition M (A : Type) := World -> World * Result A.

Definition ret {A} (a : A) : M A := fun w => (w, Return a).

Definition bind {A B} (m : M A) (k : A -> M B) : M B :=
  fun w =>
    match m w with
    | (w', Return a) => k a w'
    | (w', Throw op) => (w', Throw op)
    end.

(** [try { body } catch (error) { handler }]. *)
Definition try_catch {A} (body : M A) (handler : DbOp -> M A) : M A :=
  fun w =>
    match body w with
    | (w', Return a) => (w', Return a)
    | (w', Throw op) => handler op w'
    end.

Declare Scope handler_scope.
Delimit Scope handler_scope with handler.
Notation "x <- m ;; k" := (bind m (fun x => k))
  (at level 61, m at next level, right associativity) : handler_scope.
Notation "m ;;; k" := (bind m (fun _ => k))
  (at level 61, right associativity) : handler_scope.

(** Responses: [res.status(s).json(body)]. *)
Inductive Body :=
| TeacherDoc (d : Teacher.t)
| TeacherList (l : list Teacher.t)
| TotalAvailableTime (seconds : Q)
| Message (m : string).

Record Response := mkResponse { status : nat; body : Body }.

Definition json (b : Body) : Response := mkResponse 200 b.

Section Server.
(** [startOfDay] of date-fns: the first instant of the calendar day
    (in the server's time zone) that contains its argument. *)
Variable startOfDay : Date -> Date.
(** The successive readings of the server's wall clock. *)
Variable clock : nat -> Date.
(** [bcrypt.hash(password, salt)] with the salt of [bcrypt.genSalt]. *)
Variable bcrypt_hash : string -> string.

(** [new Date()]. *)
Definition new_Date : M Date :=
  fun w =>
    (mkWorld (Teachers w) (TimeRecords w) (nextObjectId w) (S (ticks w))
             (sockets w) (rooms w) (outbox w),
     Return (clock (ticks w))).

(** [io.emit(event)]: one delivery to every connected socket. *)
Definition io_emit (ev : Event) : M unit :=
  fun w =>
    (mkWorld (Teachers w) (TimeRecords w) (nextObjectId w) (ticks w)
             (sockets w) (rooms w)
             (outbox w ++ List.map (fun s => (s, ev)) (sockets w)),
     Return tt).

(** [(now - new Date(lastAvailableTimestamp)) / 1000], in seconds. *)
Definition sessionDuration (now last : Date) : Q :=
  (inject_Z (now - last) / 1000)%Q.

Section Handlers.
(** The store operations that reject during the request. *)
Variable fails : DbOp -> bool.

(** [await op]: the operation rejects, leaving the world as it is,
    or runs. *)
Definition await {A} (op : DbOp) (run : World -> World * A) : M A :=
  fun w =>
    if fails op then (w, Throw op)
    else let (w', a) := run w in (w', Return a).

Definition Teacher_findById (id : ObjectId) : M (option Teacher.t) :=
  await Op_Teacher_findById
    (fun w => (w, Teacher.findById id (Teachers w))).

Definition Teacher_findOne (e : string) : M (option Teacher.t) :=
  await Op_Teacher_findOne
    (fun w => (w, Teacher.findOne_email e (Teachers w))).

Definition Teacher_find_select : M (list Teacher.t) :=
  await Op_Teacher_find
    (fun w => (w, Teacher.find_select_no_password (Teachers w))).

Definition teacher_save (doc : Teacher.t) : M unit :=
  await Op_Teacher_save
    (fun w => (set_Teachers (Teacher.save doc (Teachers w)) w, tt)).

Definition newTeacher_save (doc : Teacher.t) : M unit :=
  await Op_Teacher_save
    (fun w =>
       (mkWorld (Teacher.insert doc (Teachers w)) (TimeRecords w)
                (S (nextObjectId w)) (ticks w)
                (sockets w) (rooms w) (outbox w), tt)).

Definition TimeRecord_findOneAndUpdate
    (teacherId : ObjectId) (day : Date) (amount : Q) : M unit :=
  await Op_TimeRecord_findOneAndUpdate
    (fun w =>
       (set_TimeRecords
          (TimeRecord.findOneAndUpdate_inc teacherId day amount
             (TimeRecords w)) w, tt)).

Definition TimeRecord_findOne (teacherId : ObjectId) (day : Date)
  : M (option TimeRecord.t) :=
  await Op_TimeRecord_findOne
    (fun w => (w, TimeRecord.findOne teacherId day (TimeRecords w))).

Local Open Scope handler_scope.

(** [app.post('/api/auth/register')]. *)
Definition post_auth_register
    (name email password phone roomno : string) : M Response :=
  try_catch
    (if String.eqb name "" || String.eqb email ""
        || String.eqb password "" || String.eqb phone ""
        || String.eqb roomno ""
     then ret (mkResponse 400
                 (Message "Please provide all required fields."))
     else
       existingTeacher <- Teacher_findOne email ;;
       match existingTeacher with
       | Some _ =>
           ret (mkResponse 400
                  (Message "Teacher with this email already exists."))
       | None =>
           let hashedPassword := bcrypt_hash password in
           id <- (fun w => (w, Return (nextObjectId w))) ;;
           let newTeacher :=
             Teacher.mk id name email (Some hashedPassword) phone roomno
                        false None in
           newTeacher_save newTeacher ;;;
           ret (mkResponse 201
                  (Message "Teacher registered successfully."))
       end)
    (fun error =>
       ret (mkResponse 500
              (Message "Server error during registration."))).

(** [app.get('/api/teachers')]. *)
Definition get_teachers : M Response :=
  try_catch
    (teachers <- Teacher_find_select ;;
     ret (json (TeacherList teachers)))
    (fun error =>
       ret (mkResponse 500 (Message "Server error fetching teachers."))).

(** [app.put('/api/teachers/status')], behind [authMiddleware], on a
    body whose [isAvailable] is a JSON boolean: [teacherId] is the
    authenticated [req.teacher.id] and [isAvailable] is
    [req.body.isAvailable].  [put_teachers_status_body] below is the
    handler on any value of the body. *)
Definition put_teachers_status
    (teacherId : ObjectId) (isAvailable : bool) : M Response :=
  try_catch
    (teacher <- Teacher_findById teacherId ;;
     match teacher with
     | None => ret (mkResponse 404 (Message "Teacher not found."))
     | Some teacher =>
         (if Teacher.isAvailable teacher && negb isAvailable then
            match Teacher.lastAvailableTimestamp teacher with
            | Some last =>
                now <- new_Date ;;
                let sessionDuration := sessionDuration now last in
                now' <- new_Date ;;
                let today := startOfDay now' in
                TimeRecord_findOneAndUpdate teacherId today
                                            sessionDuration
            | None => ret tt
            end
          else ret tt) ;;;
         stamp <- (if isAvailable
                   then now <- new_Date ;; ret (Some now)
                   else ret None) ;;
         let teacher :=
           Teacher.mk (Teacher._id teacher) (Teacher.name teacher)
                      (Teacher.email teacher) (Teacher.password teacher)
                      (Teacher.phone teacher) (Teacher.roomno teacher)
                      isAvailable stamp in
         teacher_save teacher ;;;
         allTeachers <- Teacher_find_select ;;
         io_emit (statusUpdate allTeachers) ;;;
         ret (json (TeacherDoc teacher))
     end)
    (fun error =>
       ret (mkResponse 500 (Message "Server error updating status."))).

(** [app.get('/api/teachers/my-time')]. *)
Definition get_teachers_my_time (teacherId : ObjectId) : M Response :=
  try_catch
    (now <- new_Date ;;
     let today := startOfDay now in
     record <- TimeRecord_findOne teacherId today ;;
     ret (json (TotalAvailableTime
                  match record with
                  | Some record => TimeRecord.totalAvailableTime record
                  | None => 0%Q
                  end)))
    (fun error =>
       ret (mkResponse 500
              (Message "Server error fetching time record."))).
End Handlers.

(** [io.on('connection', socket => ...)]: the socket joins the
    connected set; the handler only logs and registers the
    [joinRoom] and [disconnect] listeners. *)
Definition on_connection (socket : SocketId) (w : World) : World :=
  mkWorld (Teachers w) (TimeRecords w) (nextObjectId w) (ticks w)
          (socket :: sockets w) (rooms w) (outbox w).

(** [socket.on('joinRoom', teacherId => socket.join(teacherId))]. *)
Definition on_joinRoom (socket : SocketId) (teacherId : ObjectId)
    (w : World) : World :=
  mkWorld (Teachers w) (TimeRecords w) (nextObjectId w) (ticks w)
          (sockets w) ((socket, teacherId) :: rooms w) (outbox w).

(** [socket.on('disconnect')]: the socket leaves the connected set and
    its rooms. *)
Definition on_disconnect (socket : SocketId) (w : World) : World :=
  mkWorld (Teachers w) (TimeRecords w) (nextObjectId w) (ticks w)
          (List.filter (fun s => negb (Nat.eqb s socket)) (sockets w))
          (List.filter (fun m => negb (Nat.eqb (fst m) socket)) (rooms w))
          (outbox w).

(** ** Requests and runs of the server *)

Inductive Request :=
| Register (name email password phone roomno : string)
           (fails : DbOp -> bool)
| GetTeachers (fails : DbOp -> bool)
| PutStatus (teacherId : ObjectId) (isAvailable : bool)
            (fails : DbOp -> bool)
| GetMyTime (teacherId : ObjectId) (fails : DbOp -> bool)
| Connect (socket : SocketId)
| JoinRoom (socket : SocketId) (teacherId : ObjectId)
| Disconnect (socket : SocketId).

(** The world after the server has served one request. *)
Definition step (w : World) (r : Request) : World :=
  match r with
  | Register n e p ph rn fails =>
      fst (post_auth_register fails n e p ph rn w)
  | GetTeachers fails => fst (get_teachers fails w)
  | PutStatus id a fails => fst (put_teachers_status fails id a w)
  | GetMyTime id fails => fst (get_teachers_my_time fails id w)
  | Connect s => on_connection s w
  | JoinRoom s id => on_joinRoom s id w
  | Disconnect s => on_disconnect s w
  end.

Definition run (w : World) (rs : list Request) : World :=
  List.fold_left step rs w.
End Server.

(** ** Concrete environments used by the examples *)

(** [startOfDay] on a server whose time zone is UTC. *)
Definition utc_startOfDay (d : Date) : Date := (d - d mod 86400000)%Z.

(** A clock given by its first readings; it then stays at [rest]. *)
Definition clock_of (readings : list Date) (rest : Date) (n : nat) : Date :=
  List.nth n readings rest.

Definition sample_hash (p : string) : string := ("$2a$10$" ++ p)%string.

Definition no_faults : DbOp -> bool := fun _ => false.

Definition DbOp_eqb (a b : DbOp) : bool :=
  match a, b with
  | Op_Teacher_findById, Op_Teacher_findById
  | Op_Teacher_findOne, Op_Teacher_findOne
  | Op_Teacher_find, Op_Teacher_find
  | Op_Teacher_save, Op_Teacher_save
  | Op_TimeRecord_findOneAndUpdate, Op_TimeRecord_findOneAndUpdate
  | Op_TimeRecord_findOne, Op_TimeRecord_findOne => true
  | _, _ => false
  end.

(** Exactly the store operation [op] rejects. *)
Definition only_fails (op : DbOp) : DbOp -> bool := fun o => DbOp_eqb o op.

(** One teacher has registered and one client is connected. *)
Definition world_T (clock : nat -> Date) : World :=
  run utc_startOfDay clock sample_hash initialWorld
    [Register "T" "t@school.example" "secret" "555-0100" "R101" no_faults;
     Connect 7%nat].

(** The registered teacher of [world_T]. *)
Definition teacher_T : Teacher.t :=
  Teacher.mk 0 "T" "t@school.example" (Some "$2a$10$secret"%string)
             "555-0100" "R101" false None.

(** [world_T] after the teacher has gone available. *)
Definition world_open (clock : nat -> Date) : World :=
  run utc_startOfDay clock sample_hash (world_T clock)
    [PutStatus 0 true no_faults].

(** [world_open] after the teacher has gone unavailable again. *)
Definition world_closed (clock : nat -> Date) : World :=
  run utc_startOfDay clock sample_hash (world_open clock)
    [PutStatus 0 false no_faults].

(** Available at 0 s, unavailable at 125 s, total read at 130 s. *)
Definition clock_125 : nat -> Date :=
  clock_of [0; 125000; 125000; 130000]%Z 130000%Z.

(** A reading every 1.5 s. *)
Definition clock_steady (n : nat) : Date := (1500 * Z.of_nat n)%Z.

(** The clock is set back by one second while the teacher is available. *)
Definition clock_skew : nat -> Date := clock_of [2000; 1000; 1000]%Z 1000%Z.


(** Two requests to go available, 5 s apart. *)
Definition clock_twice : nat -> Date := clock_of [0; 5000]%Z 5000%Z.

(** A teacher who is marked available but carries no timestamp, as left
    by a writer that sets [isAvailable] alone. *)
Definition teacher_L : Teacher.t :=
  Teacher.mk 0 "L" "l@school.example" (Some "$2a$10$legacy"%string)
             "555-0101" "R102" true None.

Definition world_legacy : World :=
  mkWorld [teacher_L] [] 1 0 [7%nat] [] [].

(** ** Vocabulary of the properties *)

(** The ledger's read: the committed total of the record of
    [(teacherId, day)], 0 when there is none
    ([record ? record.totalAvailableTime : 0]). *)
Definition ledger_get (teacherId : ObjectId) (day : Date)
    (coll : list TimeRecord.t) : Q :=
  match TimeRecord.findOne teacherId day coll with
  | Some record => TimeRecord.totalAvailableTime record
  | None => 0%Q
  end.

(** The key of a time record. *)
Definition key (r : TimeRecord.t) : ObjectId * Date :=
  (TimeRecord.teacher r, TimeRecord.date r).

(** The data-model invariant of a teacher: the timestamp is present
    exactly when the teacher is available. *)
Definition Teacher_invariant (d : Teacher.t) : Prop :=
  Teacher.isAvailable d =
  match Teacher.lastAvailableTimestamp d with
  | Some _ => true
  | None => false
  end.

(** The teacher document after the handler's two assignments. *)
Definition with_status (d : Teacher.t) (isAvailable : bool)
    (stamp : option Date) : Teacher.t :=
  Teacher.mk (Teacher._id d) (Teacher.name d) (Teacher.email d)
             (Teacher.password d) (Teacher.phone d) (Teacher.roomno d)
             isAvailable stamp.


(** The clock never runs backwards. *)
Definition monotone (clock : nat -> Date) : Prop :=
  forall i j, (i <= j)%nat -> (clock i <= clock j)%Z.

(** None of the store operations of a status request is rejected. *)
Definition served (fails : DbOp -> bool) : Prop :=
  fails Op_Teacher_findById = false /\
  fails Op_TimeRecord_findOneAndUpdate = false /\
  fails Op_Teacher_save = false /\
  fails Op_Teacher_find = false.




(** ** The remaining routes of server.js *)

Module Query.
Inductive Status := pending | ended.
Inductive Resolution := satisfied | not_satisfied.

(** [querySchema], with the [createdAt] and [updatedAt] of
    [timestamps: true]. *)
Record t := mk {
  _id : ObjectId;
  studentName : string;
  queryText : string;
  teacher : ObjectId;
  status : Status;
  resolution : option Resolution;
  createdAt : Date;
  updatedAt : Date
}.

Definition is_pending (q : t) : bool :=
  match status q with pending => true | ended => false end.

(** [Query.find({ teacher: teacherId, status: 'pending' })]. *)
Definition find_pending (teacherId : ObjectId) (coll : list t) : list t :=
  List.filter (fun q => Nat.eqb (teacher q) teacherId && is_pending q) coll.

(** [.sort({ createdAt: -1 })]: newest first.  Documents created at the
    same instant keep the order of the collection. *)
Fixpoint insert_desc (q : t) (l : list t) : list t :=
  match l with
  | [] => [q]
  | x :: rest =>
      if (createdAt x <=? createdAt q)%Z then q :: l
      else x :: insert_desc q rest
  end.

Definition sort_createdAt_desc (l : list t) : list t :=
  List.fold_right insert_desc [] l.

(** [findOneAndUpdate(filter, update, { new: true })]: the first
    document passing [filter] is updated and returned; [None] when no
    document passes. *)
Fixpoint findOneAndUpdate (filter : t -> bool) (update : t -> t)
    (coll : list t) : list t * option t :=
  match coll with
  | [] => ([], None)
  | q :: rest =>
      if filter q then (update q :: rest, Some (update q))
      else let (rest', found) := findOneAndUpdate filter update rest in
           (q :: rest', found)
  end.

(** [{ status: 'ended' }], stamped by [timestamps]. *)
Definition set_ended (now : Date) (q : t) : t :=
  mk (_id q) (studentName q) (queryText q) (teacher q) ended
     (resolution q) (createdAt q) now.

(** [{ resolution }], stamped by [timestamps]. *)
Definition set_resolution (r : Resolution) (now : Date) (q : t) : t :=
  mk (_id q) (studentName q) (queryText q) (teacher q) (status q)
     (Some r) (createdAt q) now.
End Query.

(** The events of the query routes. *)
Inductive QueryEvent :=
| ev_newQuery (q : Query.t)
| ev_queryUpdated (q : Query.t).

(** The world of the claims' handlers together with the Query
    collection and the deliveries of query events. *)
Record Backend := mkBackend {
  world : World;
  Queries : list Query.t;
  nextQueryId : ObjectId;
  queryOutbox : list (SocketId * QueryEvent)   (* oldest first *)
}.

Definition initialBackend : Backend := mkBackend initialWorld [] 0 [] .

(** The awaited store operations of the query routes. *)
Inductive QueryOp :=
| Op_Query_save
| Op_Query_find
| Op_Query_findOneAndUpdate
| Op_Query_findByIdAndUpdate.

Inductive QueryBody :=
| QueryDoc (q : Query.t)
| QueryList (l : list Query.t)
| QueryMessage (m : string).

Record QueryResponse := mkQueryResponse { qstatus : nat; qbody : QueryBody }.

(** The body of a successful login: [{ token, teacher: { id, name,
    email, isAvailable } }]. *)
Inductive LoginBody :=
| LoginToken (token : string) (id : ObjectId) (name email : string)
             (isAvailable : bool)
| LoginMessage (m : string).

(** What a route behind [authMiddleware] answers: the middleware's own
    response, or the response of the route. *)
Inductive Guarded (R : Type) :=
| Denied (status : nat) (message : string)
| Served (r : R).
Arguments Denied {R} status message.
Arguments Served {R} r.

(** The sockets [io.to(room)] reaches: the connected sockets that have
    joined [room]. *)
Definition room_members (room : ObjectId) (w : World) : list SocketId :=
  List.filter
    (fun s =>
       List.existsb (fun m => Nat.eqb (fst m) s && Nat.eqb (snd m) room)
                    (rooms w))
    (sockets w).

(** ['satisfied'] and ['not_satisfied'] are the values
    [['satisfied', 'not_satisfied'].includes] accepts. *)
Definition parse_resolution (s : string) : option Query.Resolution :=
  if String.eqb s "satisfied" then Some Query.satisfied
  else if String.eqb s "not_satisfied" then Some Query.not_satisfied
  else None.

(** A value of a parsed JSON body ([express.json()]).  [v_null] is
    [null] or an absent field, [v_object] an array or an object. *)
Inductive Value :=
| v_null
| v_bool (b : bool)
| v_number (n : Q)
| v_string (s : string)
| v_object.

(** The truthiness JavaScript's [!v] and [v ? _ : _] test: [false], [0],
    the empty string, [null] and [undefined] are falsy. *)
Definition truthy (v : Value) : bool :=
  match v with
  | v_null => false
  | v_bool b => b
  | v_number n => negb (Qeq_bool n 0)
  | v_string s => negb (String.eqb s "")
  | v_object => true
  end.

(** The cast Mongoose applies when a value is assigned to a path of
    type [Boolean] (teacherSchema, line 44): [true], ['true'], [1],
    ['1'] and ['yes'] are stored as true; [false], ['false'], [0],
    ['0'] and ['no'] as false; [null] stays null, which every read of
    [isAvailable] treats as false; any other value has no cast
    ([None]) and makes the document fail validation when it is saved. *)
Definition castBoolean (v : Value) : option bool :=
  match v with
  | v_null => Some false
  | v_bool b => Some b
  | v_number n =>
      if Qeq_bool n 1 then Some true
      else if Qeq_bool n 0 then Some false
      else None
  | v_string s =>
      if String.eqb s "true" || String.eqb s "1" || String.eqb s "yes"
      then Some true
      else if String.eqb s "false" || String.eqb s "0" || String.eqb s "no"
      then Some false
      else None
  | v_object => None
  end.

Section Routes.
Variable startOfDay : Date -> Date.
Variable clock : nat -> Date.
Variable bcrypt_hash : string -> string.
(** [bcrypt.compare(password, hash)]. *)
Variable bcrypt_compare : string -> string -> bool.
(** [jwt.sign({ id }, JWT_SECRET, { expiresIn: '30d' })] and the [id] of
    the payload [jwt.verify(token, JWT_SECRET)] returns, [None] when it
    throws. *)
Variable jwt_sign : ObjectId -> string.
Variable jwt_verify : string -> option ObjectId.

(** [authMiddleware]; [token] is [req.header('x-auth-token')], [None]
    when the header is absent. *)
Definition authMiddleware {S R : Type} (token : option string)
    (next : ObjectId -> S -> S * R) (s : S) : S * Guarded R :=
  match token with
  | None => (s, Denied 401 "No token, authorization denied")
  | Some tok =>
      if String.eqb tok "" then (s, Denied 401 "No token, authorization denied")
      else
        match jwt_verify tok with
        | Some id => let (s', r) := next id s in (s', Served r)
        | None => (s, Denied 400 "Token is not valid")
        end
  end.

Local Open Scope handler_scope.

(** [app.post('/api/auth/login')]; [email] and [password] are the
    strings of the request body. *)
Definition post_auth_login (fails : DbOp -> bool)
    (email password : string) : M (nat * LoginBody) :=
  try_catch
    (teacher <- Teacher_findOne fails email ;;
     match teacher with
     | None => ret (400%nat, LoginMessage "Invalid credentials.")
     | Some teacher =>
         match Teacher.password teacher with
         | None =>
             (* [bcrypt.compare] throws on a missing hash *)
             ret (500%nat, LoginMessage "Server error during login.")
         | Some hash =>
             let isMatch := bcrypt_compare password hash in
             if negb isMatch
             then ret (400%nat, LoginMessage "Invalid credentials.")
             else
               let token := jwt_sign (Teacher._id teacher) in
               ret (200%nat,
                    LoginToken token (Teacher._id teacher)
                               (Teacher.name teacher) (Teacher.email teacher)
                               (Teacher.isAvailable teacher))
         end
     end)
    (fun error => ret (500%nat, LoginMessage "Server error during login.")).

(** The routes of the claims behind [authMiddleware], as the server
    mounts them. *)
Definition PUT_teachers_status (fails : DbOp -> bool)
    (token : option string) (isAvailable : bool) (w : World)
  : World * Guarded (Result Response) :=
  authMiddleware token
    (fun id => put_teachers_status startOfDay clock fails id isAvailable) w.

Definition GET_teachers_my_time (fails : DbOp -> bool)
    (token : option string) (w : World)
  : World * Guarded (Result Response) :=
  authMiddleware token
    (fun id => get_teachers_my_time startOfDay clock fails id) w.

(** [app.put('/api/teachers/status')] (lines 148-184) on whatever value
    the body carries: [isAvailable] is [req.body.isAvailable], which the
    handler does not validate.  Lines 156 and 172 test the truthiness of
    the value; the assignment of line 171 stores its [Boolean] cast, and
    a value without a cast makes [teacher.save()] reject.  On a JSON
    boolean this is [put_teachers_status]. *)
Definition put_teachers_status_body (fails : DbOp -> bool)
    (teacherId : ObjectId) (isAvailable : Value) : M Response :=
  try_catch
    (teacher <- Teacher_findById fails teacherId ;;
     match teacher with
     | None => ret (mkResponse 404 (Message "Teacher not found."))
     | Some teacher =>
         (if Teacher.isAvailable teacher && negb (truthy isAvailable) then
            match Teacher.lastAvailableTimestamp teacher with
            | Some last =>
                now <- new_Date clock ;;
                let sessionDuration := sessionDuration now last in
                now' <- new_Date clock ;;
                let today := startOfDay now' in
                TimeRecord_findOneAndUpdate fails teacherId today
                                            sessionDuration
            | None => ret tt
            end
          else ret tt) ;;;
         stamp <- (if truthy isAvailable
                   then now <- new_Date clock ;; ret (Some now)
                   else ret None) ;;
         match castBoolean isAvailable with
         | None =>
             (* [await teacher.save()] rejects: validation failed *)
             (fun w => (w, Throw Op_Teacher_save))
         | Some cast =>
             let teacher :=
               Teacher.mk (Teacher._id teacher) (Teacher.name teacher)
                          (Teacher.email teacher) (Teacher.password teacher)
                          (Teacher.phone teacher) (Teacher.roomno teacher)
                          cast stamp in
             teacher_save fails teacher ;;;
             allTeachers <- Teacher_find_select fails ;;
             io_emit (statusUpdate allTeachers) ;;;
             ret (json (TeacherDoc teacher))
         end
     end)
    (fun error =>
       ret (mkResponse 500 (Message "Server error updating status."))).

(** A clock reading taken by the store layer ([timestamps]). *)
Definition tick (b : Backend) : Backend :=
  mkBackend (fst (new_Date clock (world b))) (Queries b) (nextQueryId b)
            (queryOutbox b).

Definition emit_to (recipients : list SocketId) (ev : QueryEvent)
    (b : Backend) : Backend :=
  mkBackend (world b) (Queries b) (nextQueryId b)
            (queryOutbox b ++ List.map (fun s => (s, ev)) recipients).

Section QueryRoutes.
(** The store operations on queries that reject during the request. *)
Variable qfails : QueryOp -> bool.

(** [app.post('/api/queries')]; [teacherId] is [None] when the body has
    no (or an empty) [teacherId]. *)
Definition post_queries (studentName queryText : string)
    (teacherId : option ObjectId) (b : Backend) : Backend * QueryResponse :=
  match teacherId with
  | None => (b, mkQueryResponse 400 (QueryMessage "Missing required fields."))
  | Some teacherId =>
      if String.eqb studentName "" || String.eqb queryText ""
      then (b, mkQueryResponse 400 (QueryMessage "Missing required fields."))
      else
        let now := clock (ticks (world b)) in
        let newQuery :=
          Query.mk (nextQueryId b) studentName queryText teacherId
                   Query.pending None now now in
        let b := tick b in
        if qfails Op_Query_save
        then (b, mkQueryResponse 500
                   (QueryMessage "Server error creating query."))
        else
          let b := mkBackend (world b) (Queries b ++ [newQuery])
                             (S (nextQueryId b)) (queryOutbox b) in
          let b := emit_to (room_members teacherId (world b))
                           (ev_newQuery newQuery) b in
          (b, mkQueryResponse 201 (QueryDoc newQuery))
  end.

(** [app.get('/api/queries/teacher')], after [authMiddleware]. *)
Definition get_queries_teacher (teacherId : ObjectId) (b : Backend)
  : Backend * QueryResponse :=
  if qfails Op_Query_find
  then (b, mkQueryResponse 500
             (QueryMessage "Server error fetching queries."))
  else
    let queries :=
      Query.sort_createdAt_desc (Query.find_pending teacherId (Queries b)) in
    (b, mkQueryResponse 200 (QueryList queries)).

(** [app.put('/api/queries/:id/end')], after [authMiddleware]. *)
Definition put_queries_end (id teacherId : ObjectId) (b : Backend)
  : Backend * QueryResponse :=
  let now := clock (ticks (world b)) in
  let b := tick b in
  if qfails Op_Query_findOneAndUpdate
  then (b, mkQueryResponse 500 (QueryMessage "Server error ending query."))
  else
    match Query.findOneAndUpdate
            (fun q => Nat.eqb (Query._id q) id
                      && Nat.eqb (Query.teacher q) teacherId)
            (Query.set_ended now) (Queries b) with
    | (_, None) =>
        (b, mkQueryResponse 404
              (QueryMessage "Query not found or unauthorized."))
    | (coll, Some query) =>
        let b := mkBackend (world b) coll (nextQueryId b) (queryOutbox b) in
        let b := emit_to (sockets (world b)) (ev_queryUpdated query) b in
        (b, mkQueryResponse 200 (QueryDoc query))
    end.

(** [app.put('/api/queries/:id/resolve')]; [resolution] is the string of
    the request body. *)
Definition put_queries_resolve (id : ObjectId) (resolution : string)
    (b : Backend) : Backend * QueryResponse :=
  match parse_resolution resolution with
  | None =>
      (b, mkQueryResponse 400 (QueryMessage "Invalid resolution value."))
  | Some resolution =>
      let now := clock (ticks (world b)) in
      let b := tick b in
      if qfails Op_Query_findByIdAndUpdate
      then (b, mkQueryResponse 500
                 (QueryMessage "Server error resolving query."))
      else
        match Query.findOneAndUpdate
                (fun q => Nat.eqb (Query._id q) id)
                (Query.set_resolution resolution now) (Queries b) with
        | (_, None) =>
            (b, mkQueryResponse 404 (QueryMessage "Query not found."))
        | (coll, Some query) =>
            let b :=
              mkBackend (world b) coll (nextQueryId b) (queryOutbox b) in
            let b := emit_to (sockets (world b)) (ev_queryUpdated query) b in
            (b, mkQueryResponse 200 (QueryDoc query))
        end
  end.
End QueryRoutes.

(** The routes behind [authMiddleware], as the server mounts them. *)
Definition GET_queries_teacher (qfails : QueryOp -> bool)
    (token : option string) (b : Backend)
  : Backend * Guarded QueryResponse :=
  authMiddleware token (get_queries_teacher qfails) b.

Definition PUT_queries_end (qfails : QueryOp -> bool)
    (token : option string) (id : ObjectId) (b : Backend)
  : Backend * Guarded QueryResponse :=
  authMiddleware token (put_queries_end qfails id) b.

(** Requests to the whole backend: those of the claims' routes, which
    act on the world, and those of the query routes. *)
Inductive BackendRequest :=
| OnWorld (r : Request)
| PostQuery (studentName queryText : string) (teacherId : option ObjectId)
            (qfails : QueryOp -> bool)
| GetQueries (teacherId : ObjectId) (qfails : QueryOp -> bool)
| EndQuery (id teacherId : ObjectId) (qfails : QueryOp -> bool)
| ResolveQuery (id : ObjectId) (resolution : string)
               (qfails : QueryOp -> bool).

Definition backend_step (b : Backend) (r : BackendRequest) : Backend :=
  match r with
  | OnWorld r =>
      mkBackend (step startOfDay clock bcrypt_hash (world b) r)
                (Queries b) (nextQueryId b) (queryOutbox b)
  | PostQuery n t id qfails => fst (post_queries qfails n t id b)
  | GetQueries id qfails => fst (get_queries_teacher qfails id b)
  | EndQuery id tid qfails => fst (put_queries_end qfails id tid b)
  | ResolveQuery id r qfails => fst (put_queries_resolve qfails id r b)
  end.

Definition backend_run (b : Backend) (rs : list BackendRequest) : Backend :=
  List.fold_left backend_step rs b.
End Routes.

(** ** The daily report's time column *)

(** The time value of [new Date(number)]: the number without its
    fraction. *)
Definition Qtrunc (q : Q) : Z := Z.quot (Qnum q) (Zpos (Qden q)).

(** Two decimal digits, for a number from 0 to 99. *)
Definition two_digits (n : Z) : string :=
  String (Ascii.ascii_of_nat (48 + Z.to_nat (n / 10)))
    (String (Ascii.ascii_of_nat (48 + Z.to_nat (n mod 10))) EmptyString).

(** The "HH:mm:ss" of [toISOString()]: hour, minute and second of the
    time value [tv] within its day. *)
Definition iso_time (tv : Z) : string :=
  (two_digits ((tv / 3600000) mod 24) ++ ":"
   ++ two_digits ((tv / 60000) mod 60) ++ ":"
   ++ two_digits ((tv / 1000) mod 60))%string.

(** [new Date(record.totalAvailableTime * 1000).toISOString()
      .substr(11, 8)] for a time value whose year has four digits
    (0000 to 9999), where characters 11 to 18 of the ISO string are
    "HH:mm:ss".  [None] outside that range, where the ISO string has
    another layout or the date is invalid. *)
Definition report_time (totalAvailableTime : Q) : option string :=
  let tv := Qtrunc (totalAvailableTime * 1000)%Q in
  if ((-62167219200000 <=? tv) && (tv <=? 253402300799999))%Z
  then Some (iso_time tv)
  else None.

(** ** The clients of the backend (teacher-app and student-app) *)

(** [String(v)] of a whole number. *)
Definition String_of_number (v : Z) : string :=
  NilZero.string_of_int (Z.to_int v).

(** JavaScript's [a % m]: the remainder has the sign of [a]. *)
Definition js_rem (a m : Q) : Q := (a - m * inject_Z (Qtrunc (a / m)))%Q.

(** [formatTime] of the teacher dashboard. *)
Definition formatTime (totalSeconds : Q) : string :=
  let totalSeconds :=
    if Qle_bool 0 totalSeconds then totalSeconds else 0%Q in
  let hours := Qfloor (totalSeconds / 3600) in
  let minutes := Qfloor (js_rem totalSeconds 3600 / 60) in
  let seconds := Qfloor (js_rem totalSeconds 60) in
  let pad v :=
    if (v <? 10)%Z then ("0" ++ String_of_number v)%string
    else String_of_number v in
  (pad hours ++ ":" ++ pad minutes ++ ":" ++ pad seconds)%string.

Module TeacherDashboard.
(** [handleNewQuery]: [setQueries(prev => [newQuery, ...prev])]. *)
Definition handleNewQuery (newQuery : Query.t) (prevQueries : list Query.t)
  : list Query.t :=
  newQuery :: prevQueries.

(** [handleQueryUpdate]: an ended query leaves the list. *)
Definition handleQueryUpdate (updatedQuery : Query.t)
    (prevQueries : list Query.t) : list Query.t :=
  match Query.status updatedQuery with
  | Query.ended =>
      List.filter
        (fun q => negb (Nat.eqb (Query._id q) (Query._id updatedQuery)))
        prevQueries
  | Query.pending => prevQueries
  end.

(** The two socket listeners of the dashboard. *)
Definition on_event (ev : QueryEvent) (queries : list Query.t)
  : list Query.t :=
  match ev with
  | ev_newQuery q => handleNewQuery q queries
  | ev_queryUpdated q => handleQueryUpdate q queries
  end.
End TeacherDashboard.

Module StudentApp.
(** [handleQueryUpdate]: the query with the same [_id] is replaced. *)
Definition handleQueryUpdate (updatedQuery : Query.t)
    (prevQueries : list Query.t) : list Query.t :=
  List.map
    (fun q =>
       if Nat.eqb (Query._id q) (Query._id updatedQuery)
       then updatedQuery else q)
    prevQueries.

(** [addMyQuery]: [[newQuery, ...prevQueries]]. *)
Definition addMyQuery (newQuery : Query.t) (prevQueries : list Query.t)
  : list Query.t :=
  newQuery :: prevQueries.

(** The socket listener of the student app ([queryUpdated] only). *)
Definition on_event (ev : QueryEvent) (myQueries : list Query.t)
  : list Query.t :=
  match ev with
  | ev_newQuery _ => myQueries
  | ev_queryUpdated q => handleQueryUpdate q myQueries
  end.

(** [teachers.filter(t => t.isAvailable)], the teachers offered by the
    query form. *)
Definition availableTeachers (teachers : list Teacher.t) : list Teacher.t :=
  List.filter Teacher.isAvailable teachers.
End StudentApp.

(** The events delivered to [socket], oldest first. *)
Definition delivered_to (socket : SocketId)
    (box : list (SocketId * QueryEvent)) : list QueryEvent :=
  List.map snd (List.filter (fun m => Nat.eqb (fst m) socket) box).

(** ** Concrete environments of the further examples *)

(** A [bcrypt.compare] for [sample_hash]. *)
Definition sample_compare (p hash : string) : bool :=
  String.eqb hash (sample_hash p).

(** A signer that knows the teacher 0, and its verifier. *)
Definition sample_sign (id : ObjectId) : string :=
  if Nat.eqb id 0 then "token-0"%string else "token-other"%string.

Definition sample_verify (tok : string) : option ObjectId :=
  if String.eqb tok "token-0" then Some 0%nat else None.

Definition no_qfaults : QueryOp -> bool := fun _ => false.

(** Teacher T has registered; socket 7 is connected and has joined the
    room of T. *)
Definition backend_joined (clock : nat -> Date) : Backend :=
  backend_run utc_startOfDay clock sample_hash initialBackend
    [OnWorld (Register "T" "t@school.example" "secret" "555-0100" "R101"
                       no_faults);
     OnWorld (Connect 7%nat);
     OnWorld (JoinRoom 7%nat 0%nat)].

(** [backend_joined] after a student has asked T a question. *)
Definition backend_asked (clock : nat -> Date) : Backend :=
  backend_run utc_startOfDay clock sample_hash (backend_joined clock)
    [PostQuery "Ann" "Recursion?" (Some 0%nat) no_qfaults].

(** The question of [backend_asked] under [clock_steady]. *)
Definition query_Ann : Query.t :=
  Query.mk 0 "Ann" "Recursion?" 0 Query.pending None 0%Z 0%Z.

(** ** Vocabulary of the further properties *)

(** Teachers have distinct [_id]s, all below the generator, and distinct
    emails. *)
Definition teachers_wf (w : World) : Prop :=
  NoDup (List.map Teacher._id (Teachers w)) /\
  NoDup (List.map Teacher.email (Teachers w)) /\
  Forall (fun d => (Teacher._id d < nextObjectId w)%nat) (Teachers w).

(** Queries have distinct [_id]s, all below the generator. *)
Definition queries_wf (b : Backend) : Prop :=
  NoDup (List.map Query._id (Queries b)) /\
  Forall (fun q => (Query._id q < nextQueryId b)%nat) (Queries b).

(** The fields of a query that no route writes after its creation. *)
Definition same_query (q q' : Query.t) : Prop :=
  Query._id q' = Query._id q /\
  Query.studentName q' = Query.studentName q /\
  Query.queryText q' = Query.queryText q /\
  Query.teacher q' = Query.teacher q /\
  Query.createdAt q' = Query.createdAt q.

(** "HH:MM:SS" of a number of whole seconds below 100 hours. *)
Definition hh_mm_ss (n : Z) : string :=
  (two_digits (n / 3600) ++ ":" ++ two_digits (n mod 3600 / 60) ++ ":"
   ++ two_digits (n mod 60))%string.

(** The dashboard's padding of one component:
    [v < 10 ? "0" + v : v]. *)
Definition pad2 (v : Z) : string :=
  if (v <? 10)%Z then ("0" ++ String_of_number v)%string
  else String_of_number v.

(** The events delivered to [socket] between the backend states [b] and
    [b'], oldest first. *)
Definition delivered_between (socket : SocketId) (b b' : Backend)
  : list QueryEvent :=
  List.skipn (List.length (delivered_to socket (queryOutbox b)))
             (delivered_to socket (queryOutbox b')).

(** A client's list after its listener has handled the events in
    order. *)
Definition handle_all (on_event : QueryEvent -> list Query.t -> list Query.t)
    (events : list QueryEvent) (queries : list Query.t) : list Query.t :=
  List.fold_left (fun qs ev => on_event ev qs) events queries.

(** Both timestamps of every stored query are readings the clock has
    given, [createdAt] not after [updatedAt] in the order of the
    readings. *)
Definition queries_timed (clock : nat -> Date) (b : Backend) : Prop :=
  Forall
    (fun q =>
       exists k k',
         (k <= k' < ticks (world b))%nat /\
         Query.createdAt q = clock k /\ Query.updatedAt q = clock k')
    (Queries b).

(** Successive readings of the clock differ and increase. *)
Definition strictly_increasing (clock : nat -> Date) : Prop :=
  forall i j, (i < j)%nat -> (clock i < clock j)%Z.

(** ** The ledger *)

Lemma matches_key teacherId day r :
  TimeRecord.matches teacherId day r = true <-> key r = (teacherId, day).
Proof.
  unfold TimeRecord.matches, key.
  rewrite andb_true_iff, Nat.eqb_eq, Z.eqb_eq.
  split; [intros [-> ->]; reflexivity | intros H; inversion H; auto].
Qed.

Lemma matches_false_key teacherId day r :
  TimeRecord.matches teacherId day r = false <-> key r <> (teacherId, day).
Proof.
  rewrite <- matches_key.
  destruct (TimeRecord.matches teacherId day r); split; congruence.
Qed.

(** The increment adds exactly [amount] to the total read at its key. *)
Lemma inc_get_same teacherId day amount coll :
  ledger_get teacherId day
    (TimeRecord.findOneAndUpdate_inc teacherId day amount coll)
  = (ledger_get teacherId day coll + amount)%Q.
Proof.
  unfold ledger_get, TimeRecord.findOneAndUpdate_inc, TimeRecord.findOne.
  induction coll as [|r rest IH]; cbn.
  - unfold TimeRecord.matches; cbn.
    now rewrite Nat.eqb_refl, Z.eqb_refl.
  - destruct (TimeRecord.matches teacherId day r) eqn:E; cbn.
    + unfold TimeRecord.matches in *; cbn. now rewrite E.
    + now rewrite E.
Qed.

(** The increment leaves the total read at every other key alone. *)
Lemma inc_get_other teacherId day amount coll teacherId' day' :
  (teacherId', day') <> (teacherId, day) ->
  ledger_get teacherId' day'
    (TimeRecord.findOneAndUpdate_inc teacherId day amount coll)
  = ledger_get teacherId' day' coll.
Proof.
  intros Hne.
  unfold ledger_get, TimeRecord.findOne.
  induction coll as [|r rest IH]; cbn.
  - destruct (TimeRecord.matches teacherId' day' _) eqn:E; [|reflexivity].
    apply matches_key in E. unfold key in E. cbn in E. congruence.
  - destruct (TimeRecord.matches teacherId day r) eqn:E; cbn.
    + apply matches_key in E.
      assert (E1 : TimeRecord.matches teacherId' day' r = false)
        by (apply matches_false_key; congruence).
      assert (E2 : TimeRecord.matches teacherId' day'
                     (TimeRecord.mk (TimeRecord.teacher r) (TimeRecord.date r)
                        (TimeRecord.totalAvailableTime r + amount)%Q) = false)
        by (apply matches_false_key; unfold key in *; cbn; congruence).
      now rewrite E1, E2.
    + destruct (TimeRecord.matches teacherId' day' r); [reflexivity|exact IH].
Qed.

(** With no record at the key, the increment appends a record that
    starts at 0. *)
Lemma inc_absent teacherId day amount coll :
  TimeRecord.findOne teacherId day coll = None ->
  TimeRecord.findOneAndUpdate_inc teacherId day amount coll
  = coll ++ [TimeRecord.mk teacherId day (0 + amount)%Q].
Proof.
  unfold TimeRecord.findOne.
  induction coll as [|r rest IH]; cbn; [reflexivity|].
  destruct (TimeRecord.matches teacherId day r); [discriminate|].
  intros H. now rewrite IH.
Qed.



Lemma NoDup_snoc {A} (l : list A) (x : A) :
  NoDup l -> ~ In x l -> NoDup (l ++ [x]).
Proof.
  induction 1 as [|y l Hy Hl IH]; cbn; intros Hx.
  - constructor; [intros []|constructor].
  - constructor.
    + rewrite in_app_iff. cbn. intros [H|[H|[]]]; [auto|subst; auto].
    + apply IH. auto.
Qed.


(** ** The Teacher collection *)

Lemma findById_id id coll d :
  Teacher.findById id coll = Some d -> Teacher._id d = id.
Proof.
  unfold Teacher.findById. intros H.
  apply find_some in H. now apply Nat.eqb_eq.
Qed.

(** After [save], [findById] returns the saved document. *)
Lemma findById_save id coll d d' :
  Teacher.findById id coll = Some d ->
  Teacher._id d' = Teacher._id d ->
  Teacher.findById id (Teacher.save d' coll) = Some d'.
Proof.
  intros Hfind Hid.
  pose proof (findById_id _ _ _ Hfind) as Hd. subst id.
  revert Hfind. unfold Teacher.findById, Teacher.save. rewrite Hid.
  induction coll as [|x rest IH]; cbn; [discriminate|].
  destruct (Nat.eqb (Teacher._id x) (Teacher._id d)) eqn:E; cbn.
  - intros _. now rewrite Hid, Nat.eqb_refl.
  - rewrite E. exact IH.
Qed.

(** [save] changes no document of another teacher. *)
Lemma findById_save_other id coll d' :
  Teacher._id d' <> id ->
  Teacher.findById id (Teacher.save d' coll) = Teacher.findById id coll.
Proof.
  intros Hne. unfold Teacher.findById, Teacher.save.
  induction coll as [|x rest IH]; cbn; [reflexivity|].
  destruct (Nat.eqb (Teacher._id x) (Teacher._id d')) eqn:E; cbn.
  - apply Nat.eqb_eq in E.
    assert (E1 : Nat.eqb (Teacher._id d') id = false)
      by now apply Nat.eqb_neq.
    assert (E2 : Nat.eqb (Teacher._id x) id = false)
      by (apply Nat.eqb_neq; congruence).
    now rewrite E1, E2.
  - now rewrite IH.
Qed.

Lemma save_Forall (P : Teacher.t -> Prop) d' coll :
  P d' -> Forall P coll -> Forall P (Teacher.save d' coll).
Proof.
  intros Hd H. unfold Teacher.save. apply Forall_map.
  eapply Forall_impl; [|exact H].
  intros x Hx. now destruct (Nat.eqb _ _).
Qed.

Lemma findById_In id coll d :
  Teacher.findById id coll = Some d -> In d coll.
Proof. unfold Teacher.findById. intros H. now apply find_some in H. Qed.

(** ** Unfolding the handlers *)

Ltac unfold_handler :=
  unfold put_teachers_status, get_teachers_my_time, get_teachers,
    post_auth_register, try_catch, bind, ret, Teacher_findById,
    Teacher_findOne, Teacher_find_select, teacher_save, newTeacher_save,
    TimeRecord_findOneAndUpdate, TimeRecord_findOne, await, new_Date,
    io_emit, json, set_Teachers, set_TimeRecords.

Section Properties.
Variable startOfDay : Date -> Date.
Variable clock : nat -> Date.
Variable bcrypt_hash : string -> string.

Local Abbreviation put_status := (put_teachers_status startOfDay clock).
Local Abbreviation my_time := (get_teachers_my_time startOfDay clock).

(** The world and the response of a downward transition that is served
    without a store failure. *)
Lemma put_status_down fails w teacherId d last :
  served fails ->
  Teacher.findById teacherId (Teachers w) = Some d ->
  Teacher.isAvailable d = true ->
  Teacher.lastAvailableTimestamp d = Some last ->
  put_status fails teacherId false w =
  (mkWorld (Teacher.save (with_status d false None) (Teachers w))
     (TimeRecord.findOneAndUpdate_inc teacherId
        (startOfDay (clock (S (ticks w))))
        (sessionDuration (clock (ticks w)) last) (TimeRecords w))
     (nextObjectId w) (S (S (ticks w))) (sockets w) (rooms w)
     (outbox w ++
      List.map
        (fun s =>
           (s, statusUpdate
                 (Teacher.find_select_no_password
                    (Teacher.save (with_status d false None) (Teachers w)))))
        (sockets w)),
   Return (mkResponse 200 (TeacherDoc (with_status d false None)))).
Proof.
  intros (F1 & F2 & F3 & F4) Hfind Hav Hts.
  unfold_handler. rewrite F1. cbn. rewrite Hfind, Hav. cbn.
  rewrite Hts. cbn. rewrite F2. cbn. rewrite F3. cbn. rewrite F4.
  reflexivity.
Qed.

(** C1.  A teacher who is available (and, as the data model's invariant
    has it, carries a timestamp) asks to become unavailable and no store
    operation is rejected.  Then the handler answers 200 with the
    updated teacher, whose [isAvailable] is false and whose timestamp is
    cleared, and that document is the stored one; the ledger has gone
    through one [findOneAndUpdate] increment by the elapsed seconds
    ([new Date()] minus [lastAvailableTimestamp], over 1000) at the key
    (teacherId, [startOfDay(new Date())]): the total read at that key
    grew by that amount, a record starting at 0 was appended when the
    key had none, and the totals of all other keys are as before.  The
    two [new Date()] of the handler are its first and second clock
    readings. *)
Theorem C1_down_transition_commits_session fails w teacherId d :
  served fails ->
  Teacher.findById teacherId (Teachers w) = Some d ->
  Teacher.isAvailable d = true ->
  Teacher_invariant d ->
  exists last,
    Teacher.lastAvailableTimestamp d = Some last /\
    let now := clock (ticks w) in
    let today := startOfDay (clock (S (ticks w))) in
    let elapsed := sessionDuration now last in
    let d' := with_status d false None in
    let w' := fst (put_status fails teacherId false w) in
    snd (put_status fails teacherId false w)
    = Return (mkResponse 200 (TeacherDoc d')) /\
    Teacher.isAvailable d' = false /\
    Teacher.lastAvailableTimestamp d' = None /\
    Teacher.findById teacherId (Teachers w') = Some d' /\
    elapsed = (inject_Z (now - last) / 1000)%Q /\
    TimeRecords w'
    = TimeRecord.findOneAndUpdate_inc teacherId today elapsed
        (TimeRecords w) /\
    ledger_get teacherId today (TimeRecords w')
    = (ledger_get teacherId today (TimeRecords w) + elapsed)%Q /\
    (TimeRecord.findOne teacherId today (TimeRecords w) = None ->
     TimeRecords w'
     = TimeRecords w ++ [TimeRecord.mk teacherId today (0 + elapsed)%Q]) /\
    (forall teacherId' day', (teacherId', day') <> (teacherId, today) ->
     ledger_get teacherId' day' (TimeRecords w')
     = ledger_get teacherId' day' (TimeRecords w)).
Proof.
  intros Hserved Hfind Hav Hinv.
  unfold Teacher_invariant in Hinv. rewrite Hav in Hinv.
  destruct (Teacher.lastAvailableTimestamp d) as [last|] eqn:Hts;
    [|discriminate].
  exists last. split; [reflexivity|].
  rewrite (put_status_down fails w teacherId d last Hserved Hfind Hav Hts).
  cbn [fst snd TimeRecords Teachers].
  repeat split.
  - now apply findById_save with (d := d).
  - apply inc_get_same.
  - apply inc_absent.
  - intros. now apply inc_get_other.
Qed.

(** C2.  A teacher who is available since [last] asks to become
    unavailable and the ledger write is rejected.  Then the handler
    answers 500 and neither collection has changed: the stored teacher
    is still available with timestamp [last], and nothing was
    broadcast.  Moreover, whatever store operations fail, a handler
    that changed the stored teacher has applied the ledger increment
    before: the status is never flipped without the ledger write. *)
Theorem C2_ledger_failure_aborts_before_flip fails w teacherId d last :
  Teacher.findById teacherId (Teachers w) = Some d ->
  Teacher.isAvailable d = true ->
  Teacher.lastAvailableTimestamp d = Some last ->
  (fails Op_Teacher_findById = false ->
   fails Op_TimeRecord_findOneAndUpdate = true ->
   let w' := fst (put_status fails teacherId false w) in
   snd (put_status fails teacherId false w)
   = Return (mkResponse 500 (Message "Server error updating status.")) /\
   Teachers w' = Teachers w /\
   TimeRecords w' = TimeRecords w /\
   outbox w' = outbox w /\
   Teacher.findById teacherId (Teachers w') = Some d) /\
  (let w' := fst (put_status fails teacherId false w) in
   Teachers w' <> Teachers w ->
   fails Op_TimeRecord_findOneAndUpdate = false /\
   TimeRecords w'
   = TimeRecord.findOneAndUpdate_inc teacherId
       (startOfDay (clock (S (ticks w))))
       (sessionDuration (clock (ticks w)) last) (TimeRecords w)).
Proof.
  intros Hfind Hav Hts. split.
  - intros F1 F2. unfold_handler. rewrite F1. cbn.
    rewrite Hfind, Hav. cbn. rewrite Hts. cbn. rewrite F2. cbn.
    repeat split; assumption.
  - unfold_handler.
    destruct (fails Op_Teacher_findById); cbn; [congruence|].
    rewrite Hfind, Hav. cbn. rewrite Hts. cbn.
    destruct (fails Op_TimeRecord_findOneAndUpdate); cbn; [congruence|].
    destruct (fails Op_Teacher_save); cbn; [congruence|].
    destruct (fails Op_Teacher_find); cbn; auto.
Qed.

(** C10.  A stored teacher is marked available but has no timestamp and
    asks to become unavailable; the lookup, the save and the roster read
    succeed (the ledger write may be set to fail: it is not issued).
    Then the handler answers 200, the ledger and the clock are
    untouched, and the stored teacher is unavailable with the timestamp
    still cleared. *)
Theorem C10_missing_timestamp_skips_ledger fails w teacherId d :
  Teacher.findById teacherId (Teachers w) = Some d ->
  Teacher.isAvailable d = true ->
  Teacher.lastAvailableTimestamp d = None ->
  fails Op_Teacher_findById = false ->
  fails Op_Teacher_save = false ->
  fails Op_Teacher_find = false ->
  let d' := with_status d false None in
  let w' := fst (put_status fails teacherId false w) in
  snd (put_status fails teacherId false w)
  = Return (mkResponse 200 (TeacherDoc d')) /\
  TimeRecords w' = TimeRecords w /\
  ticks w' = ticks w /\
  Teacher.findById teacherId (Teachers w') = Some d' /\
  Teacher.isAvailable d' = false /\
  Teacher.lastAvailableTimestamp d' = None.
Proof.
  intros Hfind Hav Hts F1 F3 F4.
  unfold_handler. rewrite F1. cbn. rewrite Hfind, Hav. cbn.
  rewrite Hts. cbn. rewrite F3. cbn. rewrite F4. cbn.
  repeat split.
  now apply findById_save with (d := d).
Qed.

(** The sign of a number of seconds is the sign of its milliseconds. *)
Lemma sessionDuration_nonneg now last :
  (0 <= sessionDuration now last)%Q <-> (last <= now)%Z.
Proof.
  unfold sessionDuration, Qle, Qdiv, Qmult, Qinv, inject_Z. cbn. lia.
Qed.

Lemma sessionDuration_neg now last :
  (sessionDuration now last < 0)%Q <-> (now < last)%Z.
Proof.
  unfold sessionDuration, Qlt, Qdiv, Qmult, Qinv, inject_Z. cbn. lia.
Qed.

Lemma sessionDuration_zero now :
  (sessionDuration now now == 0)%Q.
Proof.
  unfold sessionDuration, Qeq, Qdiv, Qmult, Qinv, inject_Z. cbn. lia.
Qed.

(** C3 (amended).  On a downward transition served without a store
    failure the amount by which the ledger total of the day grows is
    exactly (clock reading - lastAvailableTimestamp) / 1000 seconds,
    with no clamping: it is non-negative exactly when the clock reading
    is not before the timestamp, negative when it is before, and 0 for
    an immediate re-toggle at the same instant. *)
Theorem C3_session_seconds_not_clamped fails w teacherId d last :
  served fails ->
  Teacher.findById teacherId (Teachers w) = Some d ->
  Teacher.isAvailable d = true ->
  Teacher.lastAvailableTimestamp d = Some last ->
  let now := clock (ticks w) in
  let today := startOfDay (clock (S (ticks w))) in
  let w' := fst (put_status fails teacherId false w) in
  let committed :=
    (ledger_get teacherId today (TimeRecords w')
     - ledger_get teacherId today (TimeRecords w))%Q in
  (committed == inject_Z (now - last) / 1000)%Q /\
  ((0 <= committed)%Q <-> (last <= now)%Z) /\
  ((committed < 0)%Q <-> (now < last)%Z) /\
  (now = last -> (committed == 0)%Q).
Proof.
  intros Hserved Hfind Hav Hts now today w' committed.
  assert (E : (committed == sessionDuration now last)%Q).
  { unfold committed, w'.
    rewrite (put_status_down fails w teacherId d last Hserved Hfind Hav Hts).
    cbn [fst TimeRecords]. rewrite inc_get_same. unfold today, now. ring. }
  split; [exact E|]. rewrite E. split; [|split].
  - apply sessionDuration_nonneg.
  - apply sessionDuration_neg.
  - intros ->. apply sessionDuration_zero.
Qed.

(** *** What a status request can do to the world *)

Ltac split_faults fails :=
  repeat match goal with
         | |- context [if fails ?op then _ else _] =>
             destruct (fails op) eqn:?; cbn
         end.

(** Whatever fails, a status request leaves the store as it is, or
    saves the teacher without touching the ledger (no downward edge, or
    no timestamp), or increments the ledger at the day's key and then
    saves the teacher unless the save failed. *)
Lemma put_status_cases fails teacherId a w :
  let w' := fst (put_status fails teacherId a w) in
  (Teachers w' = Teachers w /\ TimeRecords w' = TimeRecords w /\
   (ticks w <= ticks w')%nat) \/
  (exists d,
     Teacher.findById teacherId (Teachers w) = Some d /\
     (Teacher.isAvailable d && negb a = false \/
      Teacher.lastAvailableTimestamp d = None) /\
     TimeRecords w' = TimeRecords w /\
     Teachers w'
     = Teacher.save
         (with_status d a (if a then Some (clock (ticks w)) else None))
         (Teachers w) /\
     ticks w' = if a then S (ticks w) else ticks w) \/
  (exists d last,
     Teacher.findById teacherId (Teachers w) = Some d /\
     Teacher.isAvailable d = true /\ a = false /\
     Teacher.lastAvailableTimestamp d = Some last /\
     TimeRecords w'
     = TimeRecord.findOneAndUpdate_inc teacherId
         (startOfDay (clock (S (ticks w))))
         (sessionDuration (clock (ticks w)) last) (TimeRecords w) /\
     (Teachers w' = Teachers w \/
      Teachers w' = Teacher.save (with_status d false None) (Teachers w)) /\
     ticks w' = S (S (ticks w))).
Proof.
  unfold_handler.
  destruct (fails Op_Teacher_findById) eqn:F1; cbn; [left; auto|].
  destruct (Teacher.findById teacherId (Teachers w)) as [d|] eqn:Hfind;
    cbn; [|left; auto].
  destruct (Teacher.isAvailable d) eqn:Hav, a; cbn.
  - split_faults fails; try (left; repeat split; auto; lia);
      right; left; exists d; rewrite Hav; repeat split; auto.
  - destruct (Teacher.lastAvailableTimestamp d) as [last|] eqn:Hts; cbn.
    + split_faults fails; try (left; repeat split; auto; lia);
        right; right; exists d, last; repeat split; auto.
    + split_faults fails; try (left; repeat split; auto; lia);
        right; left; exists d; repeat split; auto.
  - split_faults fails; try (left; repeat split; auto; lia);
      right; left; exists d; rewrite Hav; repeat split; auto.
  - split_faults fails; try (left; repeat split; auto; lia);
      right; left; exists d; rewrite Hav; repeat split; auto.
Qed.


(** A request answered 200 found the teacher and saved the document it
    returns: the requested status, stamped with the clock reading when
    the status is available and cleared otherwise. *)
Lemma put_status_200 fails teacherId a w b :
  snd (put_status fails teacherId a w) = Return (mkResponse 200 b) ->
  exists d,
    Teacher.findById teacherId (Teachers w) = Some d /\
    fails Op_Teacher_save = false /\ fails Op_Teacher_find = false /\
    let d' := with_status d a (if a then Some (clock (ticks w)) else None) in
    b = TeacherDoc d' /\
    Teachers (fst (put_status fails teacherId a w))
    = Teacher.save d' (Teachers w) /\
    (a = true ->
     ticks (fst (put_status fails teacherId a w)) = S (ticks w)) /\
    outbox (fst (put_status fails teacherId a w))
    = outbox w ++
      List.map
        (fun s =>
           (s, statusUpdate
                 (Teacher.find_select_no_password
                    (Teachers (fst (put_status fails teacherId a w))))))
        (sockets w).
Proof.
  unfold_handler.
  destruct (fails Op_Teacher_findById) eqn:F1; cbn; [discriminate|].
  destruct (Teacher.findById teacherId (Teachers w)) as [d|] eqn:Hfind;
    cbn; [|discriminate].
  destruct (Teacher.isAvailable d) eqn:Hav, a; cbn;
    try destruct (Teacher.lastAvailableTimestamp d) as [last|] eqn:Hts; cbn;
    split_faults fails; try discriminate;
    intros H; injection H as <-; exists d; repeat split; auto;
    discriminate.
Qed.

(** A request that is not answered 200 broadcasts nothing. *)
Lemma put_status_not_200 fails teacherId a w :
  (forall b, snd (put_status fails teacherId a w)
             <> Return (mkResponse 200 b)) ->
  outbox (fst (put_status fails teacherId a w)) = outbox w.
Proof.
  unfold_handler.
  destruct (fails Op_Teacher_findById) eqn:F1; cbn; [reflexivity|].
  destruct (Teacher.findById teacherId (Teachers w)) as [d|] eqn:Hfind;
    cbn; [|reflexivity].
  destruct (Teacher.isAvailable d) eqn:Hav, a; cbn;
    try destruct (Teacher.lastAvailableTimestamp d) as [last|] eqn:Hts; cbn;
    split_faults fails; try reflexivity;
    intros H; exfalso; eapply H; reflexivity.
Qed.

Lemma save_save d coll :
  Teacher.save d (Teacher.save d coll) = Teacher.save d coll.
Proof.
  unfold Teacher.save. rewrite map_map. apply map_ext.
  intros x. destruct (Nat.eqb (Teacher._id x) (Teacher._id d)) eqn:E.
  - now rewrite Nat.eqb_refl.
  - now rewrite E.
Qed.

(** C4 (amended).  The same status is requested twice in a row and the
    first request is answered 200.  Whatever fails during the second
    request, it writes nothing to the ledger.  When the status is
    unavailable the Teacher collection is unchanged and the timestamp
    stays cleared.  When the status is available and the second request
    is answered 200, the stored timestamp is overwritten: after the
    first request it is the clock reading of the first request, after
    the second it is the clock reading of the second. *)
Theorem C4_same_status_twice fails1 fails2 w teacherId desired b1 :
  let w1 := fst (put_status fails1 teacherId desired w) in
  let w2 := fst (put_status fails2 teacherId desired w1) in
  let stamp w :=
    option_map Teacher.lastAvailableTimestamp
      (Teacher.findById teacherId (Teachers w)) in
  snd (put_status fails1 teacherId desired w) = Return (mkResponse 200 b1) ->
  TimeRecords w2 = TimeRecords w1 /\
  (desired = false ->
   Teachers w2 = Teachers w1 /\ stamp w1 = Some None /\
   stamp w2 = Some None) /\
  (desired = true ->
   forall b2,
     snd (put_status fails2 teacherId desired w1)
     = Return (mkResponse 200 b2) ->
     stamp w1 = Some (Some (clock (ticks w))) /\
     stamp w2 = Some (Some (clock (S (ticks w))))).
Proof.
  intros w1 w2 stamp H1.
  destruct (put_status_200 _ _ _ _ _ H1)
    as (d & Hfind & _ & _ & _ & HT1 & Hticks & _).
  fold w1 in HT1, Hticks.
  set (d1 := with_status d desired
               (if desired then Some (clock (ticks w)) else None)) in *.
  assert (Hfind1 : Teacher.findById teacherId (Teachers w1) = Some d1)
    by (rewrite HT1; now apply findById_save with (d := d)).
  assert (Hs1 : stamp w1
                = Some (if desired then Some (clock (ticks w)) else None))
    by (unfold stamp; now rewrite Hfind1).
  split; [|split].
  - destruct (put_status_cases fails2 teacherId desired w1)
      as [(_ & E & _)|[(d2 & _ & _ & E & _)|(d2 & last & Hf & Hav & Ha & _)]];
      try exact E.
    rewrite Hfind1 in Hf. injection Hf as <-. subst desired. discriminate.
  - intros ->. split; [|split; [exact Hs1|]].
    + destruct (put_status_cases fails2 teacherId false w1)
        as [(E & _)|[(d2 & Hf & _ & _ & E & _)
                    |(d2 & last & Hf & Hav & _)]].
      * exact E.
      * rewrite Hfind1 in Hf. injection Hf as <-.
        fold w2 in E. rewrite E, HT1. apply save_save.
      * rewrite Hfind1 in Hf. injection Hf as <-. discriminate.
    + assert (E : Teachers w2 = Teachers w1).
      { destruct (put_status_cases fails2 teacherId false w1)
          as [(E & _)|[(d2 & Hf & _ & _ & E & _)
                      |(d2 & last & Hf & Hav & _)]].
        - exact E.
        - rewrite Hfind1 in Hf. injection Hf as <-.
          fold w2 in E. rewrite E, HT1. apply save_save.
        - rewrite Hfind1 in Hf. injection Hf as <-. discriminate. }
      unfold stamp in *. now rewrite E.
  - intros -> b2 H2. split; [exact Hs1|].
    destruct (put_status_200 _ _ _ _ _ H2)
      as (d2 & Hf & _ & _ & _ & HT2 & _).
    fold w2 in HT2. unfold stamp. rewrite HT2.
    erewrite findById_save; [|exact Hf|reflexivity].
    cbn. now rewrite (Hticks eq_refl).
Qed.

(** *** What the other requests can do to the world *)

Lemma register_cases fails n e p ph rn w :
  let w' := fst (post_auth_register bcrypt_hash fails n e p ph rn w) in
  TimeRecords w' = TimeRecords w /\ ticks w' = ticks w /\
  (Teachers w' = Teachers w \/
   Teachers w'
   = Teachers w ++
     [Teacher.mk (nextObjectId w) n e (Some (bcrypt_hash p)) ph rn
                 false None]).
Proof.
  unfold_handler.
  destruct (_ || _); cbn; [auto|].
  destruct (fails Op_Teacher_findOne); cbn; [auto|].
  destruct (Teacher.findOne_email e (Teachers w)); cbn; [auto|].
  destruct (fails Op_Teacher_save); cbn; auto.
Qed.

Lemma get_teachers_world fails w : fst (get_teachers fails w) = w.
Proof. unfold_handler. destruct (fails Op_Teacher_find); reflexivity. Qed.

Lemma my_time_world fails teacherId w :
  let w' := fst (my_time fails teacherId w) in
  Teachers w' = Teachers w /\ TimeRecords w' = TimeRecords w /\
  ticks w' = S (ticks w).
Proof.
  unfold_handler. cbn.
  destruct (fails Op_TimeRecord_findOne); cbn; auto.
Qed.

(** *** The invariant of the Teacher collection *)

Lemma with_status_invariant d a now :
  Teacher_invariant (with_status d a (if a then Some now else None)).
Proof. unfold Teacher_invariant. now destruct a. Qed.

Lemma put_status_invariant fails teacherId a w :
  Forall Teacher_invariant (Teachers w) ->
  Forall Teacher_invariant
    (Teachers (fst (put_status fails teacherId a w))).
Proof.
  intros H.
  destruct (put_status_cases fails teacherId a w)
    as [(E & _)|[(d & _ & _ & _ & E & _)
                |(d & last & _ & _ & _ & _ & _ & [E|E] & _)]];
    rewrite E; try exact H.
  - apply save_Forall; [apply with_status_invariant|exact H].
  - apply save_Forall; [reflexivity|exact H].
Qed.

Lemma register_invariant fails n e p ph rn w :
  Forall Teacher_invariant (Teachers w) ->
  Forall Teacher_invariant
    (Teachers (fst (post_auth_register bcrypt_hash fails n e p ph rn w))).
Proof.
  intros H.
  destruct (register_cases fails n e p ph rn w) as (_ & _ & [E|E]);
    rewrite E; [exact H|].
  apply Forall_app. split; [exact H|].
  constructor; [reflexivity|constructor].
Qed.

Lemma step_invariant w r :
  Forall Teacher_invariant (Teachers w) ->
  Forall Teacher_invariant
    (Teachers (step startOfDay clock bcrypt_hash w r)).
Proof.
  intros H. destruct r; cbn [step].
  - now apply register_invariant.
  - now rewrite get_teachers_world.
  - now apply put_status_invariant.
  - now rewrite (proj1 (my_time_world _ _ _)).
  - exact H.
  - exact H.
  - exact H.
Qed.

Lemma run_invariant rs : forall w,
  Forall Teacher_invariant (Teachers w) ->
  Forall Teacher_invariant
    (Teachers (run startOfDay clock bcrypt_hash w rs)).
Proof.
  induction rs as [|r rs IH]; intros w H; cbn; [exact H|].
  apply IH. now apply step_invariant.
Qed.

(** The invariant under boolean bodies.  [lastAvailableTimestamp] is
    present exactly when [isAvailable] is true: this holds of every
    stored teacher after any sequence of requests from the empty store
    whose status requests carry a JSON boolean, and it is preserved by
    registration (which stores the new teacher unavailable, without a
    timestamp) and by every such status request, whatever store
    operation fails. *)
Theorem boolean_status_keeps_invariant :
  (forall rs,
     Forall Teacher_invariant
       (Teachers (run startOfDay clock bcrypt_hash initialWorld rs))) /\
  (forall w,
     Forall Teacher_invariant (Teachers w) ->
     (forall fails n e p ph rn,
        Forall Teacher_invariant
          (Teachers
             (fst (post_auth_register bcrypt_hash fails n e p ph rn w)))) /\
     (forall fails teacherId a,
        Forall Teacher_invariant
          (Teachers (fst (put_status fails teacherId a w))))) /\
  (forall d,
     Teacher_invariant d <->
     (Teacher.isAvailable d = true <->
      exists ts, Teacher.lastAvailableTimestamp d = Some ts) /\
     (Teacher.isAvailable d = false <->
      Teacher.lastAvailableTimestamp d = None)).
Proof.
  split; [|split].
  - intros rs. apply run_invariant. constructor.
  - intros w H. split; intros.
    + now apply register_invariant.
    + now apply put_status_invariant.
  - intros d. unfold Teacher_invariant.
    destruct (Teacher.isAvailable d),
      (Teacher.lastAvailableTimestamp d) as [ts|];
      firstorder (try congruence; eauto).
Qed.

(** *** The status handler on any value of the body *)

Local Abbreviation put_status_body :=
  (put_teachers_status_body startOfDay clock).

(** On a JSON boolean the handler is [put_teachers_status]. *)
Lemma status_body_boolean fails teacherId a w :
  put_status_body fails teacherId (v_bool a) w
  = put_status fails teacherId a w.
Proof. reflexivity. Qed.

(** More generally, on a value whose cast is its truthiness. *)
Lemma status_body_agrees fails teacherId v w :
  castBoolean v = Some (truthy v) ->
  put_status_body fails teacherId v w
  = put_status fails teacherId (truthy v) w.
Proof.
  intros Hc. unfold put_teachers_status_body, put_teachers_status.
  rewrite Hc. reflexivity.
Qed.

(** A value without a cast is never saved. *)
Lemma status_body_uncastable fails teacherId v w :
  castBoolean v = None ->
  Teachers (fst (put_status_body fails teacherId v w)) = Teachers w /\
  forall b,
    snd (put_status_body fails teacherId v w) <> Return (mkResponse 200 b).
Proof.
  intros Hc. unfold put_teachers_status_body. unfold_handler.
  rewrite Hc.
  destruct (fails Op_Teacher_findById); cbn;
    [split; [reflexivity|intros b H; discriminate H]|].
  destruct (Teacher.findById teacherId (Teachers w)) as [d|]; cbn;
    [|split; [reflexivity|intros b H; discriminate H]].
  destruct (Teacher.isAvailable d && negb (truthy v)); cbn;
    [destruct (Teacher.lastAvailableTimestamp d); cbn;
       [destruct (fails Op_TimeRecord_findOneAndUpdate); cbn;
          [split; [reflexivity|intros b H; discriminate H]|]|]|];
    destruct (truthy v); cbn;
    (split; [reflexivity|intros b H; discriminate H]).
Qed.

(** The cast never stores true for a falsy value. *)
Lemma castBoolean_true v : castBoolean v = Some true -> truthy v = true.
Proof.
  destruct v as [|b|n|s|]; cbn; try discriminate.
  - now intros [= ->].
  - destruct (Qeq_bool n 1) eqn:E1.
    + intros _. apply Qeq_bool_iff in E1.
      destruct (Qeq_bool n 0) eqn:E0; [|reflexivity].
      apply Qeq_bool_iff in E0. rewrite E1 in E0.
      unfold Qeq in E0. cbn in E0. discriminate E0.
    + destruct (Qeq_bool n 0); discriminate.
  - destruct (String.eqb s "true" || String.eqb s "1" || String.eqb s "yes")
      eqn:E.
    + intros _. destruct s; [cbn in E; discriminate E|reflexivity].
    + destruct (String.eqb s "false" || String.eqb s "0"
                || String.eqb s "no"); discriminate.
Qed.

(** The values the cast stores as false although they are truthy are the
    strings ['false'], ['0'] and ['no']. *)
Lemma truthy_cast_false v :
  truthy v = true /\ castBoolean v = Some false <->
  v = v_string "false" \/ v = v_string "0" \/ v = v_string "no".
Proof.
  split.
  - intros (Ht & Hc). destruct v as [|b|n|s|]; cbn in *; try discriminate.
    + injection Hc as ->. discriminate Ht.
    + destruct (Qeq_bool n 1); [discriminate|].
      destruct (Qeq_bool n 0); discriminate.
    + destruct (String.eqb s "true" || String.eqb s "1" || String.eqb s "yes");
        [discriminate|].
      destruct (String.eqb s "false") eqn:E1;
        [apply String.eqb_eq in E1; subst; auto|].
      destruct (String.eqb s "0") eqn:E2;
        [apply String.eqb_eq in E2; subst; auto|].
      destruct (String.eqb s "no") eqn:E3;
        [apply String.eqb_eq in E3; subst; auto|].
      discriminate.
  - intros [ -> | [ -> | -> ] ]; split; reflexivity.
Qed.

(** Every value but those three agrees with its cast or has none, and a
    status request that carries it keeps the invariant. *)
Lemma status_body_invariant fails teacherId v w :
  v <> v_string "false" -> v <> v_string "0" -> v <> v_string "no" ->
  Forall Teacher_invariant (Teachers w) ->
  Forall Teacher_invariant
    (Teachers (fst (put_status_body fails teacherId v w))).
Proof.
  intros N1 N2 N3 H.
  destruct (castBoolean v) as [c|] eqn:Hc.
  - assert (E : c = truthy v).
    { destruct c.
      - symmetry. now apply castBoolean_true.
      - destruct (truthy v) eqn:Ht; [|reflexivity].
        exfalso. destruct (proj1 (truthy_cast_false v) (conj Ht Hc))
          as [E|[E|E]]; contradiction. }
    subst c. rewrite (status_body_agrees _ _ _ _ Hc).
    now apply put_status_invariant.
  - now rewrite (proj1 (status_body_uncastable fails teacherId v w Hc)).
Qed.

(** On a truthy value that is cast to false, a request that meets no
    store failure is answered 200 and stores the teacher unavailable
    with the timestamp of the request. *)
Lemma status_body_truthy_false fails teacherId v w d :
  truthy v = true -> castBoolean v = Some false ->
  served fails ->
  Teacher.findById teacherId (Teachers w) = Some d ->
  let d' := with_status d false (Some (clock (ticks w))) in
  snd (put_status_body fails teacherId v w)
  = Return (mkResponse 200 (TeacherDoc d')) /\
  Teacher.findById teacherId
    (Teachers (fst (put_status_body fails teacherId v w))) = Some d' /\
  ~ Teacher_invariant d'.
Proof.
  intros Ht Hc (F1 & F2 & F3 & F4) Hfind.
  unfold put_teachers_status_body. unfold_handler.
  rewrite Hc, Ht, F1. cbn. rewrite Hfind. cbn.
  rewrite andb_false_r. cbn. rewrite F3. cbn. rewrite F4. cbn.
  split; [reflexivity|split].
  - exact (findById_save teacherId (Teachers w) d
             (with_status d false (Some (clock (ticks w)))) Hfind eq_refl).
  - unfold Teacher_invariant. cbn. discriminate.
Qed.

(** *** The invariant of the ledger *)


Section MonotoneClock.
Hypothesis clock_monotone : monotone clock.






End MonotoneClock.






(** *** Reading the day's total *)

Lemma my_time_response fails teacherId w :
  fails Op_TimeRecord_findOne = false ->
  snd (my_time fails teacherId w)
  = Return (mkResponse 200
              (TotalAvailableTime
                 (ledger_get teacherId (startOfDay (clock (ticks w)))
                             (TimeRecords w)))).
Proof.
  intros F. unfold_handler. cbn. rewrite F. reflexivity.
Qed.

(** C7.  When the record lookup succeeds, the read handler answers the
    committed total of the record of (teacherId, day of the clock
    reading), and 0 when there is no such record.  After a downward
    transition that closed a session on a day without a record, a read
    on that day answers exactly the session's seconds: the milliseconds
    from the teacher's timestamp to the clock reading of the transition,
    over 1000.  The answer does not depend on the Teacher collection, so
    an open session adds nothing to it, and becoming available writes
    nothing to the ledger. *)
Theorem C7_my_time_is_committed_total fails w teacherId :
  fails Op_TimeRecord_findOne = false ->
  let today := startOfDay (clock (ticks w)) in
  let answer w := snd (my_time fails teacherId w) in
  (TimeRecord.findOne teacherId today (TimeRecords w) = None ->
   answer w = Return (mkResponse 200 (TotalAvailableTime 0))) /\
  (forall record,
     TimeRecord.findOne teacherId today (TimeRecords w) = Some record ->
     answer w
     = Return (mkResponse 200
                 (TotalAvailableTime
                    (TimeRecord.totalAvailableTime record)))) /\
  (forall fails0 w0 d last,
     served fails0 ->
     Teacher.findById teacherId (Teachers w0) = Some d ->
     Teacher.isAvailable d = true ->
     Teacher.lastAvailableTimestamp d = Some last ->
     w = fst (put_status fails0 teacherId false w0) ->
     today = startOfDay (clock (S (ticks w0))) ->
     TimeRecord.findOne teacherId today (TimeRecords w0) = None ->
     exists seconds,
       answer w = Return (mkResponse 200 (TotalAvailableTime seconds)) /\
       (seconds == inject_Z (clock (ticks w0) - last) / 1000)%Q) /\
  (forall coll, answer (set_Teachers coll w) = answer w) /\
  (forall fails' teacherId',
     TimeRecords (fst (put_status fails' teacherId' true w))
     = TimeRecords w).
Proof.
  intros F today answer. unfold answer.
  repeat split.
  - intros H. rewrite (my_time_response _ _ _ F).
    unfold ledger_get. fold today. now rewrite H.
  - intros record H. rewrite (my_time_response _ _ _ F).
    unfold ledger_get. fold today. now rewrite H.
  - intros fails0 w0 d last Hserved Hfind Hav Hts Hw Hday Hnone.
    rewrite (my_time_response _ _ _ F). fold today.
    eexists. split; [reflexivity|].
    rewrite Hw.
    rewrite (put_status_down fails0 w0 teacherId d last Hserved Hfind Hav Hts).
    cbn [fst TimeRecords]. rewrite <- Hday, inc_get_same.
    unfold ledger_get. rewrite Hnone. unfold sessionDuration. ring.
  - intros coll. now rewrite !(my_time_response _ _ _ F).
  - intros fails' teacherId'.
    destruct (put_status_cases fails' teacherId' true w)
      as [(_ & E & _)|[(d & _ & _ & E & _)|(d & last & _ & _ & Ha & _)]];
      [exact E|exact E|discriminate].
Qed.

(** *** Broadcasting *)

Lemma select_no_password_fields coll :
  List.map Teacher._id (Teacher.find_select_no_password coll)
  = List.map Teacher._id coll /\
  List.map Teacher.isAvailable (Teacher.find_select_no_password coll)
  = List.map Teacher.isAvailable coll /\
  Forall (fun d => Teacher.password d = None)
         (Teacher.find_select_no_password coll).
Proof.
  unfold Teacher.find_select_no_password.
  rewrite !map_map. repeat split.
  apply Forall_map. apply Forall_forall. reflexivity.
Qed.

(** C8.  A status request answered 200 has had its save acknowledged
    and then delivers one [statusUpdate] to every connected socket; the
    payload is the whole Teacher collection as stored after the save,
    one entry per teacher in order, each without its password.  A
    request that is not answered 200, and in particular one whose save
    was rejected, delivers nothing. *)
Theorem C8_broadcast_follows_commit fails w teacherId a :
  let w' := fst (put_status fails teacherId a w) in
  let roster := Teacher.find_select_no_password (Teachers w') in
  (forall b,
     snd (put_status fails teacherId a w) = Return (mkResponse 200 b) ->
     fails Op_Teacher_save = false /\
     (exists d',
        b = TeacherDoc d' /\
        Teacher.findById teacherId (Teachers w') = Some d') /\
     outbox w'
     = outbox w ++ List.map (fun s => (s, statusUpdate roster)) (sockets w) /\
     (forall s, In s (sockets w) -> In (s, statusUpdate roster) (outbox w')) /\
     List.map Teacher._id roster = List.map Teacher._id (Teachers w') /\
     List.map Teacher.isAvailable roster
     = List.map Teacher.isAvailable (Teachers w') /\
     Forall (fun d => Teacher.password d = None) roster) /\
  ((forall b, snd (put_status fails teacherId a w)
              <> Return (mkResponse 200 b)) ->
   outbox w' = outbox w) /\
  (fails Op_Teacher_save = true -> outbox w' = outbox w).
Proof.
  intros w' roster. split; [|split].
  - intros b H.
    destruct (put_status_200 _ _ _ _ _ H)
      as (d & Hfind & F3 & _ & Hb & HT & _ & Hout).
    fold w' in HT, Hout. fold roster in Hout.
    destruct (select_no_password_fields (Teachers w')) as (E1 & E2 & E3).
    repeat split; auto.
    + eexists. split; [exact Hb|].
      rewrite HT. now apply findById_save with (d := d).
    + intros s Hs. rewrite Hout. apply in_or_app. right.
      apply in_map_iff. now exists s.
  - apply put_status_not_200.
  - intros F3. apply put_status_not_200.
    intros b H. destruct (put_status_200 _ _ _ _ _ H) as (_ & _ & F & _).
    congruence.
Qed.




End Properties.

(** ** The properties at concrete runs *)

Local Abbreviation put_utc := (put_teachers_status utc_startOfDay).
Local Abbreviation run_utc clock :=
  (run utc_startOfDay clock sample_hash).

Lemma served_no_faults : served no_faults.
Proof. repeat split. Qed.

(** C1 at the scenario "available at 0 s, unavailable at 125 s". *)
Lemma C1_witness :
  served no_faults /\
  Teacher.findById 0 (Teachers (world_open clock_125))
  = Some (with_status teacher_T true (Some 0%Z)) /\
  snd (put_utc clock_125 no_faults 0%nat false (world_open clock_125))
  = Return (mkResponse 200 (TeacherDoc teacher_T)) /\
  ledger_get 0%nat 0%Z (TimeRecords (world_closed clock_125))
  = (ledger_get 0%nat 0%Z (TimeRecords (world_open clock_125))
     + sessionDuration 125000%Z 0%Z)%Q.
Proof.
  assert (Hf : Teacher.findById 0 (Teachers (world_open clock_125))
               = Some (with_status teacher_T true (Some 0%Z)))
    by reflexivity.
  split; [exact served_no_faults|split; [exact Hf|]].
  destruct (C1_down_transition_commits_session utc_startOfDay clock_125
              no_faults (world_open clock_125) 0%nat _
              served_no_faults Hf eq_refl eq_refl)
    as (last & Hts & Hresp & _ & _ & _ & _ & _ & Hget & _).
  injection Hts as <-.
  split; [exact Hresp|exact Hget].
Defined.

(** C2 when exactly the ledger write is rejected. *)
Lemma C2_witness :
  let fails := only_fails Op_TimeRecord_findOneAndUpdate in
  let w := world_open clock_125 in
  let d := with_status teacher_T true (Some 0%Z) in
  Teacher.findById 0 (Teachers w) = Some d /\
  fails Op_Teacher_findById = false /\
  fails Op_TimeRecord_findOneAndUpdate = true /\
  snd (put_utc clock_125 fails 0%nat false w)
  = Return (mkResponse 500 (Message "Server error updating status.")) /\
  Teacher.findById 0 (Teachers (fst (put_utc clock_125 fails 0%nat false w)))
  = Some d /\
  TimeRecords (fst (put_utc clock_125 fails 0%nat false w)) = TimeRecords w.
Proof.
  intros fails w d.
  assert (Hf : Teacher.findById 0 (Teachers w) = Some d) by reflexivity.
  destruct (proj1 (C2_ledger_failure_aborts_before_flip utc_startOfDay
                     clock_125 fails w 0%nat d 0%Z Hf eq_refl eq_refl)
                  eq_refl eq_refl)
    as (Hresp & _ & Hrec & _ & Hd).
  repeat split; assumption.
Defined.

(** C3 at the 125 s session. *)
Lemma C3_witness :
  let w := world_open clock_125 in
  let w' := fst (put_utc clock_125 no_faults 0%nat false w) in
  served no_faults /\
  Teacher.findById 0 (Teachers w)
  = Some (with_status teacher_T true (Some 0%Z)) /\
  (ledger_get 0%nat (utc_startOfDay 125000%Z) (TimeRecords w')
   - ledger_get 0%nat (utc_startOfDay 125000%Z) (TimeRecords w)
   == inject_Z (125000 - 0) / 1000)%Q.
Proof.
  intros w w'.
  assert (Hf : Teacher.findById 0 (Teachers w)
               = Some (with_status teacher_T true (Some 0%Z)))
    by reflexivity.
  split; [exact served_no_faults|split; [exact Hf|]].
  exact (proj1 (C3_session_seconds_not_clamped utc_startOfDay clock_125
                  no_faults w 0%nat _ 0%Z served_no_faults Hf
                  eq_refl eq_refl)).
Defined.

(** C3 fails as stated: the clock is set back by one second during the
    session, and the amount committed is -1 s, not 0. *)
Lemma C3_counterexample :
  let w := world_open clock_skew in
  let w' := fst (put_utc clock_skew no_faults 0%nat false w) in
  Teacher.findById 0 (Teachers w)
  = Some (with_status teacher_T true (Some 2000%Z)) /\
  snd (put_utc clock_skew no_faults 0%nat false w)
  = Return (mkResponse 200 (TeacherDoc teacher_T)) /\
  TimeRecords w = [] /\
  TimeRecords w' = [TimeRecord.mk 0%nat 0%Z (0 + sessionDuration 1000%Z 2000%Z)%Q] /\
  (sessionDuration 1000%Z 2000%Z == -1)%Q /\
  (ledger_get 0%nat 0%Z (TimeRecords w') == -1)%Q /\
  ~ (0 <= ledger_get 0%nat 0%Z (TimeRecords w'))%Q.
Proof.
  cbv zeta. repeat split.
  intros H. vm_compute in H. apply H. reflexivity.
Defined.

(** C4 for two requests to go available. *)
Lemma C4_witness :
  let w := world_T clock_twice in
  let w1 := fst (put_utc clock_twice no_faults 0%nat true w) in
  let w2 := fst (put_utc clock_twice no_faults 0%nat true w1) in
  snd (put_utc clock_twice no_faults 0%nat true w)
  = Return (mkResponse 200
              (TeacherDoc (with_status teacher_T true (Some 0%Z)))) /\
  TimeRecords w2 = TimeRecords w1.
Proof.
  intros w w1 w2.
  assert (H1 : snd (put_utc clock_twice no_faults 0%nat true w)
               = Return (mkResponse 200
                   (TeacherDoc (with_status teacher_T true (Some 0%Z)))))
    by reflexivity.
  split; [exact H1|].
  exact (proj1 (C4_same_status_twice utc_startOfDay clock_twice no_faults
                  no_faults w 0%nat true _ H1)).
Defined.

(** C4 fails as stated: the teacher goes available at 0 s and asks to go
    available again at 5 s; both requests are answered 200 and the
    second moves the stored timestamp from 0 s to 5 s. *)
Lemma C4_counterexample :
  let w := world_T clock_twice in
  let w1 := fst (put_utc clock_twice no_faults 0%nat true w) in
  let w2 := fst (put_utc clock_twice no_faults 0%nat true w1) in
  let stamp w :=
    option_map Teacher.lastAvailableTimestamp
      (Teacher.findById 0 (Teachers w)) in
  snd (put_utc clock_twice no_faults 0%nat true w)
  = Return (mkResponse 200
              (TeacherDoc (with_status teacher_T true (Some 0%Z)))) /\
  snd (put_utc clock_twice no_faults 0%nat true w1)
  = Return (mkResponse 200
              (TeacherDoc (with_status teacher_T true (Some 5000%Z)))) /\
  stamp w1 = Some (Some 0%Z) /\
  stamp w2 = Some (Some 5000%Z) /\
  stamp w2 <> stamp w1.
Proof.
  cbv zeta. repeat split. discriminate.
Defined.

(** The invariant at a request to go available with a boolean body. *)
Lemma boolean_status_witness :
  let w := world_T clock_125 in
  Forall Teacher_invariant (Teachers w) /\
  Forall Teacher_invariant
    (Teachers (fst (put_utc clock_125 no_faults 0%nat true w))).
Proof.
  intros w.
  assert (H : Forall Teacher_invariant (Teachers w))
    by (repeat constructor).
  split; [exact H|].
  exact (proj2 (proj1 (proj2 (boolean_status_keeps_invariant
                                utc_startOfDay clock_125 sample_hash))
                      w H)
               no_faults 0%nat true).
Defined.

(** C5 does not hold of the handler.  The registered teacher of
    [world_T], unavailable and without a timestamp, sends a status
    request whose body is [{ isAvailable: 'false' }], the string.  The
    string is truthy, so line 172 stamps the document; its cast is
    false, so line 171 stores the teacher unavailable.  The request is
    answered 200 and the stored teacher is unavailable with a
    timestamp. *)
Theorem C5_string_false_keeps_timestamp :
  let w := world_T clock_125 in
  let out := put_teachers_status_body utc_startOfDay clock_125 no_faults
               0%nat (v_string "false") w in
  Forall Teacher_invariant (Teachers w) /\
  truthy (v_string "false") = true /\
  castBoolean (v_string "false") = Some false /\
  snd out
  = Return (mkResponse 200
              (TeacherDoc (with_status teacher_T false (Some 0%Z)))) /\
  Teachers (fst out) = [with_status teacher_T false (Some 0%Z)] /\
  Teacher.isAvailable (with_status teacher_T false (Some 0%Z)) = false /\
  Teacher.lastAvailableTimestamp (with_status teacher_T false (Some 0%Z))
  = Some 0%Z /\
  ~ Forall Teacher_invariant (Teachers (fst out)).
Proof.
  cbv zeta. repeat split.
  - repeat constructor.
  - intros H. inversion H as [|d l Hd _]. discriminate Hd.
Qed.

Lemma clock_steady_monotone : monotone clock_steady.
Proof. intros i j H. unfold clock_steady. lia. Qed.



(** C7 at the scenario "available at 0 s, unavailable at 125 s, total
    read at 130 s". *)
Lemma C7_witness :
  let w := world_closed clock_125 in
  no_faults Op_TimeRecord_findOne = false /\
  exists seconds,
    snd (get_teachers_my_time utc_startOfDay clock_125 no_faults 0%nat w)
    = Return (mkResponse 200 (TotalAvailableTime seconds)) /\
    (seconds == 125)%Q.
Proof.
  intros w. split; [reflexivity|].
  destruct (proj1 (proj2 (proj2
              (C7_my_time_is_committed_total utc_startOfDay clock_125
                 no_faults w 0%nat eq_refl)))
              no_faults (world_open clock_125)
              (with_status teacher_T true (Some 0%Z)) 0%Z
              served_no_faults eq_refl eq_refl eq_refl eq_refl eq_refl eq_refl)
    as (seconds & Hanswer & Hseconds).
  exists seconds. split; [exact Hanswer|].
  apply (Qeq_trans _ _ _ Hseconds). reflexivity.
Defined.

(** C8 at a request to go available with one client connected. *)
Lemma C8_witness :
  let w := world_T clock_125 in
  let w' := fst (put_utc clock_125 no_faults 0%nat true w) in
  snd (put_utc clock_125 no_faults 0%nat true w)
  = Return (mkResponse 200
              (TeacherDoc (with_status teacher_T true (Some 0%Z)))) /\
  In (7%nat,
      statusUpdate (Teacher.find_select_no_password (Teachers w')))
     (outbox w').
Proof.
  intros w w'.
  assert (H : snd (put_utc clock_125 no_faults 0%nat true w)
              = Return (mkResponse 200
                  (TeacherDoc (with_status teacher_T true (Some 0%Z)))))
    by reflexivity.
  split; [exact H|].
  destruct (proj1 (C8_broadcast_follows_commit utc_startOfDay clock_125
                     no_faults w 0%nat true) _ H)
    as (_ & _ & _ & Hin & _).
  apply Hin. left. reflexivity.
Defined.



(** C10 at a teacher marked available without a timestamp, with the
    ledger write set to fail. *)
Lemma C10_witness :
  let fails := only_fails Op_TimeRecord_findOneAndUpdate in
  let out := put_utc clock_125 fails 0%nat false world_legacy in
  Teacher.findById 0 (Teachers world_legacy) = Some teacher_L /\
  Teacher.isAvailable teacher_L = true /\
  Teacher.lastAvailableTimestamp teacher_L = None /\
  snd out = Return (mkResponse 200
                      (TeacherDoc (with_status teacher_L false None))) /\
  TimeRecords (fst out) = TimeRecords world_legacy.
Proof.
  intros fails out.
  destruct (C10_missing_timestamp_skips_ledger utc_startOfDay clock_125
              fails world_legacy 0%nat teacher_L
              eq_refl eq_refl eq_refl eq_refl eq_refl eq_refl)
    as (Hresp & Hrec & _).
  repeat split; assumption.
Defined.

(** ** Registration, identifiers and the teacher's own document *)

Lemma NoDup_map_eq {A B} (f : A -> B) (l : list A) x y :
  NoDup (List.map f l) -> In x l -> In y l -> f x = f y -> x = y.
Proof.
  induction l as [|a l IH]; cbn; [intros _ []|].
  intros Hnd Hx Hy E. inversion Hnd as [|? ? Hnotin Hnd']; subst.
  destruct Hx as [->|Hx], Hy as [->|Hy]; auto.
  - exfalso. apply Hnotin. rewrite E. now apply in_map.
  - exfalso. apply Hnotin. rewrite <- E. now apply in_map.
Qed.

(** Saving a copy of a stored document that keeps [_id] and the value
    of [f] keeps the column [f] of the collection. *)
Lemma save_map_same {B} (f : Teacher.t -> B) d d' coll :
  NoDup (List.map Teacher._id coll) -> In d coll ->
  Teacher._id d' = Teacher._id d -> f d' = f d ->
  List.map f (Teacher.save d' coll) = List.map f coll.
Proof.
  intros Hnd Hin Hid Hf. unfold Teacher.save. rewrite map_map.
  apply map_ext_in. intros x Hx.
  destruct (Nat.eqb (Teacher._id x) (Teacher._id d')) eqn:E; [|reflexivity].
  apply Nat.eqb_eq in E. rewrite Hf. f_equal. symmetry.
  apply (NoDup_map_eq Teacher._id coll x d Hnd Hx Hin). congruence.
Qed.

Lemma findOne_email_None e coll :
  Teacher.findOne_email e coll = None ->
  ~ In e (List.map Teacher.email coll).
Proof.
  unfold Teacher.findOne_email. intros H Hin.
  apply in_map_iff in Hin. destruct Hin as (d & <- & Hd).
  apply (find_none _ _ H) in Hd. now rewrite String.eqb_refl in Hd.
Qed.

Ltac case_faults fails :=
  repeat match goal with
         | |- context [if fails ?op then _ else _] =>
             destruct (fails op) eqn:?; cbn
         end.

Section TeacherRoutes.
Variable startOfDay : Date -> Date.
Variable clock : nat -> Date.
Variable bcrypt_hash : string -> string.

Local Abbreviation put_status := (put_teachers_status startOfDay clock).

(** The teacher document a registration stores. *)
Local Abbreviation registered w n e p ph rn :=
  (Teacher.mk (nextObjectId w) n e (Some (bcrypt_hash p)) ph rn false None).

Lemma register_outcome fails n e p ph rn w :
  let out := post_auth_register bcrypt_hash fails n e p ph rn w in
  ((snd out
    = Return (mkResponse 201 (Message "Teacher registered successfully.")) /\
    n <> ""%string /\ e <> ""%string /\ p <> ""%string /\
    ph <> ""%string /\ rn <> ""%string /\
    Teacher.findOne_email e (Teachers w) = None /\
    fst out
    = mkWorld (Teachers w ++ [registered w n e p ph rn]) (TimeRecords w)
              (S (nextObjectId w)) (ticks w) (sockets w) (rooms w)
              (outbox w)) \/
   ((forall b, snd out <> Return (mkResponse 201 b)) /\ fst out = w)) /\
  (n = ""%string \/ e = ""%string \/ p = ""%string \/ ph = ""%string \/
   rn = ""%string ->
   out = (w, Return (mkResponse 400
                       (Message "Please provide all required fields.")))).
Proof.
  cbv zeta. unfold_handler.
  destruct (String.eqb_spec n ""), (String.eqb_spec e ""),
    (String.eqb_spec p ""), (String.eqb_spec ph ""),
    (String.eqb_spec rn ""); cbn [orb];
    try (split; [right; split; [discriminate|reflexivity]|reflexivity]).
  split; [|intros [H|[H|[H|[H|H]]]]; contradiction].
  destruct (fails Op_Teacher_findOne); cbn;
    [right; split; [discriminate|reflexivity]|].
  destruct (Teacher.findOne_email e (Teachers w)); cbn;
    [right; split; [discriminate|reflexivity]|].
  destruct (fails Op_Teacher_save); cbn;
    [right; split; [discriminate|reflexivity]|].
  left. repeat split; assumption.
Qed.

(** X1.  A registration either answers 201, and then no field was empty,
    no stored teacher had the email, and the only change to the world
    is one new teacher at the end of the collection (fresh [_id], hashed
    password, unavailable, no timestamp); or it answers something else
    and leaves the world exactly as it was.  An empty field is always
    answered 400. *)
Theorem X1_register_outcome fails n e p ph rn w :
  let out := post_auth_register bcrypt_hash fails n e p ph rn w in
  ((snd out
    = Return (mkResponse 201 (Message "Teacher registered successfully.")) /\
    n <> ""%string /\ e <> ""%string /\ p <> ""%string /\
    ph <> ""%string /\ rn <> ""%string /\
    Teacher.findOne_email e (Teachers w) = None /\
    fst out
    = mkWorld (Teachers w ++ [registered w n e p ph rn]) (TimeRecords w)
              (S (nextObjectId w)) (ticks w) (sockets w) (rooms w)
              (outbox w)) \/
   ((forall b, snd out <> Return (mkResponse 201 b)) /\ fst out = w)) /\
  (n = ""%string \/ e = ""%string \/ p = ""%string \/ ph = ""%string \/
   rn = ""%string ->
   out = (w, Return (mkResponse 400
                       (Message "Please provide all required fields.")))).
Proof. exact (register_outcome fails n e p ph rn w). Qed.

(** A status request changes neither the generator nor the sockets nor
    the rooms. *)
Lemma put_status_frame fails teacherId a w :
  let w' := fst (put_status fails teacherId a w) in
  nextObjectId w' = nextObjectId w /\ sockets w' = sockets w /\
  rooms w' = rooms w.
Proof.
  unfold_handler.
  destruct (fails Op_Teacher_findById); cbn; [auto|].
  destruct (Teacher.findById teacherId (Teachers w)) as [d|]; cbn; [|auto].
  destruct (Teacher.isAvailable d), a; cbn;
    try destruct (Teacher.lastAvailableTimestamp d); cbn;
    case_faults fails; auto.
Qed.

(** The Teacher collection after a status request: as before, or with
    the caller's document saved with new status fields. *)
Lemma put_status_Teachers fails teacherId a w :
  let w' := fst (put_status fails teacherId a w) in
  Teachers w' = Teachers w \/
  exists d stamp,
    Teacher.findById teacherId (Teachers w) = Some d /\
    Teachers w' = Teacher.save (with_status d a stamp) (Teachers w).
Proof.
  destruct (put_status_cases startOfDay clock fails teacherId a w)
    as [(E & _)|[(d & Hf & _ & _ & E & _)
                |(d & last & Hf & _ & Ha & _ & _ & [E|E] & _)]];
    cbv zeta; eauto.
  subst a. eauto.
Qed.

Lemma teachers_wf_step w r :
  teachers_wf w -> teachers_wf (step startOfDay clock bcrypt_hash w r).
Proof.
  intros (Hid & Hem & Hlt). destruct r; cbn [step].
  - destruct (register_outcome fails name email password phone roomno w)
      as ([(_ & _ & _ & _ & _ & _ & Hnone & E)|(_ & E)] & _);
      rewrite E; [|now repeat split].
    unfold teachers_wf. cbn [Teachers nextObjectId].
    rewrite !map_app. cbn [List.map Teacher._id Teacher.email].
    repeat split.
    + apply NoDup_snoc; [exact Hid|].
      intros Hin. apply in_map_iff in Hin. destruct Hin as (d & E' & Hd).
      rewrite Forall_forall in Hlt. specialize (Hlt d Hd). lia.
    + apply NoDup_snoc; [exact Hem|now apply findOne_email_None].
    + apply Forall_app. split.
      * eapply Forall_impl; [|exact Hlt]. cbn. intros; lia.
      * constructor; [cbn; lia|constructor].
  - rewrite get_teachers_world. now repeat split.
  - destruct (put_status_frame fails teacherId isAvailable w) as (En & _).
    destruct (put_status_Teachers fails teacherId isAvailable w)
      as [E|(d & stamp & Hf & E)];
      unfold teachers_wf; rewrite E, En; [now repeat split|].
    pose proof (findById_In _ _ _ Hf) as Hin.
    repeat split.
    + now rewrite (save_map_same Teacher._id d).
    + now rewrite (save_map_same Teacher.email d).
    + apply save_Forall; [|exact Hlt].
      rewrite Forall_forall in Hlt. exact (Hlt d Hin).
  - unfold teachers_wf.
    unfold get_teachers_my_time, try_catch, bind, ret, new_Date,
      TimeRecord_findOne, await. cbn.
    destruct (fails Op_TimeRecord_findOne); cbn; now repeat split.
  - now repeat split.
  - now repeat split.
  - now repeat split.
Qed.

Lemma teachers_wf_run rs : forall w,
  teachers_wf w -> teachers_wf (run startOfDay clock bcrypt_hash w rs).
Proof.
  induction rs as [|r rs IH]; intros w H; cbn; [exact H|].
  apply IH. now apply teachers_wf_step.
Qed.

(** X2.  After any sequence of requests from the empty store, no two
    stored teachers share an [_id] or an email, and every [_id] is below
    the generator; every request keeps this. *)
Theorem X2_teacher_ids_and_emails_unique :
  (forall rs,
     teachers_wf (run startOfDay clock bcrypt_hash initialWorld rs)) /\
  (forall w r,
     teachers_wf w -> teachers_wf (step startOfDay clock bcrypt_hash w r)).
Proof.
  split.
  - intros rs. apply teachers_wf_run. repeat split; constructor.
  - apply teachers_wf_step.
Qed.

(** X3.  Whatever fails, a status request for [teacherId] leaves every
    other teacher's document as it was, keeps the number of teachers,
    and changes at most [isAvailable] and [lastAvailableTimestamp] of
    the caller's document.  When no teacher has the [_id] and the lookup
    succeeds, the answer is 404 and the world is untouched: no clock
    reading, no broadcast. *)
Theorem X3_status_touches_own_document_only fails teacherId a w :
  let w' := fst (put_status fails teacherId a w) in
  (forall id', id' <> teacherId ->
     Teacher.findById id' (Teachers w') = Teacher.findById id' (Teachers w)) /\
  List.length (Teachers w') = List.length (Teachers w) /\
  (forall d,
     Teacher.findById teacherId (Teachers w) = Some d ->
     exists a' stamp,
       Teacher.findById teacherId (Teachers w') = Some (with_status d a' stamp)) /\
  (Teacher.findById teacherId (Teachers w) = None ->
   fails Op_Teacher_findById = false ->
   put_status fails teacherId a w
   = (w, Return (mkResponse 404 (Message "Teacher not found.")))).
Proof.
  cbv zeta. repeat split.
  - intros id' Hne.
    destruct (put_status_Teachers fails teacherId a w)
      as [E|(d & stamp & Hf & E)]; rewrite E; [reflexivity|].
    apply findById_save_other. cbn.
    rewrite (findById_id _ _ _ Hf). congruence.
  - destruct (put_status_Teachers fails teacherId a w)
      as [E|(d & stamp & Hf & E)]; rewrite E; [reflexivity|].
    unfold Teacher.save. apply length_map.
  - intros d Hd.
    destruct (put_status_Teachers fails teacherId a w)
      as [E|(d0 & stamp & Hf & E)]; rewrite E.
    + exists (Teacher.isAvailable d), (Teacher.lastAvailableTimestamp d).
      rewrite Hd. now destruct d.
    + rewrite Hd in Hf. injection Hf as <-.
      exists a, stamp. now apply findById_save with (d := d).
  - intros Hnone F. unfold_handler. rewrite F. cbn. now rewrite Hnone.
Qed.
End TeacherRoutes.

(** ** Login and the authentication middleware *)

Lemma find_app_None {A} (p : A -> bool) l l' :
  List.find p l = None -> List.find p (l ++ l') = List.find p l'.
Proof.
  induction l as [|x l IH]; cbn; [reflexivity|].
  destruct (p x); [discriminate|exact IH].
Qed.

Lemma findById_fresh id coll d :
  Forall (fun x => (Teacher._id x < id)%nat) coll ->
  Teacher._id d = id ->
  Teacher.findById id (coll ++ [d]) = Some d.
Proof.
  intros Hlt Hid. unfold Teacher.findById.
  rewrite find_app_None.
  - cbn. now rewrite Hid, Nat.eqb_refl.
  - destruct (List.find _ coll) as [x|] eqn:E; [|reflexivity].
    apply find_some in E. destruct E as (Hin & E).
    apply Nat.eqb_eq in E. rewrite Forall_forall in Hlt.
    specialize (Hlt x Hin). lia.
Qed.

Section AuthRoutes.
Variable startOfDay : Date -> Date.
Variable clock : nat -> Date.
Variable bcrypt_hash : string -> string.
Variable bcrypt_compare : string -> string -> bool.
Variable jwt_sign : ObjectId -> string.
Variable jwt_verify : string -> option ObjectId.

Local Abbreviation login := (post_auth_login bcrypt_compare jwt_sign).
Local Abbreviation invalid_credentials :=
  (Return (400%nat, LoginMessage "Invalid credentials.")).

Ltac absurd_answer :=
  intros;
  first [ congruence
        | match goal with
          | H : Return _ = Return _ |- _ => discriminate H
          end ].

(** X4.  A login never changes the world.  It answers 200 only for the
    first stored teacher with the given email and a password that
    [bcrypt.compare] accepts against the stored hash; the answer then
    carries the token signed for that teacher's [_id] together with the
    teacher's name, email and status.  An unknown email and a wrong
    password get the very same 400 answer. *)
Theorem X4_login fails email password w :
  fst (login fails email password w) = w /\
  (forall tok id n e a,
     snd (login fails email password w)
     = Return (200%nat, LoginToken tok id n e a) ->
     exists d hash,
       Teacher.findOne_email email (Teachers w) = Some d /\
       Teacher.password d = Some hash /\
       bcrypt_compare password hash = true /\
       tok = jwt_sign (Teacher._id d) /\ id = Teacher._id d /\
       n = Teacher.name d /\ e = Teacher.email d /\
       a = Teacher.isAvailable d) /\
  (fails Op_Teacher_findOne = false ->
   Teacher.findOne_email email (Teachers w) = None ->
   snd (login fails email password w) = invalid_credentials) /\
  (fails Op_Teacher_findOne = false ->
   forall d hash,
     Teacher.findOne_email email (Teachers w) = Some d ->
     Teacher.password d = Some hash ->
     bcrypt_compare password hash = false ->
     snd (login fails email password w) = invalid_credentials).
Proof.
  unfold post_auth_login. unfold_handler.
  destruct (fails Op_Teacher_findOne); cbn;
    [repeat split; absurd_answer|].
  destruct (Teacher.findOne_email email (Teachers w)) as [d|]; cbn;
    [|repeat split; absurd_answer].
  destruct (Teacher.password d) as [hash|] eqn:Hp; cbn;
    [|repeat split; absurd_answer].
  destruct (bcrypt_compare password hash) eqn:E; cbn.
  - split; [reflexivity|split; [|split]].
    + intros tok id n e a H. injection H as <- <- <- <- <-.
      exists d, hash. repeat split; assumption.
    + absurd_answer.
    + intros _ d0 h0 H0 H1 H2. congruence.
  - repeat split; absurd_answer.
Qed.

(** A request carries a token the middleware accepts for [id]. *)
Local Abbreviation accepted token id :=
  (exists tok, token = Some tok /\ tok <> ""%string /\
               jwt_verify tok = Some id).

(** X5.  Behind [authMiddleware] a request whose token is absent, empty
    or rejected by [jwt.verify] is answered 401 or 400 by the
    middleware and changes nothing: the status route and the time route
    leave the world untouched (no document, record, clock reading or
    broadcast), and the two protected query routes leave the backend
    untouched.  An accepted token runs the route as the teacher the
    token names. *)
Theorem X5_protected_routes_need_a_token fails qfails token a qid w b :
  ((forall id, ~ accepted token id) ->
   fst (PUT_teachers_status startOfDay clock jwt_verify fails token a w) = w /\
   fst (GET_teachers_my_time startOfDay clock jwt_verify fails token w) = w /\
   fst (GET_queries_teacher jwt_verify qfails token b) = b /\
   fst (PUT_queries_end clock jwt_verify qfails token qid b) = b /\
   exists status message,
     (status = 401 \/ status = 400)%nat /\
     snd (PUT_teachers_status startOfDay clock jwt_verify fails token a w)
     = Denied status message /\
     snd (GET_teachers_my_time startOfDay clock jwt_verify fails token w)
     = Denied status message /\
     snd (GET_queries_teacher jwt_verify qfails token b)
     = Denied status message /\
     snd (PUT_queries_end clock jwt_verify qfails token qid b)
     = Denied status message) /\
  (forall id,
     accepted token id ->
     PUT_teachers_status startOfDay clock jwt_verify fails token a w
     = (fst (put_teachers_status startOfDay clock fails id a w),
        Served (snd (put_teachers_status startOfDay clock fails id a w))) /\
     PUT_queries_end clock jwt_verify qfails token qid b
     = (fst (put_queries_end clock qfails qid id b),
        Served (snd (put_queries_end clock qfails qid id b)))).
Proof.
  split.
  - intros Hno.
    unfold PUT_teachers_status, GET_teachers_my_time, GET_queries_teacher,
      PUT_queries_end, authMiddleware.
    destruct token as [tok|].
    + destruct (String.eqb_spec tok "") as [->|Hne]; cbn.
      * repeat split. exists 401%nat. eexists. repeat split. now left.
      * destruct (jwt_verify tok) as [id|] eqn:E.
        -- exfalso. apply (Hno id). exists tok. auto.
        -- repeat split. exists 400%nat. eexists. repeat split. now right.
    + repeat split. exists 401%nat. eexists. repeat split. now left.
  - intros id (tok & -> & Hne & Hv).
    unfold PUT_teachers_status, PUT_queries_end, authMiddleware.
    apply String.eqb_neq in Hne. rewrite Hne, Hv.
    split.
    + now destruct (put_teachers_status startOfDay clock fails id a w).
    + now destruct (put_queries_end clock qfails qid id b).
Qed.
Lemma findOne_email_fresh e coll d :
  Teacher.findOne_email e coll = None -> Teacher.email d = e ->
  Teacher.findOne_email e (coll ++ [d]) = Some d.
Proof.
  intros Hnone He. unfold Teacher.findOne_email in *.
  rewrite find_app_None by exact Hnone.
  cbn. now rewrite He, String.eqb_refl.
Qed.

(** X6.  Register, log in, go available.  In a world whose teacher
    [_id]s are below the generator, a registration with non-empty
    fields and an email nobody has is answered 201 when no store
    operation fails; a login with the same email and password is then
    answered 200 with the token signed for the new teacher's [_id]
    (provided [bcrypt.compare] accepts a password against its own
    hash); and a status request carrying that token (provided
    [jwt.verify] accepts the token it signed) is answered 200 and
    stores that teacher as available since the clock reading. *)
Theorem X6_register_login_go_available n e p ph rn w :
  Forall (fun d => (Teacher._id d < nextObjectId w)%nat) (Teachers w) ->
  n <> ""%string -> e <> ""%string -> p <> ""%string ->
  ph <> ""%string -> rn <> ""%string ->
  Teacher.findOne_email e (Teachers w) = None ->
  bcrypt_compare p (bcrypt_hash p) = true ->
  jwt_sign (nextObjectId w) <> ""%string ->
  jwt_verify (jwt_sign (nextObjectId w)) = Some (nextObjectId w) ->
  let id := nextObjectId w in
  let token := jwt_sign id in
  let doc := Teacher.mk id n e (Some (bcrypt_hash p)) ph rn false None in
  let w1 := fst (post_auth_register bcrypt_hash no_faults n e p ph rn w) in
  let out :=
    PUT_teachers_status startOfDay clock jwt_verify no_faults (Some token)
                        true w1 in
  snd (post_auth_register bcrypt_hash no_faults n e p ph rn w)
  = Return (mkResponse 201 (Message "Teacher registered successfully.")) /\
  login no_faults e p w1
  = (w1, Return (200%nat, LoginToken token id n e false)) /\
  snd out
  = Served (Return (mkResponse 200
                      (TeacherDoc
                         (with_status doc true (Some (clock (ticks w))))))) /\
  Teacher.findById id (Teachers (fst out))
  = Some (with_status doc true (Some (clock (ticks w)))).
Proof.
  intros Hlt Hn He Hp Hph Hrn Hnone Hcmp Htok Hver. cbv zeta.
  set (id := nextObjectId w) in *.
  set (doc := Teacher.mk id n e (Some (bcrypt_hash p)) ph rn false None).
  set (w1 := fst (post_auth_register bcrypt_hash no_faults n e p ph rn w)).
  assert (Hw1 : post_auth_register bcrypt_hash no_faults n e p ph rn w
                = (mkWorld (Teachers w ++ [doc]) (TimeRecords w)
                           (S id) (ticks w) (sockets w)
                           (rooms w) (outbox w),
                   Return (mkResponse 201
                             (Message "Teacher registered successfully.")))).
  { unfold_handler.
    apply String.eqb_neq in Hn, He, Hp, Hph, Hrn.
    rewrite Hn, He, Hp, Hph, Hrn. cbn. now rewrite Hnone. }
  assert (Hfe : Teacher.findOne_email e (Teachers w1) = Some doc).
  { unfold w1. rewrite Hw1. cbn [fst Teachers].
    now apply findOne_email_fresh. }
  assert (Hfi : Teacher.findById id (Teachers w1) = Some doc).
  { unfold w1. rewrite Hw1. cbn [fst Teachers].
    now apply findById_fresh. }
  split; [now rewrite Hw1|split].
  - unfold post_auth_login. unfold_handler. cbn.
    rewrite Hfe. cbn. now rewrite Hcmp.
  - unfold PUT_teachers_status, authMiddleware.
    apply String.eqb_neq in Htok. rewrite Htok, Hver.
    assert (Hput : put_teachers_status startOfDay clock no_faults id true w1
                   = (mkWorld
                        (Teacher.save
                           (with_status doc true (Some (clock (ticks w))))
                           (Teachers w1))
                        (TimeRecords w1) (nextObjectId w1) (S (ticks w1))
                        (sockets w1) (rooms w1)
                        (outbox w1 ++
                         List.map
                           (fun s =>
                              (s, statusUpdate
                                    (Teacher.find_select_no_password
                                       (Teacher.save
                                          (with_status doc true
                                             (Some (clock (ticks w))))
                                          (Teachers w1)))))
                           (sockets w1)),
                      Return (mkResponse 200
                                (TeacherDoc
                                   (with_status doc true
                                      (Some (clock (ticks w)))))))).
    { unfold_handler. cbn. rewrite Hfi. cbn.
      unfold w1. rewrite Hw1. reflexivity. }
    rewrite Hput. cbn [fst snd Teachers]. split; [reflexivity|].
    now apply findById_save with (d := doc).
Qed.
End AuthRoutes.

(** ** The query routes *)

(** [findOneAndUpdate] finds nothing and changes nothing, or updates the
    first document that passes the filter and returns it. *)
Lemma findOneAndUpdate_spec filter update coll :
  ((forall q, In q coll -> filter q = false) /\
   Query.findOneAndUpdate filter update coll = (coll, None)) \/
  (exists l1 q l2,
     coll = l1 ++ q :: l2 /\ filter q = true /\
     (forall x, In x l1 -> filter x = false) /\
     Query.findOneAndUpdate filter update coll
     = (l1 ++ update q :: l2, Some (update q))).
Proof.
  induction coll as [|x rest IH]; cbn.
  - left. split; [intros q []|reflexivity].
  - destruct (filter x) eqn:E.
    + right. exists [], x, rest. repeat split; auto. intros y [].
    + destruct IH as [(Hall & ->)|(l1 & q & l2 & -> & Hq & Hl1 & ->)].
      * left. split; [|reflexivity].
        intros q [<-|Hq]; auto.
      * right. exists (x :: l1), q, l2. repeat split; auto.
        intros y [<-|Hy]; auto.
Qed.

Lemma room_members_spec room w s :
  In s (room_members room w) <-> In s (sockets w) /\ In (s, room) (rooms w).
Proof.
  unfold room_members. rewrite filter_In, existsb_exists.
  split.
  - intros (Hs & (m & Hm & E)). split; [exact Hs|].
    apply andb_true_iff in E. destruct E as (E1 & E2).
    apply Nat.eqb_eq in E1, E2. destruct m as (a & b). cbn in *.
    now subst.
  - intros (Hs & Hm). split; [exact Hs|].
    exists (s, room). split; [exact Hm|].
    cbn. now rewrite !Nat.eqb_refl.
Qed.

(** *** The pending list *)

Lemma insert_desc_Permutation q l :
  Permutation (Query.insert_desc q l) (q :: l).
Proof.
  induction l as [|x l IH]; cbn; [reflexivity|].
  destruct (Query.createdAt x <=? Query.createdAt q)%Z; [reflexivity|].
  rewrite IH. apply perm_swap.
Qed.

Lemma sort_Permutation l : Permutation (Query.sort_createdAt_desc l) l.
Proof.
  induction l as [|x l IH]; cbn; [reflexivity|].
  rewrite insert_desc_Permutation. now constructor.
Qed.

Local Abbreviation newer_first :=
  (fun x y : Query.t => (Query.createdAt y <= Query.createdAt x)%Z).

Lemma insert_desc_sorted q l :
  StronglySorted newer_first l ->
  StronglySorted newer_first (Query.insert_desc q l).
Proof.
  induction 1 as [|x l Hl IH Hx]; cbn.
  - constructor; constructor.
  - destruct (Z.leb_spec (Query.createdAt x) (Query.createdAt q)).
    + constructor; [now constructor|].
      constructor; [assumption|].
      eapply Forall_impl; [|exact Hx]. cbn. intros; lia.
    + constructor; [exact IH|].
      eapply Permutation_Forall;
        [symmetry; apply insert_desc_Permutation|].
      constructor; [lia|exact Hx].
Qed.

Lemma sort_sorted l :
  StronglySorted newer_first (Query.sort_createdAt_desc l).
Proof.
  induction l as [|x l IH]; cbn; [constructor|].
  now apply insert_desc_sorted.
Qed.

Lemma find_pending_In teacherId coll q :
  In q (Query.find_pending teacherId coll) <->
  In q coll /\ Query.teacher q = teacherId /\
  Query.status q = Query.pending.
Proof.
  unfold Query.find_pending, Query.is_pending.
  rewrite filter_In, andb_true_iff, Nat.eqb_eq.
  destruct (Query.status q); intuition congruence.
Qed.

(** X9.  When the lookup succeeds, the pending list of a teacher holds
    exactly the stored queries of that teacher whose status is pending
    (each as often as stored), newest first by [createdAt], and the
    request changes nothing. *)
Theorem X9_pending_list qfails teacherId b :
  qfails Op_Query_find = false ->
  exists l,
    get_queries_teacher qfails teacherId b
    = (b, mkQueryResponse 200 (QueryList l)) /\
    Permutation l (Query.find_pending teacherId (Queries b)) /\
    StronglySorted
      (fun x y => (Query.createdAt y <= Query.createdAt x)%Z) l /\
    (forall q,
       In q l <->
       In q (Queries b) /\ Query.teacher q = teacherId /\
       Query.status q = Query.pending).
Proof.
  intros F. unfold get_queries_teacher. rewrite F.
  eexists. split; [reflexivity|]. split; [apply sort_Permutation|].
  split; [apply sort_sorted|].
  intros q. rewrite <- find_pending_In.
  split; apply Permutation_in;
    [apply sort_Permutation|symmetry; apply sort_Permutation].
Qed.

Lemma parse_resolution_None r :
  parse_resolution r = None <->
  r <> "satisfied"%string /\ r <> "not_satisfied"%string.
Proof.
  unfold parse_resolution.
  destruct (String.eqb_spec r "satisfied"),
    (String.eqb_spec r "not_satisfied"); split;
    try discriminate; try tauto; intros (H1 & H2); contradiction.
Qed.

Section QueryRouteProperties.
Variable startOfDay : Date -> Date.
Variable clock : nat -> Date.
Variable bcrypt_hash : string -> string.

(** X7.  A query with an empty student name, an empty text or no teacher
    is answered 400 and changes nothing.  Otherwise, when the save
    succeeds, the answer is 201 with the new query: pending,
    unresolved, with a fresh [_id] and both timestamps at the clock
    reading; it is appended to the collection and one [newQuery] is
    delivered to each connected socket that joined the teacher's room
    and to nobody else.  The Teacher collection is not consulted: the
    teacher need not be available, nor exist. *)
Theorem X7_post_query qfails n t teacherId b :
  let out := post_queries clock qfails n t teacherId b in
  (n = ""%string \/ t = ""%string \/ teacherId = None ->
   out = (b, mkQueryResponse 400 (QueryMessage "Missing required fields."))) /\
  (forall id,
     n <> ""%string -> t <> ""%string -> teacherId = Some id ->
     qfails Op_Query_save = false ->
     let now := clock (ticks (world b)) in
     let q := Query.mk (nextQueryId b) n t id Query.pending None now now in
     snd out = mkQueryResponse 201 (QueryDoc q) /\
     Queries (fst out) = Queries b ++ [q] /\
     nextQueryId (fst out) = S (nextQueryId b) /\
     queryOutbox (fst out)
     = queryOutbox b ++
       List.map (fun s => (s, ev_newQuery q)) (room_members id (world b)) /\
     (forall s, In (s, ev_newQuery q) (queryOutbox (fst out)) ->
                In (s, ev_newQuery q) (queryOutbox b) \/
                (In s (sockets (world b)) /\ In (s, id) (rooms (world b)))) /\
     Teachers (world (fst out)) = Teachers (world b) /\
     TimeRecords (world (fst out)) = TimeRecords (world b)).
Proof.
  cbv zeta. unfold post_queries. split.
  - intros [ -> | [ -> | -> ] ]; [| |reflexivity]; destruct teacherId; cbn;
      try reflexivity.
    now rewrite orb_true_r.
  - intros id Hn Ht -> F.
    apply String.eqb_neq in Hn, Ht. rewrite Hn, Ht, F. cbn.
    repeat split.
    intros s Hin. apply in_app_or in Hin. destruct Hin as [Hin|Hin]; auto.
    right. apply in_map_iff in Hin. destruct Hin as (s' & E & Hs').
    injection E as ->. now apply room_members_spec.
Qed.

(** X8.  Ending a query.  When no stored query has both the [_id] and
    the caller as its teacher, the answer is 404, no query changes and
    nothing is emitted: a teacher cannot end another teacher's query.
    An answer 200 carries the first such query with [status] set to
    ended and [updatedAt] to the clock reading, every other field and
    every other query as before, and one [queryUpdated] is delivered to
    every connected socket. *)
Theorem X8_end_query qfails id teacherId b :
  let out := put_queries_end clock qfails id teacherId b in
  ((forall q, In q (Queries b) -> Query._id q = id ->
              Query.teacher q <> teacherId) ->
   qfails Op_Query_findOneAndUpdate = false ->
   snd out = mkQueryResponse 404
               (QueryMessage "Query not found or unauthorized.") /\
   Queries (fst out) = Queries b /\
   queryOutbox (fst out) = queryOutbox b) /\
  (forall q',
     snd out = mkQueryResponse 200 (QueryDoc q') ->
     exists l1 q l2,
       Queries b = l1 ++ q :: l2 /\
       Query._id q = id /\ Query.teacher q = teacherId /\
       (forall x, In x l1 ->
                  ~ (Query._id x = id /\ Query.teacher x = teacherId)) /\
       q' = Query.set_ended (clock (ticks (world b))) q /\
       Query.status q' = Query.ended /\
       Query.resolution q' = Query.resolution q /\
       same_query q q' /\
       Queries (fst out) = l1 ++ q' :: l2 /\
       queryOutbox (fst out)
       = queryOutbox b ++
         List.map (fun s => (s, ev_queryUpdated q')) (sockets (world b))).
Proof.
  cbv zeta. unfold put_queries_end.
  destruct (findOneAndUpdate_spec
              (fun q => Nat.eqb (Query._id q) id
                        && Nat.eqb (Query.teacher q) teacherId)
              (Query.set_ended (clock (ticks (world b)))) (Queries b))
    as [(Hall & E)|(l1 & q & l2 & Hcoll & Hq & Hl1 & E)].
  - split.
    + intros _ F. rewrite F. cbn. rewrite E. cbn. auto.
    + intros q'. destruct (qfails Op_Query_findOneAndUpdate); cbn;
        [discriminate|]. rewrite E. cbn. discriminate.
  - apply andb_true_iff in Hq. destruct Hq as (Hid & Hteacher).
    apply Nat.eqb_eq in Hid, Hteacher.
    split.
    + intros Hown. exfalso. apply (Hown q); auto.
      rewrite Hcoll. apply in_or_app. right. now left.
    + intros q'. destruct (qfails Op_Query_findOneAndUpdate); cbn;
        [discriminate|]. rewrite E. cbn.
      intros H. injection H as <-.
      exists l1, q, l2. repeat split; auto.
      intros x Hx (H1 & H2). specialize (Hl1 x Hx).
      rewrite H1, H2, !Nat.eqb_refl in Hl1. discriminate.
Qed.
(** *** Resolving *)

(** X10.  Resolving a query.  A resolution other than ['satisfied'] or
    ['not_satisfied'] is answered 400 and changes nothing.  A
    resolution never changes the status of any query: it neither ends
    a query nor requires it to be ended.  An answer 200 carries the
    first query with the [_id], with its resolution replaced by the new
    one (whatever it was before) and [updatedAt] at the clock reading,
    and one [queryUpdated] is delivered to every connected socket. *)
Theorem X10_resolve_query qfails id r b :
  let out := put_queries_resolve clock qfails id r b in
  (r <> "satisfied"%string -> r <> "not_satisfied"%string ->
   out = (b, mkQueryResponse 400
               (QueryMessage "Invalid resolution value."))) /\
  List.map Query.status (Queries (fst out))
  = List.map Query.status (Queries b) /\
  (forall q',
     snd out = mkQueryResponse 200 (QueryDoc q') ->
     exists res l1 q l2,
       parse_resolution r = Some res /\
       Queries b = l1 ++ q :: l2 /\ Query._id q = id /\
       (forall x, In x l1 -> Query._id x <> id) /\
       q' = Query.set_resolution res (clock (ticks (world b))) q /\
       Query.resolution q' = Some res /\
       Query.status q' = Query.status q /\
       same_query q q' /\
       Queries (fst out) = l1 ++ q' :: l2 /\
       queryOutbox (fst out)
       = queryOutbox b ++
         List.map (fun s => (s, ev_queryUpdated q')) (sockets (world b))).
Proof.
  cbv zeta. unfold put_queries_resolve.
  destruct (parse_resolution r) as [res|] eqn:Hr.
  - destruct (findOneAndUpdate_spec
                (fun q => Nat.eqb (Query._id q) id)
                (Query.set_resolution res (clock (ticks (world b))))
                (Queries b))
      as [(Hall & E)|(l1 & q & l2 & Hcoll & Hq & Hl1 & E)].
    + split; [|split].
      * intros H1 H2.
        rewrite (proj2 (parse_resolution_None r) (conj H1 H2)) in Hr.
        discriminate Hr.
      * destruct (qfails Op_Query_findByIdAndUpdate); cbn; [reflexivity|].
        rewrite E. reflexivity.
      * intros q'. destruct (qfails Op_Query_findByIdAndUpdate); cbn;
          [discriminate|]. rewrite E. cbn. discriminate.
    + apply Nat.eqb_eq in Hq. split; [|split].
      * intros H1 H2.
        rewrite (proj2 (parse_resolution_None r) (conj H1 H2)) in Hr.
        discriminate Hr.
      * destruct (qfails Op_Query_findByIdAndUpdate); cbn; [reflexivity|].
        rewrite E. cbn. rewrite Hcoll, !map_app. reflexivity.
      * intros q'. destruct (qfails Op_Query_findByIdAndUpdate); cbn;
          [discriminate|]. rewrite E. cbn.
        intros H. injection H as <-.
        exists res, l1, q, l2. repeat split; auto.
        intros x Hx Hid. specialize (Hl1 x Hx).
        apply Nat.eqb_neq in Hl1. contradiction.
  - split; [reflexivity|split; [reflexivity|discriminate]].
Qed.
(** *** The life of a query *)

Local Abbreviation bstep := (backend_step startOfDay clock bcrypt_hash).
Local Abbreviation brun := (backend_run startOfDay clock bcrypt_hash).

(** What a request can do to the Query collection: nothing, append a
    pending query with the generator's [_id], or update one query in
    place, keeping the fields fixed at creation and never reopening
    it. *)
Lemma backend_step_Queries b r :
  (Queries (bstep b r) = Queries b /\
   nextQueryId (bstep b r) = nextQueryId b) \/
  (exists q,
     Queries (bstep b r) = Queries b ++ [q] /\
     Query._id q = nextQueryId b /\ Query.status q = Query.pending /\
     nextQueryId (bstep b r) = S (nextQueryId b)) \/
  (exists l1 q l2 q',
     Queries b = l1 ++ q :: l2 /\
     Queries (bstep b r) = l1 ++ q' :: l2 /\
     same_query q q' /\
     (Query.status q = Query.ended -> Query.status q' = Query.ended) /\
     nextQueryId (bstep b r) = nextQueryId b).
Proof.
  destruct r as [r|n t [id|] qfails|tid qfails|id tid qfails|id res qfails];
    cbn [backend_step].
  - left. split; reflexivity.
  - unfold post_queries.
    destruct (String.eqb n "" || String.eqb t ""); cbn; [left; auto|].
    destruct (qfails Op_Query_save); cbn; [left; auto|].
    right. left. eexists. repeat split.
  - left. split; reflexivity.
  - unfold get_queries_teacher.
    destruct (qfails Op_Query_find); left; split; reflexivity.
  - unfold put_queries_end.
    destruct (qfails Op_Query_findOneAndUpdate); cbn; [left; auto|].
    destruct (findOneAndUpdate_spec
                (fun q => Nat.eqb (Query._id q) id
                          && Nat.eqb (Query.teacher q) tid)
                (Query.set_ended (clock (ticks (world b)))) (Queries b))
      as [(_ & E)|(l1 & q & l2 & Hcoll & _ & _ & E)];
      rewrite E; cbn; [left; auto|].
    right. right. exists l1, q, l2, (Query.set_ended (clock (ticks (world b))) q).
    repeat split; auto.
  - unfold put_queries_resolve.
    destruct (parse_resolution res) as [res'|]; [|left; auto].
    destruct (qfails Op_Query_findByIdAndUpdate); cbn; [left; auto|].
    destruct (findOneAndUpdate_spec
                (fun q => Nat.eqb (Query._id q) id)
                (Query.set_resolution res' (clock (ticks (world b))))
                (Queries b))
      as [(_ & E)|(l1 & q & l2 & Hcoll & _ & _ & E)];
      rewrite E; cbn; [left; auto|].
    right. right.
    exists l1, q, l2,
      (Query.set_resolution res' (clock (ticks (world b))) q).
    repeat split; auto.
Qed.

Lemma queries_wf_step b r : queries_wf b -> queries_wf (bstep b r).
Proof.
  intros (Hnd & Hlt). unfold queries_wf.
  destruct (backend_step_Queries b r)
    as [(E & En)|[(q & E & Hid & _ & En)
                 |(l1 & q & l2 & q' & Hb & E & Hsame & _ & En)]];
    rewrite E, En.
  - auto.
  - split.
    + rewrite map_app. cbn. apply NoDup_snoc; [exact Hnd|].
      intros Hin. apply in_map_iff in Hin. destruct Hin as (x & Ex & Hx).
      rewrite Forall_forall in Hlt. specialize (Hlt x Hx). lia.
    + apply Forall_app. split.
      * eapply Forall_impl; [|exact Hlt]. cbn. intros; lia.
      * constructor; [lia|constructor].
  - destruct Hsame as (Hid & _).
    rewrite Hb in Hnd, Hlt. split.
    + rewrite map_app in *. cbn in *. now rewrite Hid.
    + apply Forall_app in Hlt. destruct Hlt as (H1 & H2).
      inversion H2; subst. apply Forall_app. split; [exact H1|].
      constructor; [lia|assumption].
Qed.

Lemma query_kept_step b r q :
  In q (Queries b) ->
  exists q', In q' (Queries (bstep b r)) /\ same_query q q' /\
             (Query.status q = Query.ended ->
              Query.status q' = Query.ended).
Proof.
  intros Hin.
  assert (Hrefl : same_query q q) by (repeat split).
  destruct (backend_step_Queries b r)
    as [(E & _)|[(x & E & _)
                |(l1 & q0 & l2 & q0' & Hb & E & Hsame & Hend & _)]];
    rewrite E.
  - exists q. auto.
  - exists q. split; [apply in_or_app; now left|auto].
  - rewrite Hb in Hin. apply in_app_or in Hin.
    destruct Hin as [Hin|[<-|Hin]].
    + exists q. split; [apply in_or_app; now left|auto].
    + exists q0'. split; [apply in_or_app; right; now left|auto].
    + exists q. split; [apply in_or_app; right; now right|auto].
Qed.

Lemma same_query_trans q1 q2 q3 :
  same_query q1 q2 -> same_query q2 q3 -> same_query q1 q3.
Proof.
  unfold same_query. intros (A1 & A2 & A3 & A4 & A5) (B1 & B2 & B3 & B4 & B5).
  repeat split; congruence.
Qed.

(** X11.  The life of a query.  After any sequence of requests from the
    empty backend the stored queries have distinct [_id]s.  Through any
    sequence of requests a stored query stays stored: some stored query
    has the same [_id], student name, text, teacher and [createdAt];
    and once it is ended this query stays ended. *)
Theorem X11_query_lifecycle :
  (forall rs, queries_wf (brun initialBackend rs)) /\
  (forall rs b q,
     In q (Queries b) ->
     exists q',
       In q' (Queries (brun b rs)) /\ same_query q q' /\
       (Query.status q = Query.ended -> Query.status q' = Query.ended)).
Proof.
  split.
  - intros rs.
    assert (H : forall b, queries_wf b -> queries_wf (brun b rs)).
    { induction rs as [|r rs IH]; intros b Hb; cbn; [exact Hb|].
      apply IH. now apply queries_wf_step. }
    apply H. split; constructor.
  - induction rs as [|r rs IH]; intros b q Hin; cbn.
    + exists q. repeat split; auto.
    + destruct (query_kept_step b r q Hin) as (q1 & Hin1 & Hs1 & He1).
      destruct (IH (bstep b r) q1 Hin1) as (q2 & Hin2 & Hs2 & He2).
      exists q2. split; [exact Hin2|split].
      * eapply same_query_trans; eassumption.
      * auto.
Qed.

(** X12.  With distinct [_id]s in the store, once the ending of a query
    has been answered 200 the caller's pending list no longer holds a
    query with that [_id]. *)
Theorem X12_ended_query_leaves_pending_list qfails id teacherId b q' :
  NoDup (List.map Query._id (Queries b)) ->
  snd (put_queries_end clock qfails id teacherId b)
  = mkQueryResponse 200 (QueryDoc q') ->
  let b' := fst (put_queries_end clock qfails id teacherId b) in
  forall qfails' l,
    snd (get_queries_teacher qfails' teacherId b')
    = mkQueryResponse 200 (QueryList l) ->
    forall x, In x l -> Query._id x <> id.
Proof.
  intros Hnd H. cbv zeta. intros qfails' l Hl.
  assert (El : l = Query.sort_createdAt_desc
                     (Query.find_pending teacherId
                        (Queries
                           (fst (put_queries_end clock qfails id
                                                 teacherId b))))).
  { revert Hl. unfold get_queries_teacher.
    destruct (qfails' Op_Query_find); cbn; [discriminate|].
    intros Hl. now injection Hl as <-. }
  subst l. clear Hl. revert H. unfold put_queries_end.
  destruct (qfails Op_Query_findOneAndUpdate); cbn; [discriminate|].
  destruct (findOneAndUpdate_spec
              (fun q => Nat.eqb (Query._id q) id
                        && Nat.eqb (Query.teacher q) teacherId)
              (Query.set_ended (clock (ticks (world b)))) (Queries b))
    as [(_ & E)|(l1 & q & l2 & Hcoll & Hq & _ & E)];
    rewrite E; cbn; [discriminate|].
  intros _ x Hx Hid.
  apply (Permutation_in _ (sort_Permutation _)) in Hx.
  apply find_pending_In in Hx. destruct Hx as (Hin & _ & Hpending).
  apply andb_true_iff in Hq. destruct Hq as (Hqid & _).
  apply Nat.eqb_eq in Hqid.
  set (q1 := Query.set_ended (clock (ticks (world b))) q) in *.
  assert (Hnd' : NoDup (List.map Query._id (l1 ++ q1 :: l2))).
  { rewrite Hcoll in Hnd. rewrite map_app in *. exact Hnd. }
  assert (Hq1 : In q1 (l1 ++ q1 :: l2))
    by (apply in_or_app; right; now left).
  assert (x = q1).
  { apply (NoDup_map_eq Query._id (l1 ++ q1 :: l2)); auto.
    cbn. congruence. }
  subst x. discriminate.
Qed.
(** *** Deliveries and the socket registry *)

(** The deliveries of a box to one socket. *)
Local Abbreviation to_socket s box :=
  (List.filter (fun m => Nat.eqb (fst m) s) box).

Lemma to_socket_none {E} (s : SocketId) (recipients : list SocketId)
    (ev : E) :
  ~ In s recipients ->
  to_socket s (List.map (fun r => (r, ev)) recipients) = [].
Proof.
  intros Hs. induction recipients as [|r rest IH]; cbn; [reflexivity|].
  destruct (Nat.eqb_spec r s) as [->|Hne].
  - exfalso. apply Hs. now left.
  - apply IH. intros H. apply Hs. now right.
Qed.

(** A request on the world delivers to connected sockets only. *)
Lemma step_outbox w r :
  outbox (step startOfDay clock bcrypt_hash w r) = outbox w \/
  exists ev,
    outbox (step startOfDay clock bcrypt_hash w r)
    = outbox w ++ List.map (fun s => (s, ev)) (sockets w).
Proof.
  destruct r; cbn [step].
  - destruct (register_outcome bcrypt_hash fails name email password
                phone roomno w) as ([(_ & _ & _ & _ & _ & _ & _ & E)|(_ & E)] & _);
      rewrite E; now left.
  - rewrite get_teachers_world. now left.
  - unfold_handler.
    destruct (fails Op_Teacher_findById); cbn; [now left|].
    destruct (Teacher.findById teacherId (Teachers w)) as [d|]; cbn;
      [|now left].
    destruct (Teacher.isAvailable d), isAvailable; cbn;
      try destruct (Teacher.lastAvailableTimestamp d); cbn;
      case_faults fails; try (now left); right; eexists; reflexivity.
  - unfold_handler. cbn.
    destruct (fails Op_TimeRecord_findOne); now left.
  - now left.
  - now left.
  - now left.
Qed.

Lemma step_sockets w r s :
  r <> Connect s -> ~ In s (sockets w) ->
  ~ In s (sockets (step startOfDay clock bcrypt_hash w r)).
Proof.
  intros Hr Hs. destruct r; cbn [step].
  - destruct (register_outcome bcrypt_hash fails name email password
                phone roomno w) as ([(_ & _ & _ & _ & _ & _ & _ & E)|(_ & E)] & _);
      now rewrite E.
  - now rewrite get_teachers_world.
  - now rewrite (proj1 (proj2 (put_status_frame startOfDay clock fails
                                 teacherId isAvailable w))).
  - unfold_handler. cbn.
    now destruct (fails Op_TimeRecord_findOne).
  - cbn. intros [->|H]; [congruence|contradiction].
  - exact Hs.
  - cbn. intros H. apply filter_In in H. now destruct H.
Qed.

(** A request on the backend delivers query events to connected
    sockets only. *)
Lemma backend_step_queryOutbox b r :
  queryOutbox (bstep b r) = queryOutbox b \/
  exists ev recipients,
    queryOutbox (bstep b r)
    = queryOutbox b ++ List.map (fun s => (s, ev)) recipients /\
    (forall s, In s recipients -> In s (sockets (world b))).
Proof.
  destruct r as [r|n t [id|] qfails|tid qfails|id tid qfails|id res qfails];
    cbn [backend_step].
  - now left.
  - unfold post_queries.
    destruct (String.eqb n "" || String.eqb t ""); cbn; [now left|].
    destruct (qfails Op_Query_save); cbn; [now left|].
    right. eexists. eexists. split; [reflexivity|].
    intros s Hs. now apply room_members_spec in Hs.
  - now left.
  - unfold get_queries_teacher.
    destruct (qfails Op_Query_find); now left.
  - unfold put_queries_end.
    destruct (qfails Op_Query_findOneAndUpdate); cbn; [now left|].
    destruct (Query.findOneAndUpdate _ _ _) as (coll & [q|]); cbn;
      [|now left].
    right. eexists. eexists. split; [reflexivity|]. auto.
  - unfold put_queries_resolve.
    destruct (parse_resolution res); [|now left].
    destruct (qfails Op_Query_findByIdAndUpdate); cbn; [now left|].
    destruct (Query.findOneAndUpdate _ _ _) as (coll & [q|]); cbn;
      [|now left].
    right. eexists. eexists. split; [reflexivity|]. auto.
Qed.

Lemma backend_step_world b r :
  (exists r', r = OnWorld r' /\
              world (bstep b r)
              = step startOfDay clock bcrypt_hash (world b) r') \/
  ((forall r', r <> OnWorld r') /\
   sockets (world (bstep b r)) = sockets (world b) /\
   rooms (world (bstep b r)) = rooms (world b) /\
   outbox (world (bstep b r)) = outbox (world b) /\
   Teachers (world (bstep b r)) = Teachers (world b) /\
   TimeRecords (world (bstep b r)) = TimeRecords (world b)).
Proof.
  destruct r as [r|n t [id|] qfails|tid qfails|id tid qfails|id res qfails];
    cbn [backend_step].
  - left. eauto.
  - right. split; [discriminate|]. unfold post_queries.
    destruct (String.eqb n "" || String.eqb t ""); cbn; [auto 6|].
    destruct (qfails Op_Query_save); cbn; auto 6.
  - right. split; [discriminate|]. auto 6.
  - right. split; [discriminate|]. unfold get_queries_teacher.
    destruct (qfails Op_Query_find); cbn; auto 6.
  - right. split; [discriminate|]. unfold put_queries_end.
    destruct (qfails Op_Query_findOneAndUpdate); cbn; [auto 6|].
    destruct (Query.findOneAndUpdate _ _ _) as (coll & [q|]); cbn; auto 6.
  - right. split; [discriminate|]. unfold put_queries_resolve.
    destruct (parse_resolution res); [|auto 6].
    destruct (qfails Op_Query_findByIdAndUpdate); cbn; [auto 6|].
    destruct (Query.findOneAndUpdate _ _ _) as (coll & [q|]); cbn; auto 6.
Qed.

Lemma quiet_step b r s :
  r <> OnWorld (Connect s) -> ~ In s (sockets (world b)) ->
  ~ In s (sockets (world (bstep b r))) /\
  to_socket s (queryOutbox (bstep b r)) = to_socket s (queryOutbox b) /\
  to_socket s (outbox (world (bstep b r))) = to_socket s (outbox (world b)).
Proof.
  intros Hr Hs. split; [|split].
  - destruct (backend_step_world b r)
      as [(r' & -> & E)|(_ & E & _)]; rewrite E; [|exact Hs].
    apply step_sockets; [congruence|exact Hs].
  - destruct (backend_step_queryOutbox b r)
      as [E|(ev & recipients & E & Hrec)]; rewrite E; [reflexivity|].
    rewrite filter_app, to_socket_none, app_nil_r; [reflexivity|].
    intros H. apply Hs. now apply Hrec.
  - destruct (backend_step_world b r)
      as [(r' & -> & E)|(_ & _ & _ & E & _)]; rewrite E; [|reflexivity].
    destruct (step_outbox (world b) r') as [E'|(ev & E')]; rewrite E';
      [reflexivity|].
    now rewrite filter_app, to_socket_none, app_nil_r.
Qed.

(** X13.  Every delivery goes to a socket that is connected at the time.
    Hence once a socket has disconnected, no sequence of requests
    delivers anything to it, neither a [statusUpdate] nor a query
    event, as long as it does not connect again. *)
Theorem X13_no_delivery_after_disconnect s rs b :
  Forall (fun r => r <> OnWorld (Connect s)) rs ->
  let b0 :=
    backend_step startOfDay clock bcrypt_hash b (OnWorld (Disconnect s)) in
  let b1 := backend_run startOfDay clock bcrypt_hash b0 rs in
  ~ In s (sockets (world b1)) /\
  List.filter (fun m => Nat.eqb (fst m) s) (queryOutbox b1)
  = List.filter (fun m => Nat.eqb (fst m) s) (queryOutbox b0) /\
  List.filter (fun m => Nat.eqb (fst m) s) (outbox (world b1))
  = List.filter (fun m => Nat.eqb (fst m) s) (outbox (world b0)).
Proof.
  intros Hrs. cbv zeta.
  assert (H0 : ~ In s (sockets
                         (world (bstep b (OnWorld (Disconnect s)))))).
  { cbn. intros H. apply filter_In in H. destruct H as (_ & H).
    now rewrite Nat.eqb_refl in H. }
  revert H0. generalize (bstep b (OnWorld (Disconnect s))). clear b.
  induction Hrs as [|r rs Hr Hrs IH]; intros b Hs; cbn; [auto|].
  destruct (quiet_step b r s Hr Hs) as (Hs' & Eq & Eo).
  destruct (IH (bstep b r) Hs') as (H1 & H2 & H3).
  exact (conj H1 (conj (eq_trans H2 Eq) (eq_trans H3 Eo))).
Qed.

(** X14.  Joining a room needs no token and is idempotent.  After a
    socket has joined a room, the room's members are the members before
    together with that socket if it is connected; joining a second time
    changes nothing for any room, and no socket is listed twice unless
    it is connected twice. *)
Theorem X14_join_room s room w :
  (forall s' room',
     In s' (room_members room' (on_joinRoom s room w)) <->
     In s' (room_members room' w) \/
     (s' = s /\ room' = room /\ In s (sockets w))) /\
  (forall room',
     room_members room' (on_joinRoom s room (on_joinRoom s room w))
     = room_members room' (on_joinRoom s room w)) /\
  (NoDup (sockets w) ->
   forall room', NoDup (room_members room' (on_joinRoom s room w))).
Proof.
  split; [|split].
  - intros s' room'. rewrite !room_members_spec. cbn.
    split.
    + intros (Hs & [E|Hm]); [|now left].
      injection E as <- <-. right. auto.
    + intros [(Hs & Hm)|(-> & -> & Hs)]; split; auto.
  - intros room'. unfold room_members. cbn.
    apply filter_ext. intros x.
    destruct (Nat.eqb s x && Nat.eqb room room'); reflexivity.
  - intros Hnd room'. unfold room_members. now apply NoDup_filter.
Qed.
End QueryRouteProperties.

(** ** The two renderings of a day's total *)

Section Renderings.
Local Open Scope Z_scope.

Lemma Qtrunc_nonneg q : (0 <= q)%Q -> Qtrunc q = Qfloor q.
Proof.
  destruct q as (n & d). unfold Qle, Qtrunc, Qfloor. cbn.
  intros H. apply Z.quot_div_nonneg; lia.
Qed.

Lemma Qfloor_scale q (c : positive) :
  Qfloor (q * inject_Z (Zpos c)) / Zpos c = Qfloor q.
Proof.
  destruct q as (n & d). unfold Qfloor, Qmult, inject_Z. cbn.
  rewrite Pos.mul_1_r, Z.div_div by lia.
  apply Z.div_mul_cancel_r; lia.
Qed.

Lemma Qfloor_div q (c : positive) :
  Qfloor (q / inject_Z (Zpos c)) = Qfloor q / Zpos c.
Proof.
  destruct q as (n & d). unfold Qfloor, Qdiv, Qmult, Qinv, inject_Z. cbn.
  rewrite Z.mul_1_r, Pos2Z.inj_mul, Z.div_div by lia. reflexivity.
Qed.

Lemma Qfloor_minus_Z q (a : Z) :
  Qfloor (q - inject_Z a) = Qfloor q - a.
Proof.
  destruct q as (n & d).
  unfold Qfloor, Qminus, Qplus, Qopp, inject_Z. cbn.
  rewrite Pos.mul_1_r, Z.mul_1_r.
  replace (n + - a * Zpos d) with (n + (- a) * Zpos d) by lia.
  rewrite Z.div_add by lia. lia.
Qed.

(** The dashboard's remainder, for a total that is not negative. *)
Lemma Qfloor_js_rem q (c : positive) :
  (0 <= q)%Q ->
  Qfloor (js_rem q (inject_Z (Zpos c))) = Qfloor q mod Zpos c /\
  (0 <= js_rem q (inject_Z (Zpos c)))%Q.
Proof.
  intros Hq. unfold js_rem.
  assert (Hq' : (0 <= q / inject_Z (Zpos c))%Q).
  { apply Qle_shift_div_l; [reflexivity|]. now rewrite Qmult_0_l. }
  rewrite (Qtrunc_nonneg _ Hq'), Qfloor_div.
  rewrite <- inject_Z_mult, Qfloor_minus_Z.
  split.
  - rewrite Z.mod_eq by lia. reflexivity.
  - apply (Qle_minus_iff (inject_Z (Zpos c * (Qfloor q / Zpos c))) q).
    apply Qle_trans with (inject_Z (Qfloor q)); [|apply Qfloor_le].
    rewrite <- Zle_Qle. apply Z.mul_div_le. lia.
Qed.
Lemma Qfloor_bounds q (lo hi : Z) :
  (inject_Z lo <= q)%Q -> (q < inject_Z hi)%Q -> lo <= Qfloor q < hi.
Proof.
  intros Hlo Hhi. split.
  - rewrite <- (Qfloor_Z lo). now apply Qfloor_resp_le.
  - rewrite Zlt_Qlt. eapply Qle_lt_trans; [apply Qfloor_le|exact Hhi].
Qed.

Lemma report_time_nonneg q :
  (0 <= q)%Q -> (q < 253402300800)%Q ->
  report_time q = Some (hh_mm_ss (Qfloor q mod 86400)).
Proof.
  intros H0 Hmax. unfold report_time.
  assert (H0' : (0 <= q * 1000)%Q).
  { rewrite <- (Qmult_0_l 1000). apply Qmult_le_compat_r; [exact H0|].
    discriminate. }
  rewrite (Qtrunc_nonneg _ H0').
  pose proof (Qfloor_scale q 1000) as Hs.
  change (inject_Z (Zpos 1000)) with 1000%Q in Hs.
  destruct (Qfloor_bounds q 0 253402300800 H0 Hmax) as (Hn0 & Hn1).
  set (tv := Qfloor (q * 1000)) in *. set (n := Qfloor q) in *.
  assert (Htv : 0 <= tv <= 253402300799999)
    by (clearbody tv n; Z.div_mod_to_equations; lia).
  replace ((-62167219200000 <=? tv) && (tv <=? 253402300799999))
    with true by (symmetry; apply andb_true_iff; split; lia).
  unfold iso_time, hh_mm_ss. f_equal.
  replace (tv / 3600000 mod 24) with (n mod 86400 / 3600)
    by (clearbody tv n; Z.div_mod_to_equations; lia).
  replace (tv / 60000 mod 60) with (n mod 86400 mod 3600 / 60)
    by (clearbody tv n; Z.div_mod_to_equations; lia).
  replace (tv / 1000 mod 60) with (n mod 86400 mod 60)
    by (clearbody tv n; Z.div_mod_to_equations; lia).
  reflexivity.
Qed.

Lemma formatTime_nonneg q :
  (0 <= q)%Q ->
  formatTime q
  = (pad2 (Qfloor q / 3600) ++ ":" ++ pad2 (Qfloor q mod 3600 / 60) ++ ":"
     ++ pad2 (Qfloor q mod 60))%string.
Proof.
  intros H0. unfold formatTime.
  replace (Qle_bool 0 q) with true
    by (symmetry; now apply Qle_bool_iff).
  change 3600%Q with (inject_Z (Zpos 3600)).
  change 60%Q with (inject_Z (Zpos 60)).
  destruct (Qfloor_js_rem q 3600 H0) as (E1 & _).
  destruct (Qfloor_js_rem q 60 H0) as (E2 & _).
  rewrite !Qfloor_div, E1, E2. reflexivity.
Qed.

Lemma formatTime_negative q : (q < 0)%Q -> formatTime q = "00:00:00"%string.
Proof.
  intros H. unfold formatTime.
  replace (Qle_bool 0 q) with false; [reflexivity|].
  symmetry. apply not_true_is_false. intros E.
  apply Qle_bool_iff in E. now apply Qle_not_lt in E.
Qed.

(** X15.  The report's time column.  For a total from 0 up to the end
    of year 9999, the column shows the whole seconds of the total
    within a day of 86400 s, as HH:MM:SS: the fraction of a second is
    dropped and every full 24 hours are lost. *)
Theorem X15_report_time q :
  (0 <= q)%Q -> (q < 253402300800)%Q ->
  report_time q = Some (hh_mm_ss (Qfloor q mod 86400)) /\
  0 <= Qfloor q mod 86400 < 86400.
Proof.
  intros H0 Hmax. split; [now apply report_time_nonneg|].
  apply Z.mod_pos_bound. lia.
Qed.

(** X16.  The dashboard's [formatTime].  A negative total is shown as
    00:00:00.  Any other total is shown by its whole seconds [n]:
    hours [n / 3600] (not wrapped at 24), minutes and seconds below 60,
    each padded to two digits. *)
Theorem X16_formatTime q :
  ((q < 0)%Q -> formatTime q = "00:00:00"%string) /\
  ((0 <= q)%Q ->
   let n := Qfloor q in
   formatTime q
   = (pad2 (n / 3600) ++ ":" ++ pad2 (n mod 3600 / 60) ++ ":"
      ++ pad2 (n mod 60))%string /\
   0 <= n / 3600 /\ 0 <= n mod 3600 / 60 < 60 /\ 0 <= n mod 60 < 60 /\
   n = 3600 * (n / 3600) + 60 * (n mod 3600 / 60) + n mod 60).
Proof.
  split; [apply formatTime_negative|].
  intros H0 n. split; [now apply formatTime_nonneg|].
  assert (0 <= n).
  { unfold n. rewrite <- (Qfloor_Z 0). now apply Qfloor_resp_le. }
  clearbody n. Z.div_mod_to_equations. lia.
Qed.

Lemma pad2_two_digits v : 0 <= v < 100 -> pad2 v = two_digits v.
Proof.
  intros Hv.
  assert (H : forallb
                (fun k => String.eqb (pad2 (Z.of_nat k))
                                     (two_digits (Z.of_nat k)))
                (seq 0 100) = true) by (vm_compute; reflexivity).
  rewrite forallb_forall in H.
  specialize (H (Z.to_nat v)).
  rewrite Z2Nat.id in H by lia.
  apply String.eqb_eq. apply H. apply in_seq. lia.
Qed.

Lemma two_digits_inj a b :
  0 <= a < 100 -> 0 <= b < 100 -> two_digits a = two_digits b -> a = b.
Proof.
  intros Ha Hb E. unfold two_digits in E.
  injection E as E1 E2.
  assert (Ba : 0 <= a / 10 < 10 /\ 0 <= a mod 10 < 10)
    by (Z.div_mod_to_equations; lia).
  assert (Bb : 0 <= b / 10 < 10 /\ 0 <= b mod 10 < 10)
    by (Z.div_mod_to_equations; lia).
  apply (f_equal Ascii.nat_of_ascii) in E1, E2.
  rewrite !Ascii.nat_ascii_embedding in E1, E2 by lia.
  assert (a / 10 = b / 10) by lia.
  assert (a mod 10 = b mod 10) by lia.
  Z.div_mod_to_equations. lia.
Qed.

(** X17.  Below 24 hours the dashboard and the report agree: for a
    total from 0 up to, but not reaching, 86400 s the report's time
    column is the dashboard's [formatTime]. *)
Theorem X17_renderings_agree_below_a_day q :
  (0 <= q)%Q -> (q < 86400)%Q ->
  report_time q = Some (formatTime q).
Proof.
  intros H0 H1.
  destruct (Qfloor_bounds q 0 86400 H0 H1) as (Hn0 & Hn1).
  rewrite report_time_nonneg, formatTime_nonneg; auto.
  - set (n := Qfloor q) in *. clearbody n.
    rewrite Z.mod_small by lia. unfold hh_mm_ss.
    rewrite !pad2_two_digits; [reflexivity| | |];
      Z.div_mod_to_equations; lia.
  - eapply Qlt_trans; [exact H1|reflexivity].
Qed.

(** X18.  From 24 hours on they differ: for a total from 86400 s up to,
    but not reaching, 100 hours the report's time column is not the
    dashboard's [formatTime] (the report has lost the full days). *)
Theorem X18_renderings_differ_from_a_day_on q :
  (86400 <= q)%Q -> (q < 360000)%Q ->
  report_time q <> Some (formatTime q).
Proof.
  intros H0 H1.
  assert (H0' : (0 <= q)%Q)
    by (eapply Qle_trans; [|exact H0]; discriminate).
  destruct (Qfloor_bounds q 86400 360000 H0 H1) as (Hn0 & Hn1).
  rewrite report_time_nonneg, formatTime_nonneg; auto.
  - set (n := Qfloor q) in *. clearbody n. unfold hh_mm_ss.
    rewrite (pad2_two_digits (n / 3600))
      by (Z.div_mod_to_equations; lia).
    intros E.
    apply (f_equal (fun o => match o with
                             | Some x => x
                             | None => EmptyString
                             end)) in E.
    assert (Hh : two_digits (n mod 86400 / 3600) = two_digits (n / 3600)).
    { unfold two_digits in *. cbn [append] in E.
      injection E as E1 E2 _.
      f_equal; [exact E1|f_equal; exact E2]. }
    apply two_digits_inj in Hh; Z.div_mod_to_equations; lia.
  - eapply Qlt_trans; [exact H1|reflexivity].
Qed.
End Renderings.

(** ** The clients follow the backend *)

Lemma delivered_to_map_In s recipients ev :
  NoDup recipients -> In s recipients ->
  delivered_to s (List.map (fun r => (r, ev)) recipients) = [ev].
Proof.
  unfold delivered_to. induction 1 as [|r rest Hr Hnd IH]; [intros []|].
  cbn. intros [->|Hin].
  - rewrite Nat.eqb_refl. cbn. f_equal.
    clear IH Hnd. induction rest as [|x rest IH]; cbn; [reflexivity|].
    destruct (Nat.eqb_spec x s) as [->|Hne].
    + exfalso. apply Hr. now left.
    + apply IH. intros H. apply Hr. now right.
  - destruct (Nat.eqb_spec r s) as [->|Hne]; [contradiction|].
    now apply IH.
Qed.

Lemma delivered_to_map_notIn s recipients ev :
  ~ In s recipients ->
  delivered_to s (List.map (fun r => (r, ev)) recipients) = [].
Proof.
  unfold delivered_to. intros Hs.
  induction recipients as [|r rest IH]; cbn; [reflexivity|].
  destruct (Nat.eqb_spec r s) as [->|Hne].
  - exfalso. apply Hs. now left.
  - apply IH. intros H. apply Hs. now right.
Qed.

Lemma delivered_between_app s b b' l :
  queryOutbox b' = queryOutbox b ++ l ->
  delivered_between s b b' = delivered_to s l.
Proof.
  intros E. unfold delivered_between, delivered_to. rewrite E.
  rewrite filter_app, map_app.
  rewrite skipn_app, skipn_all, Nat.sub_diag. reflexivity.
Qed.

Lemma delivered_between_same s b b' :
  queryOutbox b' = queryOutbox b -> delivered_between s b b' = [].
Proof.
  intros E. rewrite (delivered_between_app s b b' []).
  - reflexivity.
  - now rewrite app_nil_r.
Qed.

Section Clients.
Variable startOfDay : Date -> Date.
Variable clock : nat -> Date.
Variable bcrypt_hash : string -> string.

Local Abbreviation bstep := (backend_step startOfDay clock bcrypt_hash).

(** What a request does to the queries and to their deliveries. *)
Lemma backend_step_cases b r :
  (Queries (bstep b r) = Queries b /\
   queryOutbox (bstep b r) = queryOutbox b) \/
  (exists q,
     Queries (bstep b r) = Queries b ++ [q] /\
     Query._id q = nextQueryId b /\
     Query.status q = Query.pending /\
     Query.createdAt q = clock (ticks (world b)) /\
     queryOutbox (bstep b r)
     = queryOutbox b ++
       List.map (fun s => (s, ev_newQuery q))
                (room_members (Query.teacher q) (world b))) \/
  (exists l1 q l2 q',
     Queries b = l1 ++ q :: l2 /\
     Queries (bstep b r) = l1 ++ q' :: l2 /\
     same_query q q' /\
     (Query.status q' = Query.pending ->
      Query.status q = Query.pending) /\
     queryOutbox (bstep b r)
     = queryOutbox b ++
       List.map (fun s => (s, ev_queryUpdated q')) (sockets (world b))).
Proof.
  destruct r as [r|n t [id|] qfails|tid qfails|id tid qfails|id res qfails];
    cbn [backend_step].
  - left. auto.
  - unfold post_queries.
    destruct (String.eqb n "" || String.eqb t ""); cbn; [left; auto|].
    destruct (qfails Op_Query_save); cbn; [left; auto|].
    right. left. eexists. repeat split.
  - left. auto.
  - unfold get_queries_teacher.
    destruct (qfails Op_Query_find); left; auto.
  - unfold put_queries_end.
    destruct (qfails Op_Query_findOneAndUpdate); cbn; [left; auto|].
    destruct (findOneAndUpdate_spec
                (fun q => Nat.eqb (Query._id q) id
                          && Nat.eqb (Query.teacher q) tid)
                (Query.set_ended (clock (ticks (world b)))) (Queries b))
      as [(_ & E)|(l1 & q & l2 & Hcoll & _ & _ & E)];
      rewrite E; cbn; [left; auto|].
    right. right.
    exists l1, q, l2, (Query.set_ended (clock (ticks (world b))) q).
    repeat split; auto. cbn. discriminate.
  - unfold put_queries_resolve.
    destruct (parse_resolution res) as [res'|]; [|left; auto].
    destruct (qfails Op_Query_findByIdAndUpdate); cbn; [left; auto|].
    destruct (findOneAndUpdate_spec
                (fun q => Nat.eqb (Query._id q) id)
                (Query.set_resolution res' (clock (ticks (world b))))
                (Queries b))
      as [(_ & E)|(l1 & q & l2 & Hcoll & _ & _ & E)];
      rewrite E; cbn; [left; auto|].
    right. right.
    exists l1, q, l2,
      (Query.set_resolution res' (clock (ticks (world b))) q).
    repeat split; auto.
Qed.

Lemma student_handle_update q q' l1 l2 mine :
  NoDup (List.map Query._id (l1 ++ q :: l2)) ->
  Query._id q' = Query._id q ->
  Forall (fun x => In x (l1 ++ q :: l2)) mine ->
  Forall (fun x => In x (l1 ++ q' :: l2))
         (StudentApp.handleQueryUpdate q' mine).
Proof.
  intros Hnd Hid Hmine. unfold StudentApp.handleQueryUpdate.
  apply Forall_map. eapply Forall_impl; [|exact Hmine].
  intros x Hx. cbn.
  destruct (Nat.eqb_spec (Query._id x) (Query._id q')) as [E|Hne].
  - apply in_or_app. right. now left.
  - apply in_app_or in Hx. destruct Hx as [Hx|[<-|Hx]].
    + apply in_or_app. now left.
    + congruence.
    + apply in_or_app. right. now right.
Qed.

Lemma student_ignores_newQuery s q recipients mine :
  handle_all StudentApp.on_event
    (delivered_to s (List.map (fun s0 => (s0, ev_newQuery q)) recipients))
    mine
  = mine.
Proof.
  unfold delivered_to.
  induction recipients as [|x l IH]; cbn; [reflexivity|].
  destruct (Nat.eqb x s); cbn; exact IH.
Qed.

(** X19.  The student's list is never stale.  Let the stored queries
    have distinct [_id]s, the student's socket be connected (once), and
    every query of the student's list be a stored query.  Then after
    any request, once the student app has handled the events the
    request delivered to its socket, every query of its list is again
    a stored query: it shows the status and resolution as stored. *)
Theorem X19_student_list_follows_store s mine b r :
  NoDup (List.map Query._id (Queries b)) ->
  NoDup (sockets (world b)) -> In s (sockets (world b)) ->
  Forall (fun q => In q (Queries b)) mine ->
  Forall (fun q => In q (Queries (bstep b r)))
         (handle_all StudentApp.on_event
                     (delivered_between s b (bstep b r)) mine).
Proof.
  intros Hnd Hsock Hs Hmine.
  destruct (backend_step_cases b r)
    as [(EQ & EO)|[(q & EQ & _ & _ & _ & EO)
                  |(l1 & q & l2 & q' & Hb & EQ & Hsame & _ & EO)]];
    rewrite EQ.
  - rewrite (delivered_between_same s _ _ EO). exact Hmine.
  - rewrite (delivered_between_app s _ _ _ EO).
    rewrite student_ignores_newQuery.
    eapply Forall_impl; [|exact Hmine].
    intros x Hx. apply in_or_app. now left.
  - rewrite (delivered_between_app s _ _ _ EO).
    rewrite delivered_to_map_In by assumption. cbn.
    rewrite Hb in Hnd, Hmine.
    apply student_handle_update with (q := q); auto.
    now destruct Hsame.
Qed.
(** *** The teacher dashboard *)

Local Abbreviation newer_first :=
  (fun x y : Query.t => (Query.createdAt y <= Query.createdAt x)%Z).

Lemma insert_desc_head x l :
  Forall (fun z => (Query.createdAt z <= Query.createdAt x)%Z) l ->
  Query.insert_desc x l = x :: l.
Proof.
  destruct l as [|y l]; cbn; [reflexivity|].
  intros H. inversion H; subst.
  destruct (Z.leb_spec (Query.createdAt y) (Query.createdAt x));
    [reflexivity|lia].
Qed.

Lemma filter_insert_desc (p : Query.t -> bool) x l :
  StronglySorted newer_first l ->
  List.filter p (Query.insert_desc x l)
  = if p x then Query.insert_desc x (List.filter p l) else List.filter p l.
Proof.
  induction 1 as [|y l Hl IH Hy]; cbn.
  - now destruct (p x).
  - destruct (Z.leb_spec (Query.createdAt y) (Query.createdAt x)) as [Hle|Hgt].
    + cbn. destruct (p x) eqn:Px; [|reflexivity].
      symmetry. apply insert_desc_head.
      destruct (p y).
      * constructor; [exact Hle|].
        apply Forall_forall. intros z Hz. apply filter_In in Hz.
        rewrite Forall_forall in Hy. specialize (Hy z (proj1 Hz)).
        cbn in Hy. lia.
      * apply Forall_forall. intros z Hz. apply filter_In in Hz.
        rewrite Forall_forall in Hy. specialize (Hy z (proj1 Hz)).
        cbn in Hy. lia.
    + cbn. destruct (p y) eqn:Py.
      * rewrite IH. destruct (p x); [|reflexivity].
        cbn. destruct (Z.leb_spec (Query.createdAt y) (Query.createdAt x));
          [lia|reflexivity].
      * exact IH.
Qed.

Lemma sort_filter (p : Query.t -> bool) l :
  Query.sort_createdAt_desc (List.filter p l)
  = List.filter p (Query.sort_createdAt_desc l).
Proof.
  unfold Query.sort_createdAt_desc.
  induction l as [|x l IH]; cbn [List.filter List.fold_right];
    [reflexivity|].
  rewrite filter_insert_desc by apply (sort_sorted l).
  destruct (p x); cbn [List.fold_right]; now rewrite IH.
Qed.

Lemma sort_snoc_newest q l :
  Forall (fun x => (Query.createdAt x < Query.createdAt q)%Z) l ->
  Query.sort_createdAt_desc (l ++ [q]) = q :: Query.sort_createdAt_desc l.
Proof.
  unfold Query.sort_createdAt_desc.
  induction 1 as [|x l Hx Hl IH]; cbn [List.app List.fold_right];
    [reflexivity|].
  rewrite IH. cbn [Query.insert_desc].
  destruct (Z.leb_spec (Query.createdAt q) (Query.createdAt x));
    [lia|reflexivity].
Qed.

(** Two queries with the same [_id] and [createdAt]. *)
Local Abbreviation alike :=
  (fun x y : Query.t =>
     Query._id y = Query._id x /\ Query.createdAt y = Query.createdAt x).

Lemma insert_desc_alike x x' l l' :
  alike x x' -> Forall2 alike l l' ->
  Forall2 alike (Query.insert_desc x l) (Query.insert_desc x' l').
Proof.
  intros (Hid & Hc). induction 1 as [|y y' l l' (Hyid & Hyc) Hl IH]; cbn.
  - constructor; [split; assumption|constructor].
  - rewrite Hc, Hyc.
    destruct (Query.createdAt y <=? Query.createdAt x)%Z.
    + constructor; [split; assumption|].
      constructor; [split; assumption|exact Hl].
    + constructor; [split; assumption|exact IH].
Qed.

Lemma sort_alike l l' :
  Forall2 alike l l' ->
  List.map Query._id (Query.sort_createdAt_desc l')
  = List.map Query._id (Query.sort_createdAt_desc l).
Proof.
  intros H.
  assert (H' : Forall2 alike (Query.sort_createdAt_desc l)
                             (Query.sort_createdAt_desc l')).
  { unfold Query.sort_createdAt_desc.
    induction H; cbn [List.fold_right]; [constructor|].
    now apply insert_desc_alike. }
  induction H' as [|x y ? ? (Hid & _) _ IH]; cbn; [reflexivity|].
  now rewrite Hid, IH.
Qed.

Lemma Forall2_alike_refl l : Forall2 alike l l.
Proof. induction l; constructor; auto. Qed.

Lemma map_id_filter (id : ObjectId) l :
  List.map Query._id
    (List.filter (fun q => negb (Nat.eqb (Query._id q) id)) l)
  = List.filter (fun i => negb (Nat.eqb i id)) (List.map Query._id l).
Proof.
  induction l as [|x l IH]; cbn; [reflexivity|].
  destruct (Nat.eqb (Query._id x) id); cbn; now rewrite IH.
Qed.

Lemma filter_other_ids (p : Query.t -> bool) (id : ObjectId) l :
  ~ In id (List.map Query._id l) ->
  List.filter (fun q => negb (Nat.eqb (Query._id q) id)) (List.filter p l)
  = List.filter p l.
Proof.
  intros Hid. induction l as [|x l IH]; cbn; [reflexivity|].
  cbn in Hid.
  destruct (p x); cbn.
  - destruct (Nat.eqb_spec (Query._id x) id) as [E|_]; [tauto|].
    cbn. f_equal. apply IH. tauto.
  - apply IH. tauto.
Qed.

(** X20.  The teacher dashboard follows the pending list.  Let the
    stored queries have distinct [_id]s and have been created before
    the next clock reading, and let the dashboard's socket be connected
    (once) and be a member of the room of teacher [T] and of no other
    room.  If the dashboard lists, by [_id] and in order, the teacher's
    pending list as the backend would answer it, then after any
    request, once the dashboard has handled the events the request
    delivered to its socket, it again lists the teacher's pending list
    as the backend would now answer it. *)
Theorem X20_dashboard_follows_pending_list s T dash b r :
  NoDup (List.map Query._id (Queries b)) ->
  Forall (fun q => (Query.createdAt q < clock (ticks (world b)))%Z)
         (Queries b) ->
  NoDup (sockets (world b)) -> In s (sockets (world b)) ->
  (forall room, In (s, room) (rooms (world b)) <-> room = T) ->
  List.map Query._id dash
  = List.map Query._id
      (Query.sort_createdAt_desc (Query.find_pending T (Queries b))) ->
  List.map Query._id
    (handle_all TeacherDashboard.on_event
                (delivered_between s b (bstep b r)) dash)
  = List.map Query._id
      (Query.sort_createdAt_desc
         (Query.find_pending T (Queries (bstep b r)))).
Proof.
  intros Hnd Hold Hsock Hs Hroom Hdash.
  destruct (backend_step_cases b r)
    as [(EQ & EO)|[(q & EQ & _ & Hpend & Hat & EO)
                  |(l1 & q & l2 & q' & Hb & EQ & Hsame & Hst & EO)]];
    rewrite EQ.
  - now rewrite (delivered_between_same s _ _ EO).
  - rewrite (delivered_between_app s _ _ _ EO).
    unfold Query.find_pending. rewrite filter_app. cbn [List.filter].
    unfold Query.is_pending. rewrite Hpend, andb_true_r.
    destruct (Nat.eqb_spec (Query.teacher q) T) as [HT|HT].
    + rewrite delivered_to_map_In.
      * cbn. rewrite sort_snoc_newest; [cbn; now rewrite Hdash|].
        rewrite Hat. apply Forall_forall. intros x Hx.
        apply filter_In in Hx. rewrite Forall_forall in Hold.
        apply Hold. tauto.
      * unfold room_members. now apply NoDup_filter.
      * apply room_members_spec. split; [exact Hs|]. now apply Hroom.
    + rewrite delivered_to_map_notIn.
      * cbn. now rewrite app_nil_r.
      * intros H. apply room_members_spec in H. apply HT.
        apply Hroom. tauto.
  - rewrite (delivered_between_app s _ _ _ EO).
    rewrite delivered_to_map_In by assumption. cbn.
    destruct Hsame as (Hid & _ & _ & Hteacher & Hcreated).
    rewrite Hb in Hnd. rewrite map_app in Hnd. cbn in Hnd.
    apply NoDup_remove in Hnd. destruct Hnd as (Hnd12 & Hnotin).
    rewrite in_app_iff in Hnotin.
    unfold TeacherDashboard.handleQueryUpdate.
    destruct (Query.status q') eqn:Hq'.
    + (* still pending: the dashboard keeps its list *)
      rewrite Hdash, Hb. apply sort_alike.
      unfold Query.find_pending. rewrite !filter_app. cbn [List.filter].
      unfold Query.is_pending. rewrite Hteacher, Hq', (Hst eq_refl).
      apply Forall2_app; [apply Forall2_alike_refl|].
      destruct (Nat.eqb (Query.teacher q) T); cbn.
      * constructor; [split; symmetry; assumption|apply Forall2_alike_refl].
      * apply Forall2_alike_refl.
    + (* ended: the query leaves the dashboard *)
      rewrite map_id_filter, Hdash, Hid, <- map_id_filter, <- sort_filter.
      f_equal. f_equal. rewrite Hb.
      unfold Query.find_pending. rewrite !filter_app. cbn [List.filter].
      assert (Hp' : Query.is_pending q' = false)
        by (unfold Query.is_pending; now rewrite Hq').
      rewrite Hp', andb_false_r.
      rewrite (filter_other_ids _ (Query._id q) l1) by tauto.
      f_equal.
      destruct (Nat.eqb (Query.teacher q) T && Query.is_pending q);
        cbn [List.filter].
      * rewrite Nat.eqb_refl. cbn [negb]. apply filter_other_ids; tauto.
      * apply filter_other_ids; tauto.
Qed.
(** *** The timestamps of the queries *)

Lemma step_ticks w r :
  (ticks w <= ticks (step startOfDay clock bcrypt_hash w r))%nat.
Proof.
  destruct r; cbn [step].
  - destruct (register_cases bcrypt_hash fails name email password phone
                             roomno w) as (_ & E & _). lia.
  - rewrite get_teachers_world. lia.
  - destruct (put_status_cases startOfDay clock fails teacherId
                               isAvailable w)
      as [(_ & _ & H)|[(d & _ & _ & _ & _ & H)
                      |(d & last & _ & _ & _ & _ & _ & _ & H)]];
      [lia| |lia].
    destruct isAvailable; lia.
  - destruct (my_time_world startOfDay clock fails teacherId w)
      as (_ & _ & E). lia.
  - cbn. lia.
  - cbn. lia.
  - cbn. lia.
Qed.

Lemma queries_timed_step b r :
  queries_timed clock b -> queries_timed clock (bstep b r).
Proof.
  unfold queries_timed. intros H.
  assert (Hlater : forall n, (ticks (world b) <= n)%nat ->
            Forall
              (fun q =>
                 exists k k',
                   (k <= k' < n)%nat /\
                   Query.createdAt q = clock k /\
                   Query.updatedAt q = clock k')
              (Queries b)).
  { intros n Hn. eapply Forall_impl; [|exact H].
    intros q (k & k' & Hk & E1 & E2). exists k, k'.
    repeat split; auto; lia. }
  assert (Hupd : forall l1 q l2 (f : Query.t -> Query.t),
            Queries b = l1 ++ q :: l2 ->
            Query.createdAt (f q) = Query.createdAt q ->
            Query.updatedAt (f q) = clock (ticks (world b)) ->
            Forall
              (fun q =>
                 exists k k',
                   (k <= k' < S (ticks (world b)))%nat /\
                   Query.createdAt q = clock k /\
                   Query.updatedAt q = clock k')
              (l1 ++ f q :: l2)).
  { intros l1 q l2 f Hb Hc Hu.
    specialize (Hlater (S (ticks (world b))) (Nat.le_succ_diag_r _)).
    rewrite Hb in Hlater. apply Forall_app in Hlater.
    destruct Hlater as (H1 & H2). inversion H2 as [|? ? Hq H2']; subst.
    apply Forall_app. split; [exact H1|].
    constructor; [|exact H2'].
    destruct Hq as (k & k' & Hk & E1 & _).
    exists k, (ticks (world b)). rewrite Hc, Hu. repeat split; auto; lia. }
  destruct r as [r|n t [id|] qfails|tid qfails|id tid qfails|id res qfails];
    cbn [backend_step].
  - cbn [Queries world]. apply Hlater. apply step_ticks.
  - unfold post_queries.
    destruct (String.eqb n "" || String.eqb t ""); cbn;
      [apply Hlater; lia|].
    destruct (qfails Op_Query_save); cbn; [apply Hlater; lia|].
    apply Forall_app. split; [apply Hlater; lia|].
    constructor; [|constructor].
    exists (ticks (world b)), (ticks (world b)). cbn. repeat split; lia.
  - cbn. apply Hlater; lia.
  - unfold get_queries_teacher.
    destruct (qfails Op_Query_find); cbn; apply Hlater; lia.
  - unfold put_queries_end.
    destruct (qfails Op_Query_findOneAndUpdate); cbn; [apply Hlater; lia|].
    destruct (findOneAndUpdate_spec
                (fun q => Nat.eqb (Query._id q) id
                          && Nat.eqb (Query.teacher q) tid)
                (Query.set_ended (clock (ticks (world b)))) (Queries b))
      as [(_ & E)|(l1 & q & l2 & Hcoll & _ & _ & E)];
      rewrite E; cbn; [apply Hlater; lia|].
    now apply Hupd.
  - unfold put_queries_resolve.
    destruct (parse_resolution res) as [res'|]; [|cbn; apply Hlater; lia].
    destruct (qfails Op_Query_findByIdAndUpdate); cbn; [apply Hlater; lia|].
    destruct (findOneAndUpdate_spec
                (fun q => Nat.eqb (Query._id q) id)
                (Query.set_resolution res' (clock (ticks (world b))))
                (Queries b))
      as [(_ & E)|(l1 & q & l2 & Hcoll & _ & _ & E)];
      rewrite E; cbn; [apply Hlater; lia|].
    now apply Hupd.
Qed.

(** X21.  After any sequence of requests from the empty backend, both
    timestamps of every stored query are readings the clock has already
    given, [createdAt] at or before [updatedAt] in the order of the
    readings.  So if the clock never runs backwards [createdAt] is not
    after [updatedAt], and if the clock strictly increases every stored
    query was created before the next reading. *)
Theorem X21_query_timestamps rs :
  let b := backend_run startOfDay clock bcrypt_hash initialBackend rs in
  queries_timed clock b /\
  (monotone clock ->
   Forall (fun q => (Query.createdAt q <= Query.updatedAt q)%Z)
          (Queries b)) /\
  (strictly_increasing clock ->
   Forall (fun q => (Query.createdAt q < clock (ticks (world b)))%Z)
          (Queries b)).
Proof.
  cbv zeta.
  assert (H : queries_timed clock
                (backend_run startOfDay clock bcrypt_hash initialBackend rs)).
  { assert (G : forall b, queries_timed clock b ->
                  queries_timed clock
                    (backend_run startOfDay clock bcrypt_hash b rs)).
    { induction rs as [|r rs IH]; intros b Hb; cbn; [exact Hb|].
      apply IH. now apply queries_timed_step. }
    apply G. constructor. }
  split; [exact H|split]; intros Hclock;
    (eapply Forall_impl; [|exact H]);
    intros q (k & k' & Hk & -> & E2).
  - rewrite E2. apply Hclock. lia.
  - apply Hclock. lia.
Qed.

(** *** The student's query form *)

Lemma availableTeachers_select coll :
  StudentApp.availableTeachers (Teacher.find_select_no_password coll)
  = Teacher.find_select_no_password (List.filter Teacher.isAvailable coll).
Proof.
  unfold StudentApp.availableTeachers, Teacher.find_select_no_password.
  induction coll as [|d coll IH]; cbn; [reflexivity|].
  destruct (Teacher.isAvailable d); cbn; now rewrite IH.
Qed.

(** X22.  After a status request answered 200, the roster every
    connected student app receives makes its query form offer exactly
    the teachers stored as available, in the order of the collection:
    a teacher can be chosen if and only if the stored [isAvailable] is
    true. *)
Theorem X22_query_form_offers_available_teachers
    fails teacherId a w body s :
  snd (put_teachers_status startOfDay clock fails teacherId a w)
  = Return (mkResponse 200 body) ->
  In s (sockets w) ->
  let w' := fst (put_teachers_status startOfDay clock fails teacherId a w) in
  exists roster,
    In (s, statusUpdate roster) (outbox w') /\
    List.map Teacher._id (StudentApp.availableTeachers roster)
    = List.map Teacher._id (List.filter Teacher.isAvailable (Teachers w')) /\
    (forall id,
       In id (List.map Teacher._id (StudentApp.availableTeachers roster)) <->
       exists d, In d (Teachers w') /\ Teacher._id d = id /\
                 Teacher.isAvailable d = true).
Proof.
  intros H Hs. cbv zeta.
  destruct (put_status_200 startOfDay clock _ _ _ _ _ H)
    as (d & _ & _ & _ & _ & _ & _ & Hout).
  eexists. split; [|split].
  - rewrite Hout. apply in_or_app. right. apply in_map_iff.
    exists s. split; [reflexivity|exact Hs].
  - rewrite availableTeachers_select.
    unfold Teacher.find_select_no_password. rewrite map_map. reflexivity.
  - intros id. rewrite availableTeachers_select.
    unfold Teacher.find_select_no_password. rewrite map_map. cbn.
    rewrite in_map_iff. split.
    + intros (x & E & Hx). apply filter_In in Hx. exists x. tauto.
    + intros (x & Hx & E & Hav). exists x. split; [exact E|].
      apply filter_In. tauto.
Qed.
End Clients.

(** ** Whole sessions *)

Lemma find_app_Some {A} (p : A -> bool) l l' x :
  List.find p l = Some x -> List.find p (l ++ l') = Some x.
Proof.
  induction l as [|y l IH]; cbn; [discriminate|].
  destruct (p y); [auto|exact IH].
Qed.

Section Sessions.
Variable startOfDay : Date -> Date.
Variable clock : nat -> Date.
Variable bcrypt_hash : string -> string.

Local Abbreviation put_status := (put_teachers_status startOfDay clock).
Local Abbreviation wstep := (step startOfDay clock bcrypt_hash).
Local Abbreviation wrun := (run startOfDay clock bcrypt_hash).

(** A request that is not a status request of [teacherId] leaves that
    teacher's document as it is. *)
Lemma step_keeps_teacher w r teacherId d :
  (forall a fails, r <> PutStatus teacherId a fails) ->
  Teacher.findById teacherId (Teachers w) = Some d ->
  Teacher.findById teacherId (Teachers (wstep w r)) = Some d.
Proof.
  intros Hr Hfind. destruct r; cbn [step].
  - destruct (register_cases bcrypt_hash fails name email password phone
                             roomno w) as (_ & _ & [E|E]); rewrite E;
      [exact Hfind|].
    unfold Teacher.findById in *. now apply find_app_Some.
  - now rewrite get_teachers_world.
  - destruct (Nat.eq_dec teacherId0 teacherId) as [->|Hne].
    + exfalso. now apply (Hr isAvailable fails).
    + destruct (put_status_Teachers startOfDay clock fails teacherId0
                                    isAvailable w)
        as [E|(d0 & stamp & Hf & E)]; rewrite E; [exact Hfind|].
      rewrite findById_save_other; [exact Hfind|].
      cbn. rewrite (findById_id _ _ _ Hf). exact Hne.
  - now rewrite (proj1 (my_time_world startOfDay clock fails teacherId0 w)).
  - exact Hfind.
  - exact Hfind.
  - exact Hfind.
Qed.

Lemma run_keeps_teacher rs : forall w teacherId d,
  Forall (fun r => forall a fails, r <> PutStatus teacherId a fails) rs ->
  Teacher.findById teacherId (Teachers w) = Some d ->
  Teacher.findById teacherId (Teachers (wrun w rs)) = Some d.
Proof.
  induction rs as [|r rs IH]; intros w teacherId d Hrs Hfind; cbn;
    [exact Hfind|].
  inversion Hrs; subst. apply IH; [assumption|].
  now apply step_keeps_teacher.
Qed.

(** X23.  A session is accounted in full.  A teacher goes available
    without a store failure, any requests other than that teacher's own
    status requests are served, and then the teacher goes unavailable
    without a store failure.  Then the day's total of the teacher grows
    by exactly the time between the clock reading of the first request
    and the first clock reading of the last one, divided by 1000,
    whatever happened in between. *)
Theorem X23_session_accounted_in_full fails1 fails2 w teacherId d rs :
  served fails1 -> served fails2 ->
  Teacher.findById teacherId (Teachers w) = Some d ->
  Forall (fun r => forall a fails, r <> PutStatus teacherId a fails) rs ->
  let w1 := fst (put_status fails1 teacherId true w) in
  let w2 := wrun w1 rs in
  let w3 := fst (put_status fails2 teacherId false w2) in
  let today := startOfDay (clock (S (ticks w2))) in
  snd (put_status fails2 teacherId false w2)
  = Return (mkResponse 200 (TeacherDoc (with_status d false None))) /\
  ledger_get teacherId today (TimeRecords w3)
  = (ledger_get teacherId today (TimeRecords w2)
     + inject_Z (clock (ticks w2) - clock (ticks w)) / 1000)%Q.
Proof.
  intros (F1 & _ & F3 & F4) Hs2 Hfind Hrs. cbv zeta.
  set (d1 := with_status d true (Some (clock (ticks w)))).
  assert (Hw1 : Teacher.findById teacherId
                  (Teachers (fst (put_status fails1 teacherId true w)))
                = Some d1).
  { unfold_handler. rewrite F1. cbn. rewrite Hfind. cbn.
    rewrite andb_false_r. cbn. rewrite F3. cbn. rewrite F4. cbn.
    exact (findById_save teacherId (Teachers w) d d1 Hfind eq_refl). }
  pose proof (run_keeps_teacher rs _ _ _ Hrs Hw1) as Hw2.
  rewrite (put_status_down startOfDay clock fails2 _ teacherId d1
             (clock (ticks w)) Hs2 Hw2 eq_refl eq_refl).
  cbn [fst snd TimeRecords]. split; [reflexivity|].
  apply inc_get_same.
Qed.

(** X24.  A rejected save after the ledger write counts the session
    twice.  When a teacher available since [last] asks to become
    unavailable and only the save is rejected, the answer is 500, the
    ledger has already been incremented by the session so far and the
    teacher is still stored as available since [last].  A retry without
    failure then adds the whole session again, from [last] to the
    retry: on one day the total has grown by both amounts. *)
Theorem X24_rejected_save_counts_twice w teacherId d last :
  Teacher.findById teacherId (Teachers w) = Some d ->
  Teacher.isAvailable d = true ->
  Teacher.lastAvailableTimestamp d = Some last ->
  let fails := only_fails Op_Teacher_save in
  let w1 := fst (put_status fails teacherId false w) in
  let w2 := fst (put_status no_faults teacherId false w1) in
  let first := sessionDuration (clock (ticks w)) last in
  let second := sessionDuration (clock (ticks w1)) last in
  snd (put_status fails teacherId false w)
  = Return (mkResponse 500 (Message "Server error updating status.")) /\
  Teacher.findById teacherId (Teachers w1) = Some d /\
  outbox w1 = outbox w /\
  (forall day,
     startOfDay (clock (S (ticks w))) = day ->
     startOfDay (clock (S (ticks w1))) = day ->
     (ledger_get teacherId day (TimeRecords w2)
      == ledger_get teacherId day (TimeRecords w) + first + second)%Q) /\
  ticks w1 = S (S (ticks w)) /\
  ((clock (ticks w) <= clock (ticks w1))%Z ->
   (last <= clock (ticks w))%Z ->
   (0 <= first)%Q /\ (first <= second)%Q).
Proof.
  intros Hfind Hav Hts. cbv zeta.
  assert (E1 : put_status (only_fails Op_Teacher_save) teacherId false w
               = (mkWorld (Teachers w)
                    (TimeRecord.findOneAndUpdate_inc teacherId
                       (startOfDay (clock (S (ticks w))))
                       (sessionDuration (clock (ticks w)) last)
                       (TimeRecords w))
                    (nextObjectId w) (S (S (ticks w))) (sockets w)
                    (rooms w) (outbox w),
                  Return (mkResponse 500
                            (Message "Server error updating status.")))).
  { unfold_handler. cbn. rewrite Hfind, Hav. cbn. rewrite Hts. reflexivity. }
  set (w1 := fst (put_status (only_fails Op_Teacher_save) teacherId false w)).
  assert (ET : Teachers w1 = Teachers w) by (unfold w1; now rewrite E1).
  assert (ER : TimeRecords w1
               = TimeRecord.findOneAndUpdate_inc teacherId
                   (startOfDay (clock (S (ticks w))))
                   (sessionDuration (clock (ticks w)) last) (TimeRecords w))
    by (unfold w1; now rewrite E1).
  assert (Eticks : ticks w1 = S (S (ticks w)))
    by (unfold w1; now rewrite E1).
  assert (Hfind1 : Teacher.findById teacherId (Teachers w1) = Some d)
    by (rewrite ET; exact Hfind).
  split; [now rewrite E1|split; [exact Hfind1|split]].
  - unfold w1. now rewrite E1.
  - split; [|split; [exact Eticks|]].
    + intros day Hd1 Hd2.
      rewrite (put_status_down startOfDay clock no_faults w1 teacherId d
                 last served_no_faults Hfind1 Hav Hts).
      cbn [fst TimeRecords].
      rewrite Hd2, inc_get_same, ER, Hd1, inc_get_same. reflexivity.
    + intros Hclock Hlast. split.
      * now apply sessionDuration_nonneg.
      * unfold sessionDuration, Qle, Qdiv, Qmult, Qinv, inject_Z. cbn. lia.
Qed.
End Sessions.

(** ** The further properties at concrete runs *)

Local Abbreviation T_open := (with_status teacher_T true (Some 0%Z)).

(** X1 at a registration without a name. *)
Lemma X1_witness :
  post_auth_register sample_hash no_faults "" "t@school.example" "secret"
                     "555-0100" "R101" initialWorld
  = (initialWorld,
     Return (mkResponse 400 (Message "Please provide all required fields."))).
Proof.
  apply (proj2 (X1_register_outcome sample_hash no_faults ""
                  "t@school.example" "secret" "555-0100" "R101"
                  initialWorld)).
  left. reflexivity.
Defined.

(** X2 at a request to go available. *)
Lemma X2_witness :
  teachers_wf (world_T clock_125) /\ teachers_wf (world_open clock_125).
Proof.
  assert (H : teachers_wf (world_T clock_125)).
  { repeat split; cbn.
    - constructor; [intros []|constructor].
    - constructor; [intros []|constructor].
    - constructor; [apply Nat.lt_0_1|constructor]. }
  split; [exact H|].
  exact (proj2 (X2_teacher_ids_and_emails_unique utc_startOfDay clock_125
                  sample_hash)
               (world_T clock_125) (PutStatus 0 true no_faults) H).
Defined.

(** X3 at a status request of a teacher that does not exist. *)
Lemma X3_witness :
  Teacher.findById 5 (Teachers (world_T clock_125)) = None /\
  put_teachers_status utc_startOfDay clock_125 no_faults 5%nat true
                      (world_T clock_125)
  = (world_T clock_125,
     Return (mkResponse 404 (Message "Teacher not found."))).
Proof.
  split; [reflexivity|].
  apply (X3_status_touches_own_document_only utc_startOfDay clock_125
           no_faults 5%nat true (world_T clock_125)); reflexivity.
Defined.

(** X4 at a login with an email nobody has. *)
Lemma X4_witness :
  Teacher.findOne_email "x@school.example" (Teachers (world_T clock_125))
  = None /\
  snd (post_auth_login sample_compare sample_sign no_faults
         "x@school.example" "secret" (world_T clock_125))
  = Return (400%nat, LoginMessage "Invalid credentials.").
Proof.
  split; [reflexivity|].
  apply (X4_login sample_compare sample_sign no_faults "x@school.example"
           "secret" (world_T clock_125)); reflexivity.
Defined.

(** X5 at a status request without a token. *)
Lemma X5_witness :
  fst (PUT_teachers_status utc_startOfDay clock_125 sample_verify no_faults
         None true (world_T clock_125))
  = world_T clock_125.
Proof.
  apply (proj1 (X5_protected_routes_need_a_token utc_startOfDay clock_125
                  sample_verify no_faults no_qfaults None true 0%nat
                  (world_T clock_125) (backend_joined clock_125))).
  intros id (tok & E & _). discriminate E.
Defined.

(** X6 from the empty store. *)
Lemma X6_witness :
  sample_compare "secret" (sample_hash "secret") = true /\
  sample_verify (sample_sign 0) = Some 0%nat /\
  post_auth_login sample_compare sample_sign no_faults "t@school.example"
    "secret"
    (fst (post_auth_register sample_hash no_faults "T" "t@school.example"
            "secret" "555-0100" "R101" initialWorld))
  = (fst (post_auth_register sample_hash no_faults "T" "t@school.example"
            "secret" "555-0100" "R101" initialWorld),
     Return (200%nat,
             LoginToken (sample_sign 0) 0 "T" "t@school.example" false)).
Proof.
  split; [reflexivity|split; [reflexivity|]].
  apply (X6_register_login_go_available utc_startOfDay clock_125
           sample_hash sample_compare sample_sign sample_verify
           "T" "t@school.example" "secret" "555-0100" "R101" initialWorld);
    try discriminate; try reflexivity.
  constructor.
Defined.

(** X7 at a question for teacher T. *)
Lemma X7_witness :
  let b := backend_joined clock_steady in
  let out := post_queries clock_steady no_qfaults "Ann" "Recursion?"
                          (Some 0%nat) b in
  snd out = mkQueryResponse 201 (QueryDoc query_Ann) /\
  queryOutbox (fst out) = [(7%nat, ev_newQuery query_Ann)].
Proof.
  cbv zeta.
  destruct (proj2 (X7_post_query clock_steady no_qfaults "Ann" "Recursion?"
                     (Some 0%nat) (backend_joined clock_steady))
                  0%nat) as (H1 & _ & _ & H4 & _);
    try discriminate; try reflexivity.
  split; [exact H1|exact H4].
Defined.

(** X8 at another teacher's attempt to end the question. *)
Lemma X8_witness :
  let b := backend_asked clock_steady in
  snd (put_queries_end clock_steady no_qfaults 0 1 b)
  = mkQueryResponse 404 (QueryMessage "Query not found or unauthorized.") /\
  Queries (fst (put_queries_end clock_steady no_qfaults 0 1 b)) = Queries b.
Proof.
  cbv zeta.
  destruct (proj1 (X8_end_query clock_steady no_qfaults 0 1
                     (backend_asked clock_steady)))
    as (H1 & H2 & _).
  - intros q [<-|[]] _. discriminate.
  - reflexivity.
  - split; [exact H1|exact H2].
Defined.

(** X9 at the pending list of teacher T. *)
Lemma X9_witness :
  exists l,
    get_queries_teacher no_qfaults 0 (backend_asked clock_steady)
    = (backend_asked clock_steady, mkQueryResponse 200 (QueryList l)) /\
    Permutation l [query_Ann].
Proof.
  destruct (X9_pending_list no_qfaults 0 (backend_asked clock_steady)
              eq_refl) as (l & E & P & _).
  exists l. split; [exact E|exact P].
Defined.

(** X10 at a resolution that is neither of the two values. *)
Lemma X10_witness :
  put_queries_resolve clock_steady no_qfaults 0 "maybe"
                      (backend_asked clock_steady)
  = (backend_asked clock_steady,
     mkQueryResponse 400 (QueryMessage "Invalid resolution value.")).
Proof.
  apply (X10_resolve_query clock_steady no_qfaults 0 "maybe"%string
           (backend_asked clock_steady)); discriminate.
Defined.

(** X11 at the question, through its ending. *)
Lemma X11_witness :
  In query_Ann (Queries (backend_asked clock_steady)) /\
  exists q',
    In q' (Queries
             (backend_run utc_startOfDay clock_steady sample_hash
                (backend_asked clock_steady) [EndQuery 0 0 no_qfaults])) /\
    same_query query_Ann q'.
Proof.
  assert (H : In query_Ann (Queries (backend_asked clock_steady)))
    by (left; reflexivity).
  split; [exact H|].
  destruct (proj2 (X11_query_lifecycle utc_startOfDay clock_steady
                     sample_hash)
                  [EndQuery 0 0 no_qfaults] (backend_asked clock_steady)
                  query_Ann H) as (q' & Hin & Hsame & _).
  exists q'. split; [exact Hin|exact Hsame].
Defined.

(** X12 at the ending of the question by teacher T. *)
Lemma X12_witness :
  let b := backend_asked clock_steady in
  let b' := fst (put_queries_end clock_steady no_qfaults 0 0 b) in
  snd (put_queries_end clock_steady no_qfaults 0 0 b)
  = mkQueryResponse 200
      (QueryDoc (Query.set_ended 1500%Z query_Ann)) /\
  forall x,
    In x (Query.sort_createdAt_desc (Query.find_pending 0 (Queries b'))) ->
    Query._id x <> 0%nat.
Proof.
  cbv zeta. split; [reflexivity|].
  apply (X12_ended_query_leaves_pending_list clock_steady no_qfaults 0 0
           (backend_asked clock_steady)
           (Query.set_ended 1500%Z query_Ann)) with (qfails' := no_qfaults).
  - constructor; [intros []|constructor].
  - reflexivity.
  - reflexivity.
Defined.

(** X13 at a question asked after the dashboard's socket has left. *)
Lemma X13_witness :
  let b0 := backend_step utc_startOfDay clock_steady sample_hash
              (backend_asked clock_steady) (OnWorld (Disconnect 7%nat)) in
  let b1 := backend_run utc_startOfDay clock_steady sample_hash b0
              [PostQuery "Bob" "Loops?" (Some 0%nat) no_qfaults] in
  List.filter (fun m => Nat.eqb (fst m) 7) (queryOutbox b1)
  = List.filter (fun m => Nat.eqb (fst m) 7) (queryOutbox b0).
Proof.
  cbv zeta.
  apply (X13_no_delivery_after_disconnect utc_startOfDay clock_steady
           sample_hash 7%nat
           [PostQuery "Bob" "Loops?" (Some 0%nat) no_qfaults]
           (backend_asked clock_steady)).
  constructor; [discriminate|constructor].
Defined.

(** X14 at socket 7 joining the room of teacher T. *)
Lemma X14_witness :
  NoDup (sockets (world_T clock_125)) /\
  NoDup (room_members 0 (on_joinRoom 7 0 (world_T clock_125))).
Proof.
  assert (H : NoDup (sockets (world_T clock_125)))
    by (constructor; [intros []|constructor]).
  split; [exact H|].
  exact (proj2 (proj2 (X14_join_room 7 0 (world_T clock_125))) H 0%nat).
Defined.

(** X15 at a total of 25 hours. *)
Lemma X15_witness :
  (0 <= 90000)%Q /\ (90000 < 253402300800)%Q /\
  report_time 90000 = Some (hh_mm_ss (Qfloor 90000 mod 86400)).
Proof.
  assert (H0 : (0 <= 90000)%Q) by discriminate.
  assert (H1 : (90000 < 253402300800)%Q) by reflexivity.
  split; [exact H0|split; [exact H1|]].
  exact (proj1 (X15_report_time 90000 H0 H1)).
Defined.

(** X16 at a total of 125 s. *)
Lemma X16_witness :
  (0 <= 125)%Q /\
  formatTime 125
  = (pad2 (Qfloor 125 / 3600) ++ ":" ++ pad2 (Qfloor 125 mod 3600 / 60)
     ++ ":" ++ pad2 (Qfloor 125 mod 60))%string.
Proof.
  assert (H0 : (0 <= 125)%Q) by discriminate.
  split; [exact H0|].
  exact (proj1 (proj2 (X16_formatTime 125) H0)).
Defined.

(** X17 at a total of 125 s. *)
Lemma X17_witness :
  (0 <= 125)%Q /\ (125 < 86400)%Q /\
  report_time 125 = Some (formatTime 125).
Proof.
  assert (H0 : (0 <= 125)%Q) by discriminate.
  assert (H1 : (125 < 86400)%Q) by reflexivity.
  split; [exact H0|split; [exact H1|]].
  exact (X17_renderings_agree_below_a_day 125 H0 H1).
Defined.

(** X18 at a total of 25 hours. *)
Lemma X18_witness :
  (86400 <= 90000)%Q /\ (90000 < 360000)%Q /\
  report_time 90000 <> Some (formatTime 90000).
Proof.
  assert (H0 : (86400 <= 90000)%Q) by discriminate.
  assert (H1 : (90000 < 360000)%Q) by reflexivity.
  split; [exact H0|split; [exact H1|]].
  exact (X18_renderings_differ_from_a_day_on 90000 H0 H1).
Defined.

Lemma backend_asked_ids :
  NoDup (List.map Query._id (Queries (backend_asked clock_steady))).
Proof. constructor; [intros []|constructor]. Qed.

Lemma backend_asked_sockets :
  NoDup (sockets (world (backend_asked clock_steady))).
Proof. constructor; [intros []|constructor]. Qed.

(** X19 at the ending of the question, seen by the student on socket
    7. *)
Lemma X19_witness :
  let b := backend_asked clock_steady in
  let r := EndQuery 0 0 no_qfaults in
  let b' := backend_step utc_startOfDay clock_steady sample_hash b r in
  Forall (fun q => In q (Queries b)) [query_Ann] /\
  Forall (fun q => In q (Queries b'))
         (handle_all StudentApp.on_event (delivered_between 7 b b')
                     [query_Ann]).
Proof.
  cbv zeta.
  assert (H : Forall (fun q => In q (Queries (backend_asked clock_steady)))
                     [query_Ann])
    by (constructor; [left; reflexivity|constructor]).
  split; [exact H|].
  apply (X19_student_list_follows_store utc_startOfDay clock_steady
           sample_hash 7%nat [query_Ann] (backend_asked clock_steady)
           (EndQuery 0 0 no_qfaults)
           backend_asked_ids backend_asked_sockets).
  - left. reflexivity.
  - exact H.
Defined.

(** X20 at the ending of the question, seen by the dashboard of teacher
    T on socket 7. *)
Lemma X20_witness :
  let b := backend_asked clock_steady in
  let r := EndQuery 0 0 no_qfaults in
  let b' := backend_step utc_startOfDay clock_steady sample_hash b r in
  List.map Query._id
    (handle_all TeacherDashboard.on_event (delivered_between 7 b b')
                [query_Ann])
  = List.map Query._id
      (Query.sort_createdAt_desc (Query.find_pending 0 (Queries b'))).
Proof.
  cbv zeta.
  apply (X20_dashboard_follows_pending_list utc_startOfDay clock_steady
           sample_hash 7%nat 0%nat [query_Ann] (backend_asked clock_steady)
           (EndQuery 0 0 no_qfaults)
           backend_asked_ids).
  - constructor; [reflexivity|constructor].
  - exact backend_asked_sockets.
  - left. reflexivity.
  - intros room. split.
    + intros [E|[]]. now injection E as <-.
    + intros ->. left. reflexivity.
  - reflexivity.
Defined.

Lemma clock_steady_increasing : strictly_increasing clock_steady.
Proof. intros i j H. unfold clock_steady. lia. Qed.

(** X21 under a clock that gives a reading every 1.5 s. *)
Lemma X21_witness :
  let b := backend_run utc_startOfDay clock_steady sample_hash
             initialBackend
             [PostQuery "Ann" "Recursion?" (Some 0%nat) no_qfaults;
              EndQuery 0 0 no_qfaults] in
  monotone clock_steady /\
  Forall (fun q => (Query.createdAt q <= Query.updatedAt q)%Z) (Queries b).
Proof.
  cbv zeta. split; [exact clock_steady_monotone|].
  exact (proj1 (proj2 (X21_query_timestamps utc_startOfDay clock_steady
                         sample_hash
                         [PostQuery "Ann" "Recursion?" (Some 0%nat)
                                    no_qfaults;
                          EndQuery 0 0 no_qfaults]))
               clock_steady_monotone).
Defined.

(** X22 at teacher T going available while socket 7 is connected. *)
Lemma X22_witness :
  let w := world_T clock_125 in
  let w' := fst (put_teachers_status utc_startOfDay clock_125 no_faults
                   0%nat true w) in
  In 7%nat (sockets w) /\
  exists roster,
    In (7%nat, statusUpdate roster) (outbox w') /\
    List.map Teacher._id (StudentApp.availableTeachers roster)
    = List.map Teacher._id (List.filter Teacher.isAvailable (Teachers w')).
Proof.
  cbv zeta.
  assert (Hs : In 7%nat (sockets (world_T clock_125)))
    by (left; reflexivity).
  split; [exact Hs|].
  destruct (X22_query_form_offers_available_teachers utc_startOfDay
              clock_125 no_faults 0%nat true (world_T clock_125)
              (TeacherDoc T_open) 7%nat eq_refl Hs)
    as (roster & H1 & H2 & _).
  exists roster. split; [exact H1|exact H2].
Defined.

(** X23 at the session from 0 s to 125 s with a roster query in
    between. *)
Lemma X23_witness :
  let clock := clock_of [0; 60000; 125000; 125000]%Z 125000%Z in
  let w1 := fst (put_teachers_status utc_startOfDay clock no_faults
                   0%nat true (world_T clock)) in
  let w2 := run utc_startOfDay clock sample_hash w1
              [GetMyTime 0 no_faults] in
  let w3 := fst (put_teachers_status utc_startOfDay clock no_faults
                   0%nat false w2) in
  ledger_get 0 0%Z (TimeRecords w3)
  = (ledger_get 0%nat 0%Z (TimeRecords w2)
     + inject_Z (125000 - 0) / 1000)%Q.
Proof.
  cbv zeta.
  apply (X23_session_accounted_in_full utc_startOfDay
           (clock_of [0; 60000; 125000; 125000]%Z 125000%Z) sample_hash
           no_faults no_faults
           (world_T (clock_of [0; 60000; 125000; 125000]%Z 125000%Z))
           0%nat teacher_T [GetMyTime 0 no_faults]
           served_no_faults served_no_faults eq_refl).
  constructor; [intros a fails; discriminate|constructor].
Defined.

(** X24 at the 125 s session whose first closing loses its save. *)
Lemma X24_witness :
  let w := world_open clock_125 in
  let w1 := fst (put_teachers_status utc_startOfDay clock_125
                   (only_fails Op_Teacher_save) 0%nat false w) in
  Teacher.findById 0 (Teachers w) = Some T_open /\
  snd (put_teachers_status utc_startOfDay clock_125
         (only_fails Op_Teacher_save) 0%nat false w)
  = Return (mkResponse 500 (Message "Server error updating status.")) /\
  Teacher.findById 0 (Teachers w1) = Some T_open.
Proof.
  cbv zeta.
  assert (Hf : Teacher.findById 0 (Teachers (world_open clock_125))
               = Some T_open) by reflexivity.
  split; [exact Hf|].
  destruct (X24_rejected_save_counts_twice utc_startOfDay clock_125
              (world_open clock_125) 0%nat T_open 0%Z Hf eq_refl eq_refl)
    as (H1 & H2 & _).
  split; [exact H1|exact H2].
Defined.
